(** * VASPy coordinate files: a shallow embedding of [vaspy/atomco.py]

    The development follows the Python module class by class: [AtomCo]
    (grouping, POSCAR serialisation), [XyzFile], [PosCar] (loading and
    constraint editing), [XdatCar] (frame generator) and [CifFile].

    Conventions of the embedding
    - Python 3 semantics for the built-ins ([int], [float], [str.format],
      slices, [zip]); text is ASCII.
    - [float] is IEEE binary64, represented by [spec_float] with
      [prec = 53] and [emax = 1024]; decimal conversions are exact
      (correctly rounded), as CPython's are.
    - [int] and [float] strip the white space of C ([isspace]: 9-13 and
      32) from their argument; [str.strip], [str.split] and [\s] also
      take the separators 28-31 for white space.
    - a numpy array of rows is the list of its rows; the shape rules that
      decide between a value and an [IndexError]/[ValueError] are written
      out where the source depends on them.  [np.array] of rows of
      unequal lengths differs between numpy versions; what depends on it
      takes the flag [ragged_ok] ([true]: numpy before 1.24).
    - [setattr] with a name read from a file can meet a property without
      setter or a special attribute, and can hide a method; [CifFile]
      keeps the names so set in [attrs].
    - exceptions are values of [exception]; a call that can raise returns
      [exn A]. *)

From Stdlib Require Import ZArith NArith Ascii String List Lia.
From Stdlib Require Import SpecFloat DecimalString DecimalPos DecimalN.
From stdpp Require Import base option list gmap strings.

Local Open Scope Z_scope.

(** ** Exceptions *)

Inductive exception : Type :=
  | CarfileValueError (msg : string)
  | ValueError
  | IndexError
  | AttributeError
  | TypeError.

Inductive exn (A : Type) : Type :=
  | Ok (a : A)
  | Raise (e : exception).
Arguments Ok {A} a.
Arguments Raise {A} e.

Definition ebind {A B} (m : exn A) (k : A → exn B) : exn B :=
  match m with
  | Ok a => k a
  | Raise e => Raise e
  end.

Notation "'let*' x := m 'in' k" := (ebind m (fun x => k))
  (at level 10, x pattern, m at level 100, k at level 200).

Definition raises {A} (m : exn A) : Prop :=
  match m with Ok _ => False | Raise _ => True end.

(** [[f(x) for x in l]] where [f] may raise: left to right, first error wins. *)
Fixpoint emap {A B} (f : A → exn B) (l : list A) : exn (list B) :=
  match l with
  | [] => Ok []
  | x :: l' =>
      let* y := f x in
      let* ys := emap f l' in
      Ok (y :: ys)
  end.

Definition of_option {A} (e : exception) (o : option A) : exn A :=
  match o with Some a => Ok a | None => Raise e end.

(** ** Python built-ins *)

Module Py.

Definition chars (s : string) : list ascii := list_ascii_of_string s.
Definition str (cs : list ascii) : string := string_of_list_ascii cs.

(** [str.isspace] on ASCII: TAB, LF, VT, FF, CR, FS, GS, RS, US, SPACE. *)
Definition is_space (c : ascii) : bool :=
  let n := nat_of_ascii c in
  ((9 <=? n)%nat && (n <=? 13)%nat) || ((28 <=? n)%nat && (n <=? 32)%nat).

Fixpoint lstrip_chars (cs : list ascii) : list ascii :=
  match cs with
  | c :: cs' => if is_space c then lstrip_chars cs' else cs
  | [] => []
  end.

Definition strip_chars (cs : list ascii) : list ascii :=
  rev (lstrip_chars (rev (lstrip_chars cs))).

(** [s.strip()] *)
Definition strip (s : string) : string := str (strip_chars (chars s)).

(** [s.split()]: maximal runs of non-space characters. *)
Fixpoint split_go (cur : list ascii) (cs : list ascii) : list string :=
  match cs with
  | [] => match cur with [] => [] | _ => [str (rev cur)] end
  | c :: cs' =>
      if is_space c
      then match cur with
           | [] => split_go [] cs'
           | _ => str (rev cur) :: split_go [] cs'
           end
      else split_go (c :: cur) cs'
  end.
Definition split (s : string) : list string := split_go [] (chars s).

(** [s.split(sep)] for a one-character separator: never empty. *)
Fixpoint split_on_go (sep : ascii) (cur : list ascii) (cs : list ascii)
  : list string :=
  match cs with
  | [] => [str (rev cur)]
  | c :: cs' =>
      if Ascii.eqb c sep
      then str (rev cur) :: split_on_go sep [] cs'
      else split_on_go sep (c :: cur) cs'
  end.
Definition split_on (sep : ascii) (s : string) : list string :=
  split_on_go sep [] (chars s).

(** [c in s] for a one-character [c]. *)
Definition contains (c : ascii) (s : string) : bool :=
  existsb (Ascii.eqb c) (chars s).

(** [s.startswith(p)] *)
Definition startswith (p s : string) : bool := String.prefix p s.

(** Text mode: on reading, ["\r\n"] and a lone ["\r"] become ["\n"]. *)
Fixpoint universal_newlines (cs : list ascii) : list ascii :=
  match cs with
  | [] => []
  | c :: cs' =>
      if Ascii.eqb c "013"%char
      then "010"%char ::
           match cs' with
           | c' :: cs'' =>
               if Ascii.eqb c' "010"%char then universal_newlines cs''
               else universal_newlines cs'
           | [] => []
           end
      else c :: universal_newlines cs'
  end.

(** [f.readlines()]: lines keep their terminating newline. *)
Fixpoint readlines_go (cur : list ascii) (cs : list ascii) : list string :=
  match cs with
  | [] => match cur with [] => [] | _ => [str (rev cur)] end
  | c :: cs' =>
      if Ascii.eqb c "010"%char
      then str (rev (c :: cur)) :: readlines_go [] cs'
      else readlines_go (c :: cur) cs'
  end.
Definition readlines (content : string) : list string :=
  readlines_go [] (universal_newlines (chars content)).

(** [f.readline()]: the next line, or [''] at end of file. *)
Definition readline (f : list string) : string * list string :=
  match f with
  | [] => (EmptyString, [])
  | l :: f' => (l, f')
  end.

(** *** Slices and indices *)

Definition slice_bound (len : nat) (i : Z) : nat :=
  if i <? 0 then Z.to_nat (Z.max (i + Z.of_nat len) 0)
  else Z.to_nat (Z.min i (Z.of_nat len)).

(** [l[start:stop]] *)
Definition slice {A} (l : list A) (start stop : Z) : list A :=
  let lo := slice_bound (length l) start in
  let hi := slice_bound (length l) stop in
  take (hi - lo)%nat (drop lo l).

(** [l[i]] for a literal [i >= 0] *)
Definition index {A} (l : list A) (i : nat) : exn A :=
  of_option IndexError (l !! i).

(** [l[-1]] *)
Definition last_item {A} (l : list A) : exn A :=
  of_option IndexError (last l).

(** [sum(l)] on integers *)
Definition sum (l : list Z) : Z := fold_right Z.add 0 l.

(** [zip(a, b, c)] *)
Fixpoint zip3 {A B C} (a : list A) (b : list B) (c : list C)
  : list (A * B * C) :=
  match a, b, c with
  | x :: a', y :: b', z :: c' => (x, y, z) :: zip3 a' b' c'
  | _, _, _ => []
  end.

(** [l.count(x)] *)
Definition count (x : string) (l : list string) : Z :=
  Z.of_nat (length (filter (λ y, y = x) l)).

(** *** Numbers from text *)

(** The white space that [int] and [float] skip around a literal is C's
    [isspace]: TAB, LF, VT, FF, CR and SPACE.  FS, GS, RS and US, which
    [str.strip] and [str.split] take for white space too, are not skipped:
    [int('\x1c1')] raises [ValueError]. *)
Definition is_cspace (c : ascii) : bool :=
  let n := nat_of_ascii c in
  ((9 <=? n)%nat && (n <=? 13)%nat) || (n =? 32)%nat.

Fixpoint lstrip_cspace (cs : list ascii) : list ascii :=
  match cs with
  | c :: cs' => if is_cspace c then lstrip_cspace cs' else cs
  | [] => []
  end.

Definition strip_cspace (cs : list ascii) : list ascii :=
  rev (lstrip_cspace (rev (lstrip_cspace cs))).

Definition digit (c : ascii) : option N :=
  let n := N_of_ascii c in
  if ((48 <=? n) && (n <=? 57))%N then Some (n - 48)%N else None.

(** A [digitpart]: digits, single underscores allowed between two digits.
    Returns the digits read and the unread rest. *)
Fixpoint scan_digits (after_digit : bool) (cs : list ascii)
  : list N * list ascii :=
  match cs with
  | [] => ([], [])
  | c :: rest =>
      match digit c with
      | Some d => let '(ds, r) := scan_digits true rest in (d :: ds, r)
      | None =>
          if after_digit && Ascii.eqb c "_"%char
          then match rest with
               | c' :: _ =>
                   if bool_decide (is_Some (digit c'))
                   then scan_digits false rest
                   else ([], cs)
               | [] => ([], cs)
               end
          else ([], cs)
      end
  end.

Definition N_of_digits (ds : list N) : N :=
  fold_left (λ acc d, acc * 10 + d)%N ds 0%N.

(** An optional sign: [true] for minus. *)
Definition scan_sign (cs : list ascii) : bool * list ascii :=
  match cs with
  | "-"%char :: r => (true, r)
  | "+"%char :: r => (false, r)
  | _ => (false, cs)
  end.

(** [int(s)] *)
Definition int (s : string) : exn Z :=
  let '(neg, r) := scan_sign (strip_cspace (chars s)) in
  match scan_digits false r with
  | (d :: ds, []) =>
      let n := Z.of_N (N_of_digits (d :: ds)) in
      Ok (if neg then - n else n)
  | _ => Raise ValueError
  end.

(** *** binary64 *)

Definition float : Type := spec_float.
Definition prec : Z := 53.
Definition emax : Z := 1024.

(** The double nearest to [(-1)^neg * m * 10^e10] (ties to even). *)
Definition float_of_decimal (neg : bool) (m : N) (e10 : Z) : float :=
  match m with
  | N0 => S754_zero neg
  | Npos p =>
      if 0 <=? e10
      then binary_round prec emax neg (p * Z.to_pos (10 ^ e10)) 0
      else
        let '(q, e, l) :=
          SFdiv_core_binary prec emax (Zpos p) 0 (10 ^ (- e10)) 0 in
        binary_round_aux prec emax neg q e l
  end.

Definition lower (c : ascii) : ascii :=
  let n := nat_of_ascii c in
  if ((65 <=? n) && (n <=? 90))%nat then ascii_of_nat (n + 32) else c.

Definition lower_str (cs : list ascii) : string := str (map lower cs).

(** The exponent part of a float literal: [None] when malformed. *)
Definition scan_exponent (cs : list ascii) : option (Z * list ascii) :=
  match cs with
  | c :: r =>
      if Ascii.eqb (lower c) "e"%char
      then
        let '(neg, r1) := scan_sign r in
        match scan_digits false r1 with
        | (d :: ds, r2) =>
            let n := Z.of_N (N_of_digits (d :: ds)) in
            Some (if neg then - n else n, r2)
        | _ => None
        end
      else Some (0, cs)
  | [] => Some (0, [])
  end.

(** [float(s)] *)
Definition float_of_string (s : string) : exn float :=
  let '(neg, r) := scan_sign (strip_cspace (chars s)) in
  let w := lower_str r in
  if bool_decide (w = "inf"%string ∨ w = "infinity"%string)
  then Ok (S754_infinity neg)
  else if bool_decide (w = "nan"%string) then Ok S754_nan
  else
    let '(ip, r1) := scan_digits false r in
    let '(fp, r2) :=
      match r1 with
      | "."%char :: r1' => scan_digits false r1'
      | _ => ([], r1)
      end in
    match ip ++ fp with
    | [] => Raise ValueError
    | ds =>
        match scan_exponent r2 with
        | Some (e, []) =>
            Ok (float_of_decimal neg (N_of_digits ds)
                  (e - Z.of_nat (length fp)))
        | _ => Raise ValueError
        end
    end.

(** *** [str.format] fields *)

Definition spaces (n : nat) : string := str (replicate n " "%char).

(** right-aligned in [width] (the default for numbers) *)
Definition rjust (width : nat) (s : string) : string :=
  (spaces (width - String.length s) ++ s)%string.

(** left-aligned in [width] (the default for strings) *)
Definition ljust (width : nat) (s : string) : string :=
  (s ++ spaces (width - String.length s))%string.

Definition str_of_N (n : N) : string :=
  NilZero.string_of_uint (N.to_uint n).

Definition str_of_Z (z : Z) : string :=
  match z with
  | Zneg p => ("-" ++ str_of_N (Npos p))%string
  | _ => str_of_N (Z.to_N z)
  end.

(** ["{:<width>d}".format(z)] *)
Definition format_d (width : nat) (z : Z) : string :=
  rjust width (str_of_Z z).

(** ["{:<width>s}".format(s)] *)
Definition format_s (width : nat) (s : string) : string :=
  ljust width s.

(** [round(m * 2^e * 10^p)] to the nearest integer, ties to even. *)
Definition scaled_round (m : positive) (e : Z) (p : nat) : N :=
  let num := (Zpos m * 10 ^ Z.of_nat p)%Z in
  if 0 <=? e then Z.to_N (num * 2 ^ e)
  else
    let den := 2 ^ (- e) in
    let q := num / den in
    let r := num mod den in
    Z.to_N (match 2 * r ?= den with
            | Lt => q
            | Gt => q + 1
            | Eq => if Z.even q then q else q + 1
            end).

(** the digits of [n] with the decimal point [p] places from the right *)
Definition fixed_digits (n : N) (p : nat) : string :=
  let scale := (10 ^ N.of_nat p)%N in
  let ip := str_of_N (n / scale) in
  match p with
  | O => ip
  | _ =>
      let fp := str_of_N (n mod scale) in
      (ip ++ "." ++ str (replicate (p - String.length fp) "0"%char) ++ fp)%string
  end.

Definition sign_str (neg : bool) : string :=
  if neg then "-"%string else EmptyString.

(** ["{:.<p>f}".format(x)] *)
Definition fixed (p : nat) (x : float) : string :=
  match x with
  | S754_nan => "nan"%string
  | S754_infinity s => (sign_str s ++ "inf")%string
  | S754_zero s => (sign_str s ++ fixed_digits 0 p)%string
  | S754_finite s m e => (sign_str s ++ fixed_digits (scaled_round m e p) p)%string
  end.

(** ["{:<width>.<p>f}".format(x)] *)
Definition format_f (width p : nat) (x : float) : string :=
  rjust width (fixed p x).

End Py.

(** ** Tokenizing helpers of [vaspy.functions] *)

(** Modelled from the spec: [vaspy/functions.py] ([str2list], [line2list])
    is not part of the sources at hand.  The spec describes the helpers as
    turning "a line of text into a list of typed tokens" of
    "whitespace-tokenized text". *)
Definition str2list (rawstr : string) : list string := Py.split rawstr.

(** Modelled from the spec: [line2list(line)], tokens converted with the
    default [dtype=float]. *)
Definition line2list (line : string) : exn (list Py.float) :=
  emap Py.float_of_string (Py.split line).

(** Modelled from the spec: [line2list(line, dtype=str)]. *)
Definition line2list_str (line : string) : list string := Py.split line.

(** ** numpy arrays as lists of rows *)

Module Np.

(** [np.array(rows)] is two-dimensional exactly when [rows] is not empty
    and all rows have one length, the number of columns. *)
Definition ncols {A} (rows : list (list A)) : option nat :=
  match rows with
  | [] => None
  | r :: rs =>
      if forallb (λ r', (length r' =? length r)%nat) rs
      then Some (length r) else None
  end.

(** [np.float64(np.array(rows))] on rows of text: an empty list gives the
    empty array; ragged rows or a token that is not a float literal raise
    [ValueError]. *)
Definition float64 (rows : list (list string)) : exn (list (list Py.float)) :=
  match rows with
  | [] => Ok []
  | _ =>
      match ncols rows with
      | None => Raise ValueError
      | Some _ => emap (emap Py.float_of_string) rows
      end
  end.

(** [np.array(rows)] on a list of rows of numbers.  No row, or rows of
    one length, give a two-dimensional array.  With rows of different
    lengths the outcome depends on the numpy at hand: up to 1.23 it is an
    array of the row objects (and a warning), from 1.24 on a [ValueError].
    [ragged_ok] says which numpy it is: [true] for the older. *)
Definition array {A} (ragged_ok : bool) (rows : list (list A))
  : exn (list (list A)) :=
  match rows with
  | [] => Ok []
  | _ =>
      match ncols rows with
      | Some _ => Ok rows
      | None => if ragged_ok then Ok rows else Raise ValueError
      end
  end.

(** The rows [lo <= i < hi] of axis 0 are rewritten by [f]. *)
Definition map_rows {A} (f : A → A) (lo hi : nat) (rows : list A) : list A :=
  imap (λ i r, if bool_decide (lo ≤ i < hi)%nat then f r else r) rows.

(** [a[start:stop, col] = v] *)
Definition set_column {A} (a : list (list A)) (start stop : Z) (col : nat)
    (v : A) : exn (list (list A)) :=
  match ncols a with
  | None => Raise IndexError
  | Some k =>
      if (col <? k)%nat
      then Ok (map_rows (λ r, <[col:=v]> r)
                 (Py.slice_bound (length a) start)
                 (Py.slice_bound (length a) stop) a)
      else Raise IndexError
  end.

(** [a[start:stop, :] = v] *)
Definition set_rows {A} (a : list (list A)) (start stop : Z) (v : A)
  : exn (list (list A)) :=
  match ncols a with
  | None => Raise IndexError
  | Some k =>
      Ok (map_rows (λ _, replicate k v)
            (Py.slice_bound (length a) start)
            (Py.slice_bound (length a) stop) a)
  end.

End Np.

(** ** class AtomCo *)

Module AtomCo.

(** [[0] + [sum(atoms_num[:i]) for i in range(1, len(atoms)+1)]] *)
Definition idx_list (atoms : list string) (atoms_num : list Z) : list Z :=
  0 :: map (λ i, Py.sum (take i atoms_num)) (seq 1 (length atoms)).

(** [zip(atoms, idx_list[:-1], idx_list[1:])] *)
Definition blocks (atoms : list string) (atoms_num : list Z)
  : list (string * Z * Z) :=
  let idx := idx_list atoms atoms_num in
  Py.zip3 atoms (Py.slice idx 0 (-1)) (tail idx).

(** [verify]: the row count of [data] against [ntot]. *)
Definition verify {A} (data : list (list A)) (ntot : Z) : exn unit :=
  if bool_decide (Z.of_nat (length data) ≠ ntot)
  then Raise (CarfileValueError "Atom numbers mismatch!")
  else Ok ().

(** [d.setdefault(k, v)] *)
Definition setdefault {V} (k : string) (v : V) (d : gmap string V)
  : gmap string V :=
  match d !! k with
  | Some _ => d
  | None => <[k:=v]> d
  end.

(** [atomco_dict.setdefault(atom, data_list[idx: next_idx])] *)
Definition group_step {A} (data : list (list A))
    (d : gmap string (list (list A))) (b : string * Z * Z)
  : gmap string (list (list A)) :=
  let '(atom, idx, next_idx) := b in
  setdefault atom (Py.slice data idx next_idx) d.

(** [get_atomco_dict(data)]; the body has no [raise] and no operation
    that can fail on a list of rows. *)
Definition get_atomco_dict {A} (atoms : list string) (atoms_num : list Z)
    (data : list (list A)) : exn (gmap string (list (list A))) :=
  Ok (fold_left (group_step data) (blocks atoms atoms_num) ∅).

(** [get_tf_dict(tf)] is the same loop on the constraint rows. *)
Definition get_tf_dict (atoms : list string) (atoms_num : list Z)
    (tf : list (list string)) : exn (gmap string (list (list string))) :=
  get_atomco_dict atoms atoms_num tf.

(** Arguments of [str.format]. *)
Inductive pyval : Type :=
  | VFloat (x : Py.float)
  | VStr (s : string).

Definition field_f (width p : nat) (args : list pyval) (i : nat) : exn string :=
  let* v := Py.index args i in
  match v with
  | VFloat x => Ok (Py.format_f width p x)
  | VStr _ => Raise ValueError
  end.

Definition field_s (width : nat) (args : list pyval) (i : nat) : exn string :=
  let* v := Py.index args i in
  match v with
  | VStr s => Ok (Py.format_s width s)
  | VFloat _ => Raise ValueError
  end.

(** ["{:14.8f}{:14.8f}{:14.8f}\n".format( *basis)] *)
Definition basis_line (basis : list Py.float) : exn string :=
  let args := map VFloat basis in
  let* a := field_f 14 8 args 0 in
  let* b := field_f 14 8 args 1 in
  let* c := field_f 14 8 args 2 in
  Ok (a ++ b ++ c ++ "
")%string.

(** [("{:18.12f}"*3+"{:5s}"*3+"\n").format( *(data+tf))] *)
Definition data_tf_line (data : list Py.float) (tf : list string) : exn string :=
  let args := map VFloat data ++ map VStr tf in
  let* x := field_f 18 12 args 0 in
  let* y := field_f 18 12 args 1 in
  let* z := field_f 18 12 args 2 in
  let* tx := field_s 5 args 3 in
  let* ty := field_s 5 args 4 in
  let* tz := field_s 5 args 5 in
  Ok (x ++ y ++ z ++ tx ++ ty ++ tz ++ "
")%string.

Definition concat_str (l : list string) : string :=
  fold_right String.append EmptyString l.

Definition one : Py.float := S754_finite false 4503599627370496 (-52).
Definition zero : Py.float := S754_zero false.

(** Keyword arguments of [get_poscar_content]. *)
Record kwargs := {
  kw_bases_const : option Py.float;
  kw_bases : option (list (list Py.float));
  kw_tf : option (list (list string));
}.
Definition no_kwargs : kwargs :=
  {| kw_bases_const := None; kw_bases := None; kw_tf := None |}.

(** [try: v = self.a  except AttributeError: v = kwargs.get("a", default)];
    an attribute the object does not have is [None]. *)
Definition attr_or {A} (attr kw : option A) (default : A) : A :=
  match attr with
  | Some a => a
  | None => from_option id default kw
  end.

(** [get_poscar_content( **kwargs)].  [natoms] is the list the [zip]
    object yields on its first traversal. *)
Definition get_poscar_content
    (self_bases_const : option Py.float)
    (self_bases : option (list (list Py.float)))
    (self_natoms : list (string * Z))
    (self_data : list (list Py.float))
    (self_tf : option (list (list string)))
    (kw : kwargs) : exn string :=
  let content := "Created by VASPy
"%string in
  let bases_const := attr_or self_bases_const (kw_bases_const kw) one in
  let bases_const := (" " ++ Py.format_f 0 9 bases_const ++ "
")%string in
  let bases_list :=
    attr_or self_bases (kw_bases kw)
      [[one; zero; zero]; [zero; one; zero]; [zero; zero; one]] in
  let* bases := emap basis_line bases_list in
  let bases := concat_str bases in
  let* unzipped :=
    match self_natoms with
    | [] => Raise ValueError
    | _ => Ok (map fst self_natoms, map snd self_natoms)
    end in
  let '(atoms, atoms_num) := unzipped in
  let atoms := (concat_str (map (Py.format_s 5) atoms) ++ "
")%string in
  let atoms_num := (concat_str (map (Py.format_d 5) atoms_num) ++ "
")%string in
  let info := "Selective Dynamics
Direct
"%string in
  let tf :=
    attr_or self_tf (kw_tf kw)
      (map (map (λ _, "T"%string)) self_data) in
  let* data_tf :=
    emap (λ row, data_tf_line row.1 row.2) (zip self_data tf) in
  let data_tf := concat_str data_tf in
  Ok (content ++ bases_const ++ bases ++ atoms ++ atoms_num ++ info ++ data_tf)%string.

(** [get_xyz_content(step)].  The helper [atomdict2str] of
    [vaspy.functions] is not among the sources and the specification does
    not say what it writes: it is an argument, and may raise.
    [self_step] is [None] on an object without the attribute [step]
    (the [AttributeError] branch). *)
Definition get_xyz_content {A}
    (atomdict2str : gmap string (list (list A)) → list string → exn string)
    (self_ntot : Z) (self_step : option Z)
    (self_atoms : list string) (self_atoms_num : list Z)
    (self_data : list (list A)) (step : option Z) : exn string :=
  let ntot := (Py.format_d 12 self_ntot ++ "
")%string in
  let step :=
    match step with
    | Some step => step
    | None => from_option id 1 self_step
    end in
  let step := ("STEP =" ++ Py.format_d 9 step ++ "
")%string in
  let* atomco_dict := get_atomco_dict self_atoms self_atoms_num self_data in
  let* data := atomdict2str atomco_dict self_atoms in
  Ok (ntot ++ step ++ data)%string.

End AtomCo.

(** ** class XyzFile *)

Module XyzFile.

Record t := {
  ntot : Z;
  step : Z;
  atoms : list string;
  atoms_num : list Z;
  natoms : list (string * Z);
  data : list (list Py.float);
}.

(** The labels in first-seen order:
    [for atom in atoms_list: if atom not in atoms: atoms.append(atom)]. *)
Definition first_seen (atoms_list : list string) : list string :=
  fold_left
    (λ atoms atom, if bool_decide (atom ∈ atoms) then atoms else atoms ++ [atom])
    atoms_list [].

(** [load], on the text of the file. *)
Definition load (content : string) : exn t :=
  let content_list := Py.readlines content in
  let* l0 := Py.index content_list 0 in
  let* ntot := Py.int (Py.strip l0) in
  let* l1 := Py.index content_list 1 in
  let* label := Py.last_item (str2list l1) in
  let* step := Py.int label in
  let data_list := map str2list (drop 2 content_list) in
  (* data_array[:, 0] and data_array[:, 1:] need a two-dimensional array
     with a column 0 *)
  let* _ :=
    match Np.ncols data_list with
    | Some (S _) => Ok ()
    | _ => Raise IndexError
    end in
  let atoms_list := map (λ r, default EmptyString (head r)) data_list in
  let* data := Np.float64 (map (drop 1) data_list) in
  let atoms := first_seen atoms_list in
  let atoms_num := map (λ atom, Py.count atom atoms_list) atoms in
  let natoms := zip atoms atoms_num in
  let self :=
    {| ntot := ntot; step := step; atoms := atoms; atoms_num := atoms_num;
       natoms := natoms; data := data |} in
  let* _ := AtomCo.get_atomco_dict atoms atoms_num data in
  Ok self.

Definition verify (self : t) : exn unit := AtomCo.verify (data self) (ntot self).

(** [XyzFile(filename)]: [load] then [verify]. *)
Definition init (content : string) : exn t :=
  let* self := load content in
  let* _ := verify self in
  Ok self.

(** [get_content()] *)
Definition get_content
    (atomdict2str : gmap string (list (list Py.float)) → list string → exn string)
    (self : t) : exn string :=
  AtomCo.get_xyz_content atomdict2str (ntot self) (Some (step self))
    (atoms self) (atoms_num self) (data self) None.

End XyzFile.

(** ** class PosCar *)

Module PosCar.

Record t := {
  bases_const : Py.float;
  bases : list (list Py.float);
  atoms : list string;
  atoms_num : list Z;
  ntot : Z;
  natoms : list (string * Z);
  data : list (list Py.float);
  tf : list (list string);
  totline : Z;
}.

(** The rows of the coordinate block: [data] and [tf] as the loop of
    [load] appends them. *)
Definition data_row (line_str : string) : list string :=
  take 3 (str2list line_str).

Definition tf_row (line_str : string) : list string :=
  let line_list := str2list line_str in
  if (3 <? length line_list)%nat then drop 3 line_list
  else ["T"; "T"; "T"]%string.

(** [content_list[7][0] in 'Ss'] *)
Definition selective (line : string) : exn bool :=
  match line with
  | String c _ => Ok (bool_decide (c = "S"%char ∨ c = "s"%char))
  | EmptyString => Raise IndexError
  end.

(** [load], on the text of the file.  The local counter [tf_dict] of the
    source is written by the loop and never read; it is left out. *)
Definition load (content : string) : exn t :=
  let content_list := Py.readlines content in
  let* l1 := Py.index content_list 1 in
  let* bases_const := Py.float_of_string l1 in
  let bases := map str2list (Py.slice content_list 2 5) in
  let* l5 := Py.index content_list 5 in
  let atoms := str2list l5 in
  let* l6 := Py.index content_list 6 in
  let atoms_num := str2list l6 in
  let* l7 := Py.index content_list 7 in
  let* sel := selective l7 in
  let data_begin := if sel then 9 else 8 in
  let* atoms_num := emap Py.int atoms_num in
  let ntot := Py.sum atoms_num in
  let block := Py.slice content_list data_begin (data_begin + ntot) in
  let data := map data_row block in
  let tf := map tf_row block in
  let* bases := Np.float64 bases in
  let* data := Np.float64 data in
  let self :=
    {| bases_const := bases_const; bases := bases; atoms := atoms;
       atoms_num := atoms_num; ntot := ntot; natoms := zip atoms atoms_num;
       data := data; tf := tf; totline := data_begin + ntot |} in
  let* _ := AtomCo.get_atomco_dict atoms atoms_num data in
  Ok self.

Definition verify (self : t) : exn unit := AtomCo.verify (data self) (ntot self).

(** [PosCar(filename)]: [load] then [verify]. *)
Definition init (content : string) : exn t :=
  let* self := load content in
  let* _ := verify self in
  Ok self.

Definition set_tf (self : t) (tf' : list (list string)) : t :=
  {| bases_const := bases_const self; bases := bases self;
     atoms := atoms self; atoms_num := atoms_num self; ntot := ntot self;
     natoms := natoms self; data := data self; tf := tf';
     totline := totline self |}.

(** The body of the [for] loop of [constrain_atom]: the first block whose
    label is [atom] is edited, then [break]. *)
Fixpoint constrain_loop (blocks : list (string * Z * Z)) (atom to axis : string)
    (tf : list (list string)) : exn (list (list string)) :=
  match blocks with
  | [] => Ok tf
  | (atomtype, idx, next_idx) :: blocks' =>
      if bool_decide (atomtype = atom)
      then
        if bool_decide (axis = "x" ∨ axis = "X")%string
        then Np.set_column tf idx next_idx 0 to
        else if bool_decide (axis = "y" ∨ axis = "Y")%string
        then Np.set_column tf idx next_idx 1 to
        else if bool_decide (axis = "z" ∨ axis = "Z")%string
        then Np.set_column tf idx next_idx 2 to
        else Np.set_rows tf idx next_idx to
      else constrain_loop blocks' atom to axis tf
  end.

(** [constrain_atom(atom, to, axis)]: the object after the call, and the
    value returned ([self.tf]) or the exception raised.  An exception
    leaves the object as it was. *)
Definition constrain_atom (self : t) (atom to axis : string)
  : t * exn (list (list string)) :=
  let blocks := AtomCo.blocks (atoms self) (atoms_num self) in
  if bool_decide (to ≠ "T" ∧ to ≠ "F")%string
  then (self, Raise (CarfileValueError "Variable to must be T or F."))
  else
    match constrain_loop blocks atom to axis (tf self) with
    | Ok tf' => (set_tf self tf', Ok tf')
    | Raise e => (self, Raise e)
    end.

(** [get_content()] *)
Definition get_content (self : t) : exn string :=
  AtomCo.get_poscar_content (Some (bases_const self)) (Some (bases self))
    (natoms self) (data self) (Some (tf self)) AtomCo.no_kwargs.

(** *** [natoms] as the iterator it is

    [load] stores [zip(atoms, atoms_num)] in [natoms], and in Python 3
    that is an iterator: [natoms] is what it has still to yield, and the
    traversal [zip( *self.natoms)] of [get_poscar_content] leaves
    nothing. *)
Definition set_natoms (self : t) (natoms' : list (string * Z)) : t :=
  {| bases_const := bases_const self; bases := bases self;
     atoms := atoms self; atoms_num := atoms_num self; ntot := ntot self;
     natoms := natoms'; data := data self; tf := tf self;
     totline := totline self |}.

(** [get_content()] as a call on the object: the object after the call,
    and the text returned or the exception raised.  [natoms] is traversed
    once the basis lines are formatted; an exception before that leaves
    the object as it was. *)
Definition get_content_call (self : t) : t * exn string :=
  match emap AtomCo.basis_line (bases self) with
  | Ok _ => (set_natoms self [], get_content self)
  | Raise e => (self, Raise e)
  end.

End PosCar.

(** ** class XdatCar *)

Module XdatCar.

Record t := {
  info_nline : nat;
  system : string;
  bases_const : Py.float;
  bases : list (list Py.float);
  atoms : list string;
  atoms_num : list Z;
  ntot : Z;
}.

(** [XdatCar(filename)]: [info_nline = 7], then [load] reads the seven
    lines of lattice information with [readline]. *)
Definition init (content : string) : exn t :=
  let f := Py.readlines content in
  let '(l, f) := Py.readline f in
  let system := Py.strip l in
  let '(l, f) := Py.readline f in
  let* bases_const := Py.float_of_string (Py.strip l) in
  let '(l, f) := Py.readline f in
  let* b0 := line2list l in
  let '(l, f) := Py.readline f in
  let* b1 := line2list l in
  let '(l, f) := Py.readline f in
  let* b2 := line2list l in
  let '(l, f) := Py.readline f in
  let atoms := str2list l in
  let '(l, f) := Py.readline f in
  let* atoms_num := emap Py.int (str2list l) in
  Ok {| info_nline := 7; system := system; bases_const := bases_const;
        bases := [b0; b1; b2]; atoms := atoms; atoms_num := atoms_num;
        ntot := Py.sum atoms_num |}.

(** *** The generator [__iter__]

    The generator is suspended at its [yield]; between two [yield]s its
    live variables are the open file [f] (the lines not read yet) and
    [prompt]. *)
Record gen := { f : list string; prompt : string }.

Definition frame : Type := Z * list (list Py.float).

(** What a call of [next()] on the generator gives. *)
Inductive next_result : Type :=
  | Yield (fr : frame) (g : gen)
  | StopIteration
  | Raised (e : exception).

(** [for i in range(n): data.append(line2list(f.readline()))] *)
Fixpoint read_rows (n : nat) (f : list string)
  : exn (list (list Py.float) * list string) :=
  match n with
  | O => Ok ([], f)
  | S n' =>
      let '(data_line, f) := Py.readline f in
      let* row := line2list data_line in
      let* rest := read_rows n' f in
      Ok (row :: rest.1, rest.2)
  end.

(** [prompt = f.readline().strip()] *)
Definition read_prompt (f : list string) : gen :=
  let '(l, f) := Py.readline f in
  {| f := f; prompt := Py.strip l |}.

(** The code before the loop: the file is opened, [info_nline] lines are
    passed over and the first prompt is read. *)
Definition iter (self : t) (content : string) : gen :=
  read_prompt (drop (info_nline self) (Py.readlines content)).

(** [int(prompt.split('=')[-1])] *)
Definition step_of (prompt : string) : exn Z :=
  let* label := Py.last_item (Py.split_on "="%char prompt) in
  Py.int label.

(** One turn of [while '=' in prompt: ... yield step, np.array(data)]:
    the rows are read, the next prompt is read, and [np.array(data)] is
    evaluated for the [yield]. *)
Definition next (ragged_ok : bool) (self : t) (g : gen) : next_result :=
  if Py.contains "="%char (prompt g)
  then
    match
      (let* step := step_of (prompt g) in
       let* rows := read_rows (Z.to_nat (ntot self)) (f g) in
       let* data := Np.array ragged_ok rows.1 in
       Ok (step, (data, rows.2)))
    with
    | Raise e => Raised e
    | Ok (step, (data, f)) => Yield (step, data) (read_prompt f)
    end
  else StopIteration.

(** How a traversal of the generator ends. *)
Inductive ending : Type :=
  | Exhausted
  | Failed (e : exception)
  | Unfinished.

(** [for step, data in xdatcar: ...], at most [fuel] calls of [next]:
    the frames yielded, in order, and how the traversal ended. *)
Fixpoint run (ragged_ok : bool) (fuel : nat) (self : t) (g : gen)
  : list frame * ending :=
  match fuel with
  | O => ([], Unfinished)
  | S fuel' =>
      match next ragged_ok self g with
      | StopIteration => ([], Exhausted)
      | Raised e => ([], Failed e)
      | Yield fr g' =>
          let '(frs, e) := run ragged_ok fuel' self g' in (fr :: frs, e)
      end
  end.

(** Enough calls for any file: every yield consumes the prompt line. *)
Definition frames (ragged_ok : bool) (self : t) (content : string)
  : list frame * ending :=
  let g := iter self content in
  run ragged_ok (S (S (length (f g)))) self g.

End XdatCar.

(** ** class CifFile *)

Module CifFile.

Inductive attr_value : Type :=
  | AFloat (x : Py.float)
  | AStr (s : string).

(** The attributes that [load] assigns by name, and [attrs] for the
    entries that [setattr] makes in the object's dictionary from the
    [_key value] lines; the assignments at the end of [load] come last.
    An entry of [attrs] under the name of a method hides the method:
    looking a method up finds the object's own entry first. *)
Record t := {
  attrs : gmap string attr_value;
  data : list (list Py.float);
  atom_names : list string;
  atoms : list string;
  natoms : list Z;
  atoms_num : list (string * Z);
  titles : list string;
  ntot : Z;
}.

Definition is_word (c : ascii) : bool :=
  let n := nat_of_ascii c in
  ((48 <=? n) && (n <=? 57) || (65 <=? n) && (n <=? 90)
   || (97 <=? n) && (n <=? 122) || (n =? 95))%nat.

Fixpoint span (p : ascii → bool) (cs : list ascii) : list ascii * list ascii :=
  match cs with
  | c :: cs' =>
      if p c then let '(a, b) := span p cs' in (c :: a, b) else ([], cs)
  | [] => ([], [])
  end.

(** [re.compile(r'^_(\w+)(?:\s+)(.+)$').match(line).groups()] on a
    stripped line: the word after the underscore, white space, and the
    rest of the line. *)
Definition regex_match (line : string) : option (string * string) :=
  match Py.chars line with
  | "_"%char :: cs =>
      let '(w, r) := span is_word cs in
      let '(s, v) := span Py.is_space r in
      match w, s, v with
      | _ :: _, _ :: _, _ :: _ =>
          if forallb (λ c, negb (Ascii.eqb c "010"%char)) v
          then Some (Py.str w, Py.str v) else None
      | _, _, _ => None
      end
  | _ => None
  end.

Definition float_candidates : list string :=
  ["cell_length_a"; "cell_length_b"; "cell_length_c";
   "cell_angle_alpha"; "cell_angle_beta"; "cell_angle_gamma"]%string.

(** What [setattr(self, attr, value)] and the [debug] call after it do
    with the name [attr] on a [CifFile] object, [value] being a string or
    a float.  [atomco_dict] and [tf_dict] are properties of [AtomCo]
    without a setter, and [__weakref__] is not writable:
    [AttributeError].  [__class__] and [__dict__] take no string or
    number: [TypeError].  [_CifFile__logger] is the name behind
    [self.__logger]: it is set, and the [debug] call then finds a string
    or a number there: [AttributeError].  Under any other name the value
    is entered in the object's dictionary.

    Modelled from the spec: the base class [VasPy] is not part of the
    sources at hand; it is the "base file/object lifecycle helper that
    resolves a filename and stores it", with no property of its own. *)
Definition setattr_error (attr : string) : option exception :=
  if bool_decide (attr ∈ ["atomco_dict"; "tf_dict"; "__weakref__";
                          "_CifFile__logger"]%string)
  then Some AttributeError
  else if bool_decide (attr ∈ ["__class__"; "__dict__"]%string)
  then Some TypeError
  else None.

(** [for line in lines_groups[0]: ...] *)
Fixpoint load_attrs (lines : list string) (attrs : gmap string attr_value)
  : exn (gmap string attr_value) :=
  match lines with
  | [] => Ok attrs
  | line :: lines' =>
      let line := Py.strip line in
      if Py.startswith "_" line
      then
        match regex_match line with
        | Some (attr, value) =>
            let* value :=
              if bool_decide (attr ∈ float_candidates)
              then let* x := Py.float_of_string value in Ok (AFloat x)
              else Ok (AStr value) in
            match setattr_error attr with
            | Some e => Raise e
            | None => load_attrs lines' (<[attr:=value]> attrs)
            end
        | None => load_attrs lines' attrs
        end
      else load_attrs lines' attrs
  end.

(** The four lists the second loop of [load] appends to. *)
Record table := {
  t_titles : list string;
  t_data : list (list Py.float);
  t_atom_names : list string;
  t_atom_types : list string;
}.

Definition empty_table : table :=
  {| t_titles := []; t_data := []; t_atom_names := []; t_atom_types := [] |}.

(** [line[1:]] *)
Definition tail_str (s : string) : string :=
  match s with String _ s' => s' | EmptyString => EmptyString end.

(** [for line in lines_groups[-1]: ...] *)
Fixpoint load_table (lines : list string) (tb : table) : exn table :=
  match lines with
  | [] => Ok tb
  | line :: lines' =>
      let line := Py.strip line in
      if Py.startswith "_" line
      then load_table lines'
             {| t_titles := t_titles tb ++ [tail_str line];
                t_data := t_data tb;
                t_atom_names := t_atom_names tb;
                t_atom_types := t_atom_types tb |}
      else if bool_decide (line ≠ EmptyString)
      then
        match line2list_str line with
        | [atom_name; _; x; y; z; _; _; atom_type] =>
            let* row := emap Py.float_of_string [x; y; z] in
            load_table lines'
              {| t_titles := t_titles tb;
                 t_data := t_data tb ++ [row];
                 t_atom_names := t_atom_names tb ++ [atom_name];
                 t_atom_types := t_atom_types tb ++ [atom_type] |}
        | _ => Raise ValueError
        end
      else load_table lines' tb
  end.

(** [[i for i, line in enumerate(lines) if line.startswith('loop_')]] *)
Definition loop_indices (lines : list string) : list nat :=
  omap (λ '(i, line), if Py.startswith "loop_" line then Some i else None)
    (imap pair lines).

(** [lines_groups] *)
Definition lines_groups (lines : list string) : list (list string) :=
  let idx := loop_indices lines in
  let start_indices := 0%nat :: map S idx in
  let end_indices := idx ++ [length lines] in
  map (λ '(start, end_), Py.slice lines (Z.of_nat start) (Z.of_nat end_))
    (zip start_indices end_indices).

(** [load], on the text of the file.  [list(set(atom_types))] lists the
    distinct labels in an order Python does not specify; here it is the
    order of [elements]. *)
Definition load (content : string) : exn t :=
  let lines := Py.readlines content in
  let groups := lines_groups lines in
  let* g0 := Py.index groups 0 in
  let* attrs := load_attrs g0 ∅ in
  let* glast := Py.last_item groups in
  let* tb := load_table glast empty_table in
  let atoms := elements (list_to_set (t_atom_types tb) : gset string) in
  let natoms := map (λ atom, Py.count atom (t_atom_types tb)) atoms in
  Ok {| attrs := attrs; data := t_data tb; atom_names := t_atom_names tb;
        atoms := atoms; natoms := natoms; atoms_num := zip atoms natoms;
        titles := t_titles tb; ntot := Z.of_nat (length (t_atom_names tb)) |}.

(** [self.verify()]: the inherited method, unless an attribute line has
    put a string under the name [verify] in the object's dictionary;
    calling that raises [TypeError]. *)
Definition verify (self : t) : exn unit :=
  match attrs self !! "verify"%string with
  | Some _ => Raise TypeError
  | None => AtomCo.verify (data self) (ntot self)
  end.

End CifFile.

(** ** Notions of the specification *)

(** The prefix-sum boundary before block [i]: [sum(atom_counts[:i])]. *)
Definition prefix_sum (atoms_num : list Z) (i : nat) : Z :=
  Py.sum (take i atoms_num).

(** The axis names that [constrain_atom] tells apart. *)
Definition named_axis (axis : string) : Prop :=
  axis ∈ ["x"; "X"; "y"; "Y"; "z"; "Z"]%string.

(** A prompt line of a trajectory, [... =<int>]: the text after an ['=']
    reads as the integer [step]. *)
Definition is_prompt (line : string) (step : Z) : Prop :=
  ∃ pre label : string,
    Py.strip line = (pre ++ "=" ++ label)%string ∧ Py.int label = Ok step.

(** Rows of one length: what [np.array] makes a two-dimensional array of,
    whatever the numpy. *)
Definition one_length {A} (rows : list (list A)) : Prop :=
  ∃ k : nat, Forall (λ row, length row = k) rows.

(** The body of a trajectory file, after its header: frames of one prompt
    line and [ntot] coordinate rows of one length each, up to the end of
    the file or to a line without ['='] where a prompt is due. *)
Inductive trajectory (ntot : nat) : list string → list XdatCar.frame → Prop :=
  | trajectory_eof :
      trajectory ntot [] []
  | trajectory_stop (line : string) (rest : list string) :
      Py.contains "="%char (Py.strip line) = false →
      trajectory ntot (line :: rest) []
  | trajectory_frame (line : string) (rows rest : list string) (step : Z)
      (block : list (list Py.float)) (frs : list XdatCar.frame) :
      is_prompt line step →
      length rows = ntot →
      emap line2list rows = Ok block →
      one_length block →
      trajectory ntot rest frs →
      trajectory ntot (line :: rows ++ rest) ((step, block) :: frs).

(** * Properties *)

(** ** The exception monad *)

Lemma ebind_Ok {A B} (m : exn A) (k : A → exn B) (b : B) :
  ebind m k = Ok b → ∃ a, m = Ok a ∧ k a = Ok b.
Proof. destruct m as [a|e]; simpl; [eauto|done]. Qed.

(** ** Slices and block boundaries *)

Section blocks.
Context (atoms : list string) (atoms_num : list Z).

Lemma slice_all_but_last {A} (x : A) (l : list A) :
  Py.slice (x :: l) 0 (-1) = take (length l) (x :: l).
Proof.
  unfold Py.slice, Py.slice_bound. simpl length.
  replace (0 <? 0) with false by done.
  replace (-1 <? 0) with true by done.
  rewrite Z.min_l by lia. simpl drop.
  f_equal. lia.
Qed.

Lemma zip3_boundaries (k : nat) (l : list string) :
  Py.zip3 l (map (prefix_sum atoms_num) (seq k (length l)))
            (map (prefix_sum atoms_num) (seq (S k) (length l)))
  = imap (λ i a, (a, prefix_sum atoms_num (k + i), prefix_sum atoms_num (S (k + i)))) l.
Proof.
  revert k. induction l as [|a l IH]; intros k; [done|].
  simpl. rewrite Nat.add_0_r. f_equal.
  rewrite IH. apply imap_ext. intros i x _. simpl.
  by replace (k + S i)%nat with (S k + i)%nat by lia.
Qed.

(** Block [i] is labelled [atoms[i]] and runs between the prefix sums
    [i] and [i+1]. *)
Lemma blocks_imap :
  AtomCo.blocks atoms atoms_num
  = imap (λ i a, (a, prefix_sum atoms_num i, prefix_sum atoms_num (S i))) atoms.
Proof.
  unfold AtomCo.blocks, AtomCo.idx_list.
  rewrite slice_all_but_last, length_map, length_seq. simpl tail.
  change (0 :: map (λ i, Py.sum (take i atoms_num)) (seq 1 (length atoms)))
    with (map (prefix_sum atoms_num) (seq 0 (S (length atoms)))).
  rewrite <- fmap_take, take_seq, Nat.min_l by lia.
  apply (zip3_boundaries 0).
Qed.

Lemma blocks_lookup (i : nat) :
  AtomCo.blocks atoms atoms_num !! i
  = (λ a, (a, prefix_sum atoms_num i, prefix_sum atoms_num (S i))) <$> atoms !! i.
Proof. by rewrite blocks_imap, list_lookup_imap. Qed.

End blocks.

(** ** [get_atomco_dict] *)

Section grouping.
Context {A : Type}.
Implicit Types (d : gmap string (list (list A))) (data : list (list A)).

(** The loop keeps what the dictionary holds and adds, for a new label,
    the slice of its first block. *)
Lemma group_fold_lookup data (bs : list (string * Z * Z)) d atom :
  fold_left (AtomCo.group_step data) bs d !! atom
  = match d !! atom with
    | Some v => Some v
    | None =>
        (λ b, Py.slice data b.2.1.2 b.2.2) <$> list_find (λ b, b.1.1 = atom) bs
    end.
Proof.
  revert d. induction bs as [|[[a i] j] bs IH]; intros d; simpl.
  { by destruct (d !! atom). }
  rewrite IH. unfold AtomCo.setdefault.
  destruct (decide (a = atom)) as [->|Hne]; simpl.
  - destruct (d !! atom) eqn:Hd; [by rewrite Hd|].
    by rewrite lookup_insert_eq.
  - destruct (d !! a) eqn:Ha.
    + destruct (d !! atom); [done|].
      by destruct (list_find _ bs) as [[? ?]|].
    + rewrite lookup_insert_ne by done.
      destruct (d !! atom); [done|].
      by destruct (list_find _ bs) as [[? ?]|].
Qed.

End grouping.

Section grouping_claims.
Context {A : Type}.

Lemma first_block_find (atoms : list string) (atoms_num : list Z)
    (i : nat) (atom : string) :
  atoms !! i = Some atom → atom ∉ take i atoms →
  list_find (λ b : string * Z * Z, b.1.1 = atom) (AtomCo.blocks atoms atoms_num)
  = Some (i, (atom, prefix_sum atoms_num i, prefix_sum atoms_num (S i))).
Proof.
  intros Hi Hfirst. apply list_find_Some. split_and!.
  - by rewrite blocks_lookup, Hi.
  - done.
  - intros j [[a lo] hi] Hj Hlt Heq. simpl in Heq. subst a.
    rewrite blocks_lookup in Hj.
    destruct (atoms !! j) as [a|] eqn:Ha; simplify_eq/=.
    apply Hfirst, list_elem_of_lookup. exists j.
    by rewrite lookup_take_lt.
Qed.

Lemma no_block_find (atoms : list string) (atoms_num : list Z) (atom : string) :
  atom ∉ atoms →
  list_find (λ b : string * Z * Z, b.1.1 = atom) (AtomCo.blocks atoms atoms_num)
  = None.
Proof.
  intros Hnot. apply list_find_None, Forall_forall.
  intros [[a lo] hi] Hin Heq. simpl in Heq. subst a.
  apply list_elem_of_lookup in Hin as [j Hj].
  rewrite blocks_lookup in Hj.
  destruct (atoms !! j) as [a|] eqn:Ha; simplify_eq/=.
  apply Hnot, list_elem_of_lookup. eauto.
Qed.

(** C4, amended.  Grouping never fails, whatever the number of rows: it
    returns the dictionary that maps each label, at its first position
    [i] in [atoms], to the slice [data[p_i : p_(i+1)]] between the prefix
    sums of [atoms_num] (a slice of a list that is too short is cut at
    its end), and that has no other key. *)
Theorem get_atomco_dict_slices (atoms : list string) (atoms_num : list Z)
    (data : list (list A)) :
  ∃ d, AtomCo.get_atomco_dict atoms atoms_num data = Ok d
     ∧ (∀ i atom, atoms !! i = Some atom → atom ∉ take i atoms →
          d !! atom = Some (Py.slice data (prefix_sum atoms_num i)
                                          (prefix_sum atoms_num (S i))))
     ∧ (∀ atom, atom ∉ atoms → d !! atom = None).
Proof.
  eexists. split; [reflexivity|]. split.
  - intros i atom Hi Hfirst.
    rewrite group_fold_lookup, lookup_empty.
    by rewrite (first_block_find _ _ i).
  - intros atom Hnot.
    rewrite group_fold_lookup, lookup_empty.
    by rewrite no_block_find.
Qed.

End grouping_claims.

(** Between bounds that lie inside the list, the slice is the block of
    [stop - start] rows after the first [start]. *)
Lemma slice_take_drop {A} (l : list A) (start stop : Z) :
  0 ≤ start ≤ stop → stop ≤ Z.of_nat (length l) →
  Py.slice l start stop
  = take (Z.to_nat (stop - start)) (drop (Z.to_nat start) l).
Proof.
  intros H1 H2. unfold Py.slice, Py.slice_bound.
  destruct (Z.ltb_spec start 0), (Z.ltb_spec stop 0); try lia.
  rewrite !Z.min_l by lia. f_equal. lia.
Qed.

(** C4, as stated, fails: with three atoms declared and two rows given the
    call returns a dictionary instead of raising. *)
Lemma get_atomco_dict_short_rows :
  let atoms := ["Pt"; "O"]%string in
  let atoms_num := [2; 1] in
  let data := [[0; 0; 0]; [1; 1; 1]] in
  Z.of_nat (length data) ≠ Py.sum atoms_num
  ∧ ¬ raises (AtomCo.get_atomco_dict atoms atoms_num data)
  ∧ AtomCo.get_atomco_dict atoms atoms_num data
    = Ok (<["Pt"%string := [[0; 0; 0]; [1; 1; 1]]]> (<["O"%string := []]> ∅)).
Proof.
  split; [by vm_compute|]. split; [by vm_compute|]. by vm_compute.
Qed.

Lemma get_atomco_dict_slices_witness :
  ∃ d, AtomCo.get_atomco_dict ["Pt"; "O"]%string [2; 1] [[0]; [1]; [2]] = Ok d
     ∧ d !! "O"%string = Some [[2]].
Proof.
  destruct (get_atomco_dict_slices ["Pt"; "O"]%string [2; 1] [[0]; [1]; [2]])
    as (d & Hd & Hslice & _).
  exists d. split; [exact Hd|].
  apply (Hslice 1%nat "O"%string); [reflexivity|].
  simpl. rewrite elem_of_cons, elem_of_nil.
  intros [H|[]]. discriminate H.
Defined.

(** ** [PosCar.constrain_atom] *)

Section constrain.
Implicit Types (self : PosCar.t) (tf : list (list string))
  (blocks : list (string * Z * Z)) (atom to axis : string).

Lemma set_tf_same self : PosCar.set_tf self (PosCar.tf self) = self.
Proof. by destruct self. Qed.

Lemma constrain_loop_absent blocks atom to axis tf :
  Forall (λ b, b.1.1 ≠ atom) blocks →
  PosCar.constrain_loop blocks atom to axis tf = Ok tf.
Proof.
  induction 1 as [|[[a lo] hi] bs Hne _ IH]; simpl in *; [done|].
  by rewrite bool_decide_eq_false_2.
Qed.

Lemma blocks_absent (atoms : list string) (atoms_num : list Z) atom :
  atom ∉ atoms →
  Forall (λ b : string * Z * Z, b.1.1 ≠ atom) (AtomCo.blocks atoms atoms_num).
Proof.
  intros Hnot. apply Forall_forall. intros [[a lo] hi] Hin Heq.
  simpl in Heq. subst a.
  apply list_elem_of_lookup in Hin as [j Hj].
  rewrite blocks_lookup in Hj.
  destruct (atoms !! j) as [a|] eqn:Ha; simplify_eq/=.
  apply Hnot, list_elem_of_lookup. eauto.
Qed.

(** The loop edits the first block carrying the label. *)
Lemma constrain_loop_first blocks atom to axis tf i lo hi :
  list_find (λ b, b.1.1 = atom) blocks = Some (i, (atom, lo, hi)) →
  PosCar.constrain_loop blocks atom to axis tf
  = PosCar.constrain_loop [(atom, lo, hi)] atom to axis tf.
Proof.
  revert i. induction blocks as [|[[a l] h] bs IH]; intros i Hfind; [done|].
  simpl in Hfind |- *. case_decide as Ha; simpl in *.
  - simplify_eq. by rewrite !(bool_decide_eq_true_2 (atom = atom)).
  - rewrite (bool_decide_eq_false_2 _ Ha).
    destruct (list_find _ bs) as [[j b]|] eqn:Hbs; simplify_eq/=.
    by rewrite (IH j).
Qed.

(** The loop raises nothing but the [IndexError] of the array. *)
Lemma constrain_loop_raise blocks atom to axis tf e :
  PosCar.constrain_loop blocks atom to axis tf = Raise e → e = IndexError.
Proof.
  induction blocks as [|[[a l] h] bs IH]; simpl; [done|].
  unfold Np.set_column, Np.set_rows.
  repeat case_bool_decide; destruct (Np.ncols tf) as [k|];
    repeat case_match; try done; by intros [= <-].
Qed.

Lemma constrain_loop_other_axis blocks atom to axis tf :
  ¬ named_axis axis →
  PosCar.constrain_loop blocks atom to axis tf
  = PosCar.constrain_loop blocks atom to "all" tf.
Proof.
  intros Hax. unfold named_axis in Hax.
  rewrite !elem_of_cons, elem_of_nil in Hax.
  induction blocks as [|[[a l] h] bs IH]; simpl; [done|].
  rewrite IH. case_bool_decide; [|done].
  rewrite !bool_decide_eq_false_2; [done|..]; tauto.
Qed.

(** C6.  [constrain_atom] raises [CarfileValueError] exactly when [to] is
    neither ['T'] nor ['F'], and then leaves the object as it was; with a
    valid flag and a label that [atoms] does not hold it returns [self.tf]
    and changes nothing. *)
Theorem constrain_atom_flag_check self atom to axis :
  ((∃ msg, (PosCar.constrain_atom self atom to axis).2
           = Raise (CarfileValueError msg))
   ↔ to ≠ "T"%string ∧ to ≠ "F"%string)
  ∧ (to ≠ "T"%string ∧ to ≠ "F"%string →
     (PosCar.constrain_atom self atom to axis).1 = self)
  ∧ (to = "T"%string ∨ to = "F"%string → atom ∉ PosCar.atoms self →
     PosCar.constrain_atom self atom to axis = (self, Ok (PosCar.tf self))).
Proof.
  unfold PosCar.constrain_atom. split_and!.
  - case_bool_decide as Hto; simpl.
    + split; [done|]. eauto.
    + split; [|done]. intros [msg Hmsg].
      destruct (PosCar.constrain_loop _ _ _ _ _) as [tf'|e] eqn:Hloop;
        simplify_eq/=.
      by apply constrain_loop_raise in Hloop.
  - intros Hto. by rewrite bool_decide_eq_true_2.
  - intros Hto Hnot.
    rewrite bool_decide_eq_false_2 by (intros [? ?]; by destruct Hto).
    rewrite constrain_loop_absent by by apply blocks_absent.
    by rewrite set_tf_same.
Qed.

Lemma constrain_atom_flag_check_witness :
  let self :=
    {| PosCar.bases_const := AtomCo.one; PosCar.bases := [];
       PosCar.atoms := ["Pt"; "O"]%string; PosCar.atoms_num := [2; 1];
       PosCar.ntot := 3; PosCar.natoms := [("Pt", 2); ("O", 1)]%string;
       PosCar.data := []; PosCar.tf := replicate 3 ["T"; "T"; "T"]%string;
       PosCar.totline := 11 |} in
  (PosCar.constrain_atom self "O" "fixed" "all").1 = self
  ∧ PosCar.constrain_atom self "H" "F" "all" = (self, Ok (PosCar.tf self)).
Proof.
  intros self.
  destruct (constrain_atom_flag_check self "O" "fixed" "all") as (_ & Hkeep & _).
  destruct (constrain_atom_flag_check self "H" "F" "all") as (_ & _ & Hnoop).
  split.
  - apply Hkeep. by split.
  - apply Hnoop; [by right|].
    simpl. rewrite !elem_of_cons, elem_of_nil. by intros [|[|]].
Defined.

(** C5.  On a system with [atoms = ["Pt", "O"]], [atoms_num = [2, 1]]
    and a 3x3 array [tf], [constrain_atom("O", 'F', 'all')] makes row 2
    all ['F'], keeps rows 0 and 1, and changes no other attribute (the
    coordinates [data] among them). *)
Theorem constrain_atom_Pt_O self (r0 r1 r2 : list string) :
  PosCar.atoms self = ["Pt"; "O"]%string →
  PosCar.atoms_num self = [2; 1] →
  PosCar.tf self = [r0; r1; r2] →
  length r0 = 3%nat → length r1 = 3%nat → length r2 = 3%nat →
  let tf' := [r0; r1; ["F"; "F"; "F"]%string] in
  PosCar.constrain_atom self "O" "F" "all" = (PosCar.set_tf self tf', Ok tf')
  ∧ PosCar.data (PosCar.constrain_atom self "O" "F" "all").1 = PosCar.data self.
Proof.
  intros Hatoms Hnum Htf H0 H1 H2 tf'.
  assert (PosCar.constrain_atom self "O" "F" "all"
          = (PosCar.set_tf self tf', Ok tf')) as ->; [|done].
  unfold PosCar.constrain_atom. rewrite Hatoms, Hnum, Htf.
  rewrite bool_decide_eq_false_2 by (by intros [_ ?]).
  rewrite (constrain_loop_first _ _ _ _ _ 1%nat 2 3) by done.
  simpl. unfold Np.set_rows, Np.ncols. simpl forallb.
  rewrite H0, H1, H2. done.
Qed.

Lemma constrain_atom_Pt_O_witness :
  let self :=
    {| PosCar.bases_const := AtomCo.one; PosCar.bases := [];
       PosCar.atoms := ["Pt"; "O"]%string; PosCar.atoms_num := [2; 1];
       PosCar.ntot := 3; PosCar.natoms := [("Pt", 2); ("O", 1)]%string;
       PosCar.data := replicate 3 [AtomCo.zero; AtomCo.zero; AtomCo.zero];
       PosCar.tf := [["T"; "T"; "T"]; ["F"; "T"; "T"]; ["T"; "T"; "F"]]%string;
       PosCar.totline := 11 |} in
  (PosCar.constrain_atom self "O" "F" "all").2
  = Ok [["T"; "T"; "T"]; ["F"; "T"; "T"]; ["F"; "F"; "F"]]%string.
Proof.
  intros self.
  destruct (constrain_atom_Pt_O self ["T"; "T"; "T"]%string
              ["F"; "T"; "T"]%string ["T"; "T"; "F"]%string) as [-> _];
    reflexivity.
Defined.

(** The rows that [a[lo:hi, :] = v] rewrites. *)
Lemma set_rows_lookup tf (lo hi : Z) to (k : nat) :
  Np.ncols tf = Some k →
  ∃ tf', Np.set_rows tf lo hi to = Ok tf'
       ∧ length tf' = length tf
       ∧ ∀ j row, tf !! j = Some row →
           tf' !! j
           = Some (if bool_decide (Py.slice_bound (length tf) lo ≤ j
                                   < Py.slice_bound (length tf) hi)%nat
                   then replicate k to else row).
Proof.
  intros Hk. unfold Np.set_rows. rewrite Hk. eexists. split; [done|].
  unfold Np.map_rows. split; [by rewrite length_imap|].
  intros j row Hj. by rewrite list_lookup_imap, Hj.
Qed.

(** C9.  An [axis] that is none of ['x'], ['X'], ['y'], ['Y'], ['z'],
    ['Z'] is treated as ['all']: the call does what
    [constrain_atom(atom, to, 'all')] does, and on an N x 3 array [tf],
    for a valid flag and a label first found at position [i] of [atoms],
    the rows of block [i] become [[to, to, to]] while every other row is
    kept. *)
Theorem constrain_atom_other_axis self atom to axis :
  ¬ named_axis axis →
  PosCar.constrain_atom self atom to axis
  = PosCar.constrain_atom self atom to "all"
  ∧ ∀ i : nat,
      to = "T"%string ∨ to = "F"%string →
      PosCar.atoms self !! i = Some atom →
      atom ∉ take i (PosCar.atoms self) →
      Np.ncols (PosCar.tf self) = Some 3%nat →
      ∃ tf', PosCar.constrain_atom self atom to axis
             = (PosCar.set_tf self tf', Ok tf')
           ∧ length tf' = length (PosCar.tf self)
           ∧ ∀ j row, PosCar.tf self !! j = Some row →
               tf' !! j
               = Some (if bool_decide
                            (Py.slice_bound (length (PosCar.tf self))
                               (prefix_sum (PosCar.atoms_num self) i) ≤ j
                             < Py.slice_bound (length (PosCar.tf self))
                                 (prefix_sum (PosCar.atoms_num self) (S i)))%nat
                       then [to; to; to] else row).
Proof.
  intros Hax.
  assert (PosCar.constrain_atom self atom to axis
          = PosCar.constrain_atom self atom to "all") as Heq.
  { unfold PosCar.constrain_atom. by rewrite constrain_loop_other_axis. }
  split; [done|].
  intros i Hto Hi Hfirst Hcols. rewrite Heq.
  unfold PosCar.constrain_atom.
  rewrite bool_decide_eq_false_2 by (intros [? ?]; by destruct Hto).
  rewrite (constrain_loop_first _ _ _ _ _ i
             (prefix_sum (PosCar.atoms_num self) i)
             (prefix_sum (PosCar.atoms_num self) (S i)))
    by by apply first_block_find.
  simpl. rewrite bool_decide_eq_true_2 by done. simpl.
  destruct (set_rows_lookup (PosCar.tf self)
              (prefix_sum (PosCar.atoms_num self) i)
              (prefix_sum (PosCar.atoms_num self) (S i)) to 3 Hcols)
    as (tf' & -> & Hlen & Hrows).
  by exists tf'.
Qed.

Lemma constrain_atom_other_axis_witness :
  let self :=
    {| PosCar.bases_const := AtomCo.one; PosCar.bases := [];
       PosCar.atoms := ["Pt"; "O"]%string; PosCar.atoms_num := [2; 1];
       PosCar.ntot := 3; PosCar.natoms := [("Pt", 2); ("O", 1)]%string;
       PosCar.data := replicate 3 [AtomCo.zero; AtomCo.zero; AtomCo.zero];
       PosCar.tf := replicate 3 ["T"; "T"; "T"]%string;
       PosCar.totline := 11 |} in
  PosCar.constrain_atom self "Pt" "F" "q"
  = PosCar.constrain_atom self "Pt" "F" "all"
  ∧ ∃ tf', (PosCar.constrain_atom self "Pt" "F" "q").2 = Ok tf'
         ∧ tf' !! 1%nat = Some ["F"; "F"; "F"]%string
         ∧ tf' !! 2%nat = Some ["T"; "T"; "T"]%string.
Proof.
  intros self.
  assert (¬ named_axis "q") as Hq.
  { unfold named_axis. rewrite !elem_of_cons, elem_of_nil.
    intros [H|[H|[H|[H|[H|[H|[]]]]]]]; discriminate H. }
  destruct (constrain_atom_other_axis self "Pt" "F" "q" Hq) as [Heq Hrows].
  split; [exact Heq|].
  destruct (Hrows 0%nat) as (tf' & Hcall & _ & Hlook).
  - by right.
  - reflexivity.
  - simpl. apply not_elem_of_nil.
  - reflexivity.
  - exists tf'. rewrite Hcall. split; [reflexivity|]. split.
    + by rewrite (Hlook 1%nat ["T"; "T"; "T"]%string).
    + by rewrite (Hlook 2%nat ["T"; "T"; "T"]%string).
Defined.

End constrain.

(** ** [XyzFile.load] *)

(** C7.  The two-atom frame of the specification loads with [ntot = 2],
    [atoms = ["H", "O"]] in first-seen order, [atoms_num = [1, 1]] and
    [step = 3], and passes [verify]. *)
Theorem xyz_load_example :
  ∃ self,
    XyzFile.load "2
STEP =    3
H   0.0 0.0 0.0
O   1.0 0.0 0.0
" = Ok self
    ∧ XyzFile.ntot self = 2
    ∧ XyzFile.atoms self = ["H"; "O"]%string
    ∧ XyzFile.atoms_num self = [1; 1]
    ∧ XyzFile.step self = 3
    ∧ XyzFile.verify self = Ok ().
Proof.
  eexists. split; [by vm_compute|]. by vm_compute.
Qed.

(** ** [CifFile.load] *)

Section cif.
Implicit Types (tb : CifFile.table) (lines : list string).

(** The second loop of [load] appends to [data] and [atom_names]
    together. *)
Lemma load_table_lengths lines tb tb' :
  CifFile.load_table lines tb = Ok tb' →
  length (CifFile.t_data tb) = length (CifFile.t_atom_names tb) →
  length (CifFile.t_data tb') = length (CifFile.t_atom_names tb').
Proof.
  revert tb. induction lines as [|line lines IH]; intros tb Hload Hlen;
    simpl in Hload.
  { by simplify_eq. }
  destruct (Py.startswith "_" (Py.strip line)).
  { by apply IH in Hload. }
  case_bool_decide; [|by apply IH in Hload].
  destruct (line2list_str (Py.strip line))
    as [|? [|? [|x [|y [|z [|? [|? [|? [|]]]]]]]]]; try done.
  apply ebind_Ok in Hload as (row & _ & Hload).
  apply IH in Hload; [done|].
  simpl. rewrite !length_app. simpl. lia.
Qed.

(** A line that the pattern of [load] matches begins with an underscore. *)
Lemma regex_match_underscore (line : string) (p : string * string) :
  CifFile.regex_match line = Some p → Py.startswith "_" line = true.
Proof.
  unfold CifFile.regex_match, Py.startswith.
  destruct line as [|c line]; [done|]. cbn [Py.chars list_ascii_of_string].
  intros H. cbn [String.prefix].
  destruct (ascii_dec "_" c) as [<-|Hc]; [by destruct line|].
  destruct c as [[] [] [] [] [] [] [] []]; done.
Qed.

(** The entries of the object's dictionary after the attribute loop: a
    name that no line sets keeps what it had, and a name that a line
    sets has an entry. *)
Lemma load_attrs_keys lines (attrs attrs' : gmap string CifFile.attr_value)
    (k : string) :
  CifFile.load_attrs lines attrs = Ok attrs' →
  (Forall (λ line, ∀ v, CifFile.regex_match (Py.strip line) ≠ Some (k, v)) lines →
   attrs' !! k = attrs !! k)
  ∧ (is_Some (attrs !! k)
     ∨ Exists (λ line, ∃ v, CifFile.regex_match (Py.strip line) = Some (k, v))
         lines →
     is_Some (attrs' !! k)).
Proof.
  revert attrs. induction lines as [|line lines IH]; intros attrs Hload;
    simpl in Hload.
  { simplify_eq. split; [done|]. intros [?|Hex]; [done|by inversion Hex]. }
  destruct (Py.startswith "_" (Py.strip line)) eqn:Hunder.
  - destruct (CifFile.regex_match (Py.strip line)) as [[attr value]|] eqn:Hm.
    + apply ebind_Ok in Hload as (v0 & _ & Hload).
      destruct (CifFile.setattr_error attr); [done|].
      destruct (IH _ Hload) as [Hkeep Hset]. split.
      * intros Hall. apply Forall_cons in Hall as [Hline Hall].
        rewrite Hkeep by done. apply lookup_insert_ne.
        intros ->. by apply (Hline value).
      * intros Hk. apply Hset.
        destruct (decide (attr = k)) as [->|Hne].
        { left. by rewrite lookup_insert_eq. }
        rewrite lookup_insert_ne by done.
        destruct Hk as [?|Hex]; [by left|].
        apply Exists_cons in Hex as [[v Hv]|Hex]; [congruence|by right].
    + destruct (IH _ Hload) as [Hkeep Hset]. split.
      * intros Hall. apply Forall_cons in Hall as [_ Hall]. by apply Hkeep.
      * intros [?|Hex]; apply Hset; [by left|].
        apply Exists_cons in Hex as [[v Hv]|Hex]; [congruence|by right].
  - destruct (IH _ Hload) as [Hkeep Hset]. split.
    + intros Hall. apply Forall_cons in Hall as [_ Hall]. by apply Hkeep.
    + intros [?|Hex]; apply Hset; [by left|].
      apply Exists_cons in Hex as [[v Hv]|Hex]; [|by right].
      apply regex_match_underscore in Hv. congruence.
Qed.

(** C10, as stated, fails: an attribute line [_verify x] before the first
    [loop_] line makes [setattr] put a string under the name [verify];
    the file loads, and the [verify()] that follows raises [TypeError]. *)
Lemma cif_verify_shadowed :
  let content := "data_x
_verify x
loop_
_atom_site_label
Si1 1.0 0.0 0.0 0.0 0.0 Uiso Si
"%string in
  ∃ self,
    CifFile.load content = Ok self
    ∧ CifFile.ntot self = Z.of_nat (length (CifFile.data self))
    ∧ CifFile.verify self = Raise TypeError.
Proof.
  intros content.
  destruct (CifFile.load content) as [self|e] eqn:Hload; [|by vm_compute in Hload].
  exists self. split; [done|].
  vm_compute in Hload. by simplify_eq.
Qed.

(** C10, amended.  After a successful [CifFile.load], [ntot] is the
    number of atom-table rows read: [ntot], the row count of [data] and
    the length of [atom_names] agree.  [verify()] then returns, provided
    that no line before the first [loop_] sets an attribute named
    [verify]; if one does, [verify()] raises [TypeError]. *)
Theorem cif_load_verify (content : string) (self : CifFile.t) :
  CifFile.load content = Ok self →
  CifFile.ntot self = Z.of_nat (length (CifFile.data self))
  ∧ length (CifFile.data self) = length (CifFile.atom_names self)
  ∧ ∃ g0 : list string,
      head (CifFile.lines_groups (Py.readlines content)) = Some g0
      ∧ (Forall (λ line, ∀ v,
                   CifFile.regex_match (Py.strip line) ≠ Some ("verify"%string, v))
           g0 →
         CifFile.verify self = Ok ())
      ∧ (Exists (λ line, ∃ v,
                   CifFile.regex_match (Py.strip line) = Some ("verify"%string, v))
           g0 →
         CifFile.verify self = Raise TypeError).
Proof.
  unfold CifFile.load. intros Hload.
  destruct (Py.index _ 0%nat) as [g0|] eqn:Hg0; [|done]. simpl in Hload.
  destruct (CifFile.load_attrs g0 ∅) as [attrs|] eqn:Hattrs; [|done].
  simpl in Hload.
  destruct (Py.last_item _) as [glast|]; [|done]. simpl in Hload.
  destruct (CifFile.load_table glast CifFile.empty_table) as [tb|] eqn:Htb;
    [|done].
  simpl in Hload. simplify_eq.
  apply load_table_lengths in Htb; [|done].
  destruct (load_attrs_keys g0 ∅ attrs "verify" Hattrs) as [Hkeep Hset].
  split_and!; [simpl; by rewrite Htb|done|].
  exists g0. split_and!.
  - unfold Py.index in Hg0. rewrite head_lookup.
    by destruct (_ !! 0%nat); simplify_eq/=.
  - intros Hall. unfold CifFile.verify, AtomCo.verify. simpl.
    rewrite Hkeep, lookup_empty by done.
    rewrite Htb. by rewrite bool_decide_eq_false_2 by (intros H; by apply H).
  - intros Hex. unfold CifFile.verify. simpl.
    destruct Hset as [v ->]; [by right|done].
Qed.

Lemma cif_load_verify_witness :
  let content := "data_x
_cell_length_a   5.43
loop_
_atom_site_label
Si1 1.0 0.0 0.0 0.0 0.0 Uiso Si
O1 1.0 0.5 0.5 0.5 0.0 Uiso O
"%string in
  ∃ self,
    CifFile.load content = Ok self
    ∧ CifFile.ntot self = 2
    ∧ CifFile.verify self = Ok ().
Proof.
  intros content.
  destruct (CifFile.load content) as [self|e] eqn:Hload; [|by vm_compute in Hload].
  exists self. split; [done|].
  destruct (cif_load_verify content self Hload)
    as (Hntot & Hlen & g0 & Hg0 & Hok & _).
  split.
  - vm_compute in Hload. by simplify_eq.
  - apply Hok. vm_compute in Hg0. simplify_eq.
    repeat constructor; intros v; by vm_compute.
Defined.

End cif.

(** ** Text: characters that [int] accepts, and [split('=')] *)

Section text.
Implicit Types (c : ascii) (cs : list ascii) (s : string).

Lemma chars_app s1 s2 : Py.chars (s1 ++ s2) = Py.chars s1 ++ Py.chars s2.
Proof. induction s1 as [|c s1 IH]; simpl; [done|]. by rewrite <- IH. Qed.

Lemma str_chars s : Py.str (Py.chars s) = s.
Proof. apply string_of_list_ascii_of_string. Qed.

Lemma elem_of_rev c cs : c ∈ rev cs ↔ c ∈ cs.
Proof. rewrite !list_elem_of_In. symmetry. apply in_rev. Qed.

Lemma lstrip_cspace_keeps c cs :
  c ∈ cs → Py.is_cspace c = false → c ∈ Py.lstrip_cspace cs.
Proof.
  intros Hin Hc. induction cs as [|c' cs IH]; simpl; [done|].
  destruct (Py.is_cspace c') eqn:Hc'; [|done].
  apply elem_of_cons in Hin as [->|Hin]; [congruence|auto].
Qed.

Lemma strip_cspace_keeps c cs :
  c ∈ cs → Py.is_cspace c = false → c ∈ Py.strip_cspace cs.
Proof.
  intros Hin Hc. unfold Py.strip_cspace.
  apply elem_of_rev, lstrip_cspace_keeps; [|done].
  apply elem_of_rev, lstrip_cspace_keeps; done.
Qed.

(** What [scan_digits] reads to the end is made of digits and
    underscores. *)
Lemma scan_digits_consumed cs (b : bool) (ds : list N) :
  Py.scan_digits b cs = (ds, []) →
  Forall (λ c, is_Some (Py.digit c) ∨ c = "_"%char) cs.
Proof.
  revert b ds. induction cs as [|c cs IH]; intros b ds Hscan; [done|].
  simpl in Hscan. destruct (Py.digit c) as [d|] eqn:Hd.
  - destruct (Py.scan_digits true cs) as [ds' r] eqn:Hcs.
    simplify_eq. constructor; [left; by rewrite Hd|]. by eapply IH.
  - destruct (b && Ascii.eqb c "_") eqn:Hb; [|done].
    apply andb_true_iff in Hb as [_ ->%Ascii.eqb_eq].
    destruct cs as [|c' cs']; [done|].
    case_bool_decide; [|done].
    constructor; [by right|]. by eapply IH.
Qed.

Lemma int_no_equals s (n : Z) : Py.int s = Ok n → "="%char ∉ Py.chars s.
Proof.
  unfold Py.int. intros Hint Hin.
  apply strip_cspace_keeps in Hin; [|done].
  destruct (Py.strip_cspace (Py.chars s)) as [|c cs] eqn:Hs; [by inversion Hin|].
  assert (∃ r neg, Py.scan_sign (c :: cs) = (neg, r) ∧ "="%char ∈ r)
    as (r & neg & Hsign & Hr).
  { apply elem_of_cons in Hin as [<-|Hin].
    { exists ("="%char :: cs), false. split; [done|by left]. }
    destruct (decide (c = "-"%char)) as [->|Hminus].
    { by exists cs, true. }
    destruct (decide (c = "+"%char)) as [->|Hplus].
    { by exists cs, false. }
    exists (c :: cs), false. split; [|by right].
    unfold Py.scan_sign.
    destruct c as [[] [] [] [] [] [] [] []]; done. }
  rewrite Hsign in Hint.
  destruct (Py.scan_digits false r) as [[|d ds] [|? ?]] eqn:Hscan; try done.
  apply scan_digits_consumed in Hscan.
  rewrite Forall_forall in Hscan.
  by destruct (Hscan _ Hr) as [[? ?]|?].
Qed.

Lemma split_on_tail c cur cs :
  c ∉ cs → Py.split_on_go c cur cs = [Py.str (rev cur ++ cs)].
Proof.
  revert cur. induction cs as [|c' cs IH]; intros cur Hc; simpl.
  { by rewrite app_nil_r. }
  apply not_elem_of_cons in Hc as [Hne Hc].
  rewrite (proj2 (Ascii.eqb_neq c' c)) by done.
  rewrite IH by done. simpl. by rewrite <- app_assoc.
Qed.

Lemma split_on_nonempty c cur cs : Py.split_on_go c cur cs ≠ [].
Proof.
  revert cur. induction cs as [|c' cs IH]; intros cur; simpl; [done|].
  destruct (Ascii.eqb c' c); [done|apply IH].
Qed.

(** [(pre + c + t).split(c)[-1]] is [t] when [t] does not hold [c]. *)
Lemma split_on_last c cur pre t :
  c ∉ t → last (Py.split_on_go c cur (pre ++ c :: t)) = Some (Py.str t).
Proof.
  intros Ht. revert cur. induction pre as [|c' pre IH]; intros cur; simpl.
  - rewrite Ascii.eqb_refl, split_on_tail by done. done.
  - destruct (Ascii.eqb c' c); [|apply IH].
    rewrite last_cons, IH. done.
Qed.

(** A prompt line in the sense of the specification is one that the
    generator takes as a prompt, with the same step. *)
Lemma is_prompt_step (line : string) (step : Z) :
  is_prompt line step →
  Py.contains "="%char (Py.strip line) = true
  ∧ XdatCar.step_of (Py.strip line) = Ok step.
Proof.
  intros (pre & label & -> & Hint). split.
  - unfold Py.contains. apply existsb_exists. exists "="%char.
    split; [|done]. rewrite !chars_app. apply in_or_app. right. by left.
  - unfold XdatCar.step_of, Py.split_on, Py.last_item. rewrite !chars_app. simpl.
    rewrite split_on_last by by eapply int_no_equals.
    simpl. by rewrite str_chars.
Qed.

End text.

(** ** The generator [XdatCar.__iter__] *)

Section xdatcar.
Context (ragged_ok : bool) (self : XdatCar.t).
Implicit Types (g : XdatCar.gen) (lines rows rest : list string).

Local Abbreviation n := (Z.to_nat (XdatCar.ntot self)).

Lemma read_rows_app rows rest (block : list (list Py.float)) :
  emap line2list rows = Ok block →
  XdatCar.read_rows (length rows) (rows ++ rest) = Ok (block, rest).
Proof.
  revert block. induction rows as [|row rows IH]; intros block Hblock;
    simpl in *.
  { by simplify_eq. }
  apply ebind_Ok in Hblock as (r & -> & Hblock).
  apply ebind_Ok in Hblock as (rs & Hrs & Hblock). simplify_eq/=.
  by rewrite (IH rs).
Qed.

Lemma read_rows_rest (k : nat) lines (block : list (list Py.float)) rest :
  XdatCar.read_rows k lines = Ok (block, rest) →
  length block = k ∧ (length rest ≤ length lines)%nat.
Proof.
  revert lines block. induction k as [|k IH]; intros lines block Hread;
    simpl in Hread.
  { by simplify_eq. }
  destruct (Py.readline lines) as [l f] eqn:Hline.
  apply ebind_Ok in Hread as (r & _ & Hread).
  apply ebind_Ok in Hread as ([rs f'] & Hrs & Hread). simplify_eq/=.
  apply IH in Hrs as [-> Hlen]. split; [done|].
  destruct lines; simplify_eq/=; lia.
Qed.

(** [np.array] gives the rows it was given, when it gives an array. *)
Lemma array_rows {A} (b : bool) (rows a : list (list A)) :
  Np.array b rows = Ok a → a = rows.
Proof.
  unfold Np.array. destruct rows as [|r rows]; [by intros [= <-]|].
  destruct (Np.ncols _); [by intros [= <-]|].
  destruct b; [by intros [= <-]|done].
Qed.

(** Rows of one length make an array on every numpy. *)
Lemma array_one_length {A} (b : bool) (rows : list (list A)) :
  one_length rows → Np.array b rows = Ok rows.
Proof.
  intros [k Hk]. unfold Np.array. destruct rows as [|r rows]; [done|].
  apply Forall_cons in Hk as [<- Hk]. simpl.
  rewrite (proj2 (forallb_forall _ rows)); [done|].
  intros r' Hr'. apply Nat.eqb_eq.
  rewrite Forall_forall in Hk. by apply Hk, list_elem_of_In.
Qed.

(** What a turn that yields has read. *)
Lemma next_yield g (fr : XdatCar.frame) g' :
  XdatCar.next ragged_ok self g = XdatCar.Yield fr g' →
  ∃ rest,
    XdatCar.read_rows n (XdatCar.f g) = Ok (fr.2, rest)
    ∧ g' = XdatCar.read_prompt rest.
Proof.
  unfold XdatCar.next.
  destruct (Py.contains "=" (XdatCar.prompt g)); [|done].
  destruct (ebind _ _) as [[step [data f']]|e] eqn:Hturn; [|done].
  apply ebind_Ok in Hturn as (? & _ & Hturn).
  apply ebind_Ok in Hturn as ([rows rest] & Hrows & Hturn).
  apply ebind_Ok in Hturn as (a & Harray & Hturn).
  apply array_rows in Harray. intros [= <- <-]. simplify_eq/=.
  by exists f'.
Qed.

(** Every yield uses up the prompt line it started from, so the lines
    left bound the number of turns. *)
Lemma run_finishes (fuel : nat) g :
  (length (XdatCar.f g)
   + (if Py.contains "="%char (XdatCar.prompt g) then 1 else 0) < fuel)%nat →
  (XdatCar.run ragged_ok fuel self g).2 ≠ XdatCar.Unfinished.
Proof.
  revert g. induction fuel as [|fuel IH]; intros g Hfuel; [lia|].
  simpl.
  destruct (XdatCar.next ragged_ok self g) as [fr g'| |e] eqn:Hnext; [|done..].
  assert (Py.contains "="%char (XdatCar.prompt g) = true) as Hhas.
  { unfold XdatCar.next in Hnext. by destruct (Py.contains _ _). }
  rewrite Hhas in Hfuel.
  apply next_yield in Hnext as (f' & Hrows & ->).
  apply read_rows_rest in Hrows as [_ Hlen].
  specialize (IH (XdatCar.read_prompt f')).
  destruct (XdatCar.run ragged_ok fuel self (XdatCar.read_prompt f'))
    as [frs e] eqn:Hrun.
  simpl in *. apply IH. clear IH Hrun Hhas.
  destruct f' as [|l f'']; simpl in *.
  - lia.
  - destruct (Py.contains _ _); lia.
Qed.

Lemma run_blocks (fuel : nat) g :
  Forall (λ fr : XdatCar.frame, length fr.2 = n)
    (XdatCar.run ragged_ok fuel self g).1.
Proof.
  revert g. induction fuel as [|fuel IH]; intros g; simpl; [done|].
  destruct (XdatCar.next ragged_ok self g) as [fr g'| |e] eqn:Hnext; [|done..].
  apply next_yield in Hnext as (f' & Hrows & ->).
  apply read_rows_rest in Hrows as [Hlen _].
  specialize (IH (XdatCar.read_prompt f')).
  destruct (XdatCar.run ragged_ok fuel self (XdatCar.read_prompt f')) as [frs e].
  by constructor.
Qed.

(** On the body of a trajectory the traversal yields its frames and ends
    by exhaustion. *)
Lemma run_trajectory lines (frs : list XdatCar.frame) :
  trajectory n lines frs →
  ∀ fuel : nat, (length lines < fuel)%nat →
    XdatCar.run ragged_ok fuel self (XdatCar.read_prompt lines)
    = (frs, XdatCar.Exhausted).
Proof.
  induction 1 as [|line rest Hstop|line rows rest step block frs
                                     Hprompt Hrows Hblock Hone _ IH];
    intros [|fuel] Hfuel; try (simpl in Hfuel; lia); simpl.
  - done.
  - unfold XdatCar.next. simpl. by rewrite Hstop.
  - apply is_prompt_step in Hprompt as [Hhas Hstep].
    unfold XdatCar.next. simpl. rewrite Hhas, Hstep. simpl.
    rewrite <- Hrows, (read_rows_app _ _ block) by done. simpl.
    rewrite array_one_length by done. simpl.
    rewrite IH; [done|].
    simpl in Hfuel. rewrite length_app in Hfuel. lia.
Qed.


End xdatcar.


(** ** Writing a POSCAR and reading it back *)

(** *** No float literal ends in ['T'] *)

Section float_text.
Implicit Types (c : ascii) (cs r : list ascii) (s : string).

Local Abbreviation T := ("T"%char).
Local Abbreviation word cs := (Forall (λ c, Py.is_space c = false) cs).

Lemma chars_str cs : Py.chars (Py.str cs) = cs.
Proof. apply list_ascii_of_string_of_list_ascii. Qed.

Lemma last_tail c cs : c ≠ T → last (c :: cs) = Some T → last cs = Some T.
Proof.
  intros Hc. rewrite last_cons. destruct (last cs); [done|]. by intros [= ->].
Qed.

Lemma lstrip_cspace_last cs :
  last cs = Some T → last (Py.lstrip_cspace cs) = Some T.
Proof.
  induction cs as [|c cs IH]; simpl; [done|]. intros Hlast.
  destruct (Py.is_cspace c) eqn:Hc; [|done].
  apply IH, (last_tail c); [|done]. by intros ->.
Qed.

Lemma strip_cspace_last cs :
  last cs = Some T → last (Py.strip_cspace cs) = Some T.
Proof.
  intros Hlast. apply lstrip_cspace_last in Hlast.
  unfold Py.strip_cspace.
  apply last_Some in Hlast as [u ->].
  rewrite rev_app_distr. simpl. rewrite rev_involutive.
  apply last_snoc.
Qed.

Lemma scan_sign_last cs (neg : bool) r :
  Py.scan_sign cs = (neg, r) → last cs = Some T → last r = Some T.
Proof.
  intros Hsign Hlast. destruct cs as [|c cs]; [done|].
  destruct (decide (c = "-"%char)) as [->|Hminus].
  { simplify_eq/=. by apply (last_tail "-"). }
  destruct (decide (c = "+"%char)) as [->|Hplus].
  { simplify_eq/=. by apply (last_tail "+"). }
  assert (Py.scan_sign (c :: cs) = (false, c :: cs)) as Hkeep.
  { unfold Py.scan_sign. destruct c as [[] [] [] [] [] [] [] []]; done. }
  rewrite Hkeep in Hsign. by simplify_eq.
Qed.

(** [scan_digits] never reads a ['T']. *)
Lemma scan_digits_last cs (b : bool) (ds : list N) r :
  Py.scan_digits b cs = (ds, r) → last cs = Some T → last r = Some T.
Proof.
  revert b ds r. induction cs as [|c cs IH]; intros b ds r Hscan Hlast; [done|].
  simpl in Hscan. destruct (Py.digit c) as [d|] eqn:Hd.
  - destruct (Py.scan_digits true cs) as [ds' r'] eqn:Hcs. simplify_eq.
    eapply IH; [done|]. apply (last_tail c); [|done]. by intros ->.
  - destruct (b && Ascii.eqb c "_") eqn:Hb; [|by simplify_eq].
    apply andb_true_iff in Hb as [_ ->%Ascii.eqb_eq].
    destruct cs as [|c' cs']; [by simplify_eq|].
    case_bool_decide; [|by simplify_eq].
    eapply IH; [done|]. by apply (last_tail "_").
Qed.

Lemma scan_exponent_last r :
  last r = Some T → ∀ e : Z, Py.scan_exponent r ≠ Some (e, []).
Proof.
  intros Hlast e. destruct r as [|c r]; [done|]. simpl.
  destruct (Ascii.eqb (Py.lower c) "e") eqn:He; [|done].
  assert (last r = Some T) as Hr.
  { apply (last_tail c); [|done]. by intros ->. }
  destruct (Py.scan_sign r) as [neg r1] eqn:Hsign.
  apply scan_sign_last in Hsign; [|done].
  destruct (Py.scan_digits false r1) as [[|d ds] r2] eqn:Hscan; [done|].
  apply scan_digits_last in Hscan; [|done].
  intros [= _ ->]. done.
Qed.

Lemma lower_str_last r (w : string) :
  last r = Some T → last (Py.chars w) ≠ Some "t"%char → Py.lower_str r ≠ w.
Proof.
  intros Hlast Hw <-. apply Hw. unfold Py.lower_str.
  rewrite chars_str. change (map Py.lower r) with (Py.lower <$> r).
  by rewrite fmap_last, Hlast.
Qed.

Lemma float_of_string_T s :
  last (Py.chars s) = Some T → Py.float_of_string s = Raise ValueError.
Proof.
  intros Hlast. unfold Py.float_of_string.
  apply strip_cspace_last in Hlast.
  destruct (Py.scan_sign _) as [neg r] eqn:Hsign.
  apply scan_sign_last in Hsign; [|done]. clear Hlast.
  rewrite bool_decide_eq_false_2; last first.
  { intros [H|H]; by apply (lower_str_last r) in H. }
  rewrite bool_decide_eq_false_2 by by apply lower_str_last.
  destruct (Py.scan_digits false r) as [ip r1] eqn:Hip.
  apply scan_digits_last in Hip; [|done].
  assert (∃ fp r2,
    match r1 with
    | "."%char :: r1' => Py.scan_digits false r1'
    | _ => ([], r1)
    end = (fp, r2) ∧ last r2 = Some T) as (fp & r2 & -> & Hr2).
  { destruct r1 as [|c r1']; [done|].
    destruct (decide (c = "."%char)) as [->|Hdot].
    - destruct (Py.scan_digits false r1') as [fp r2] eqn:Hfp.
      exists fp, r2. split; [done|].
      eapply scan_digits_last; [done|]. by apply (last_tail ".").
    - exists [], (c :: r1'). split; [|done].
      destruct c as [[] [] [] [] [] [] [] []]; done. }
  destruct (ip ++ fp); [done|].
  pose proof (scan_exponent_last r2 Hr2) as Hexp.
  destruct (Py.scan_exponent r2) as [[e [|? ?]]|]; [|done..].
  by destruct (Hexp e).
Qed.

Lemma float_of_string_raise s (e : exception) :
  Py.float_of_string s = Raise e → e = ValueError.
Proof.
  unfold Py.float_of_string. intros H.
  repeat (case_match; simplify_eq/=); done.
Qed.

Lemma emap_float_raise (pre post : list string) (tok : string) :
  Py.float_of_string tok = Raise ValueError →
  emap Py.float_of_string (pre ++ tok :: post) = Raise ValueError.
Proof.
  intros Htok. induction pre as [|t pre IH]; simpl.
  { by rewrite Htok. }
  destruct (Py.float_of_string t) as [x|e] eqn:Ht; simpl.
  - by rewrite IH.
  - by apply float_of_string_raise in Ht as ->.
Qed.

(** *** The text of a [{:f}] field *)

Lemma digits_word (u : Decimal.uint) : word (Py.chars (NilEmpty.string_of_uint u)).
Proof. induction u; simpl; by constructor. Qed.

Lemma str_of_N_word (k : N) :
  word (Py.chars (Py.str_of_N k)) ∧ Py.chars (Py.str_of_N k) ≠ [].
Proof.
  unfold Py.str_of_N, NilZero.string_of_uint.
  destruct (N.to_uint k) as [|u|u|u|u|u|u|u|u|u|u] eqn:Hu;
    (split; [|done]);
    try (by repeat constructor);
    simpl; constructor; try done; apply digits_word.
Qed.

Lemma replicate_word (k : nat) c : Py.is_space c = false → word (replicate k c).
Proof. intros Hc. induction k; simpl; by constructor. Qed.

Lemma fixed_digits_word (k : N) (p : nat) :
  word (Py.chars (Py.fixed_digits k p)) ∧ Py.chars (Py.fixed_digits k p) ≠ [].
Proof.
  unfold Py.fixed_digits.
  destruct (str_of_N_word (k / 10 ^ N.of_nat p)) as [Hip Hne].
  destruct p as [|p]; [done|].
  rewrite !chars_app, chars_str. split.
  - rewrite !Forall_app. split_and!; [done|by repeat constructor| |].
    + by apply replicate_word.
    + apply str_of_N_word.
  - destruct (Py.chars (Py.str_of_N _)); [done|]. done.
Qed.

Lemma fixed_word (p : nat) (x : Py.float) :
  word (Py.chars (Py.fixed p x)) ∧ Py.chars (Py.fixed p x) ≠ [].
Proof.
  destruct x as [sg|sg| |sg m e]; simpl.
  - destruct (fixed_digits_word 0 p) as [Hw Hne].
    destruct sg; simpl; [|done].
    split; [by constructor|done].
  - destruct sg; split; simpl; by repeat constructor.
  - split; by repeat constructor.
  - destruct (fixed_digits_word (Py.scaled_round m e p) p) as [Hw Hne].
    destruct sg; simpl; [|done].
    split; [by constructor|done].
Qed.

(** *** How [split] cuts a line of fields *)

Lemma split_go_word cur w cs :
  word w → Py.split_go cur (w ++ cs) = Py.split_go (rev w ++ cur) cs.
Proof.
  intros Hw. revert cur. induction Hw as [|c w Hc _ IH]; intros cur; simpl.
  { done. }
  by rewrite Hc, IH, <- app_assoc.
Qed.

Lemma split_go_blank (k : nat) cs :
  Py.split_go [] (replicate k " "%char ++ cs) = Py.split_go [] cs.
Proof. induction k as [|k IH]; simpl; done. Qed.

(** A right-aligned field after the words read so far: padding closes the
    word in progress, no padding continues it. *)
Lemma split_go_field cur (k : nat) w cs :
  word w → w ≠ [] →
  ∃ (done_ : list string) cur',
    Py.split_go cur (replicate k " "%char ++ w ++ cs)
    = done_ ++ Py.split_go (rev w ++ cur') cs
    ∧ (length done_ ≤ 1)%nat
    ∧ (cur = [] → done_ = []).
Proof.
  intros Hw Hne. destruct k as [|k].
  { exists [], cur. simpl. rewrite split_go_word by done.
    split_and!; [done|lia|done]. }
  destruct cur as [|c cur].
  - exists [], []. rewrite split_go_blank, split_go_word by done.
    split_and!; [done|simpl; lia|done].
  - exists [Py.str (rev (c :: cur))], []. simpl.
    rewrite split_go_blank, split_go_word by done.
    split_and!; [done|lia|done].
Qed.

(** Whatever the three coordinates, the row that [get_poscar_content]
    writes when the first flag is ['T'] starts with at most two tokens
    followed by one that ends in ['T'], and the loader's conversion of its
    first three tokens raises [ValueError]. *)
Lemma written_row_unreadable (x y z : Py.float) (ty tz : string) :
  ∃ line : string,
    AtomCo.data_tf_line [x; y; z] ["T"; ty; tz]%string = Ok line
    ∧ Np.float64 [PosCar.data_row line] = Raise ValueError.
Proof.
  eexists. split; [reflexivity|].
  unfold PosCar.data_row, str2list, Py.split, Py.format_f, Py.rjust,
    Py.format_s, Py.ljust, Py.spaces.
  rewrite !chars_app, !chars_str.
  destruct (fixed_word 12 x) as [Hx Hxne].
  destruct (fixed_word 12 y) as [Hy Hyne].
  destruct (fixed_word 12 z) as [Hz Hzne].
  set (bx := Py.chars (Py.fixed 12 x)) in *.
  set (by_ := Py.chars (Py.fixed 12 y)) in *.
  set (bz := Py.chars (Py.fixed 12 z)) in *.
  rewrite <- !app_assoc.
  destruct (split_go_field [] (18 - String.length (Py.fixed 12 x)) bx
              (replicate (18 - String.length (Py.fixed 12 y)) " "%char ++ by_ ++
               replicate (18 - String.length (Py.fixed 12 z)) " "%char ++ bz ++
               Py.chars "T" ++ replicate (5 - String.length "T") " "%char ++
               Py.chars ty ++ replicate (5 - String.length ty) " "%char ++
               Py.chars tz ++ replicate (5 - String.length tz) " "%char ++
               Py.chars "
") Hx Hxne) as (d1 & c1 & -> & _ & Hd1).
  rewrite (Hd1 eq_refl). simpl app at 1.
  edestruct (split_go_field (rev bx ++ c1)
               (18 - String.length (Py.fixed 12 y)) by_) as (d2 & c2 & -> & Hd2 & _);
    [done..|].
  rewrite (cons_middle T bz), (app_assoc bz [T]).
  edestruct (split_go_field (rev by_ ++ c2)
               (18 - String.length (Py.fixed 12 z)) (bz ++ [T]))
    as (d3 & c3 & -> & Hd3 & _).
  { apply Forall_app. split; [done|by constructor]. }
  { by destruct bz. }
  rewrite rev_app_distr. simpl.
  set (tok := Py.str (rev (rev bz ++ c3) ++ [T])).
  assert (Py.float_of_string tok = Raise ValueError) as Htok.
  { apply float_of_string_T. unfold tok. by rewrite chars_str, last_snoc. }
  rewrite (app_assoc d2 d3).
  assert (length (d2 ++ d3) ≤ 2)%nat as Hlen by (rewrite length_app; lia).
  rewrite take_app_ge by lia.
  destruct (3 - length (d2 ++ d3))%nat as [|k] eqn:Hk; [lia|].
  simpl take. unfold Np.float64. simpl.
  by rewrite (emap_float_raise (d2 ++ d3) _ tok).
Qed.

End float_text.

(** C1, at a document without constraint columns.  The document loads, the
    object is written out, and the text written is not accepted by
    [PosCar.load]: ["{:5s}"] pads on the right, so the first flag follows
    the third coordinate without a blank and the token
    ["0.000000000000T"] is no float.  The same holds of every written row
    whose first flag is ['T'], whatever its coordinates. *)
Theorem poscar_written_not_read_back :
  let doc := "t
1.0
1 0 0
0 1 0
0 0 1
Pt O
2 1
Direct
0 0 0
0.5 0.5 0.5
0.25 0.25 0.25
"%string in
  ∃ (self : PosCar.t) (written : string),
    PosCar.init doc = Ok self
    ∧ PosCar.atoms self = ["Pt"; "O"]%string
    ∧ PosCar.atoms_num self = [2; 1]
    ∧ PosCar.tf self = replicate 3 ["T"; "T"; "T"]%string
    ∧ PosCar.get_content self = Ok written
    ∧ Py.index (Py.readlines written) 9
      = Ok "    0.000000000000    0.000000000000    0.000000000000T    T    T    
"%string
    ∧ PosCar.load written = Raise ValueError
    ∧ PosCar.init written = Raise ValueError
    ∧ ∀ (x y z : Py.float) (ty tz : string),
        ∃ line : string,
          AtomCo.data_tf_line [x; y; z] ["T"; ty; tz]%string = Ok line
          ∧ Np.float64 [PosCar.data_row line] = Raise ValueError.
Proof.
  intros doc. eexists _, _.
  split; [by vm_compute|]. split; [by vm_compute|]. split; [by vm_compute|].
  split; [by vm_compute|]. split; [by vm_compute|]. split; [by vm_compute|].
  split; [by vm_compute|]. split; [by vm_compute|].
  apply written_row_unreadable.
Qed.

(** * Further properties of the code *)

(** ** The groups of [get_atomco_dict] put together *)

Section regroup.
Context {A : Type}.
Implicit Types (data : list (list A)) (atoms : list string) (atoms_num : list Z).

Lemma prefix_sum_S atoms_num (i : nat) (k : Z) :
  atoms_num !! i = Some k →
  prefix_sum atoms_num (S i) = prefix_sum atoms_num i + k.
Proof.
  unfold prefix_sum. revert i. induction atoms_num as [|m l IH]; intros [|i] Hi;
    simplify_eq/=; [lia|].
  rewrite (IH i) by done. lia.
Qed.

Lemma prefix_sum_nonneg atoms_num (i : nat) :
  Forall (λ k, 0 ≤ k) atoms_num → 0 ≤ prefix_sum atoms_num i.
Proof.
  unfold prefix_sum. intros Hall. revert i.
  induction Hall as [|m l Hm _ IH]; intros [|i]; simpl; try lia.
  specialize (IH i). lia.
Qed.

Lemma prefix_sum_le_sum atoms_num (i : nat) :
  Forall (λ k, 0 ≤ k) atoms_num → prefix_sum atoms_num i ≤ Py.sum atoms_num.
Proof.
  unfold prefix_sum. intros Hall. revert i.
  induction Hall as [|m l Hm Hl IH]; intros [|i]; simpl; try lia.
  - assert (0 ≤ Py.sum l) by (clear -Hl; induction Hl; simpl; lia). lia.
  - specialize (IH i). lia.
Qed.

(** Two slices that meet make one prefix. *)
Lemma take_slice_next {B} (l : list B) (a b : Z) :
  0 ≤ a ≤ b →
  take (Z.to_nat a) l ++ Py.slice l a b = take (Z.to_nat b) l.
Proof.
  intros Hab. unfold Py.slice, Py.slice_bound.
  destruct (Z.ltb_spec a 0), (Z.ltb_spec b 0); try lia.
  destruct (decide (a ≤ Z.of_nat (length l))) as [Ha|Ha].
  - rewrite (Z.min_l a) by lia.
    rewrite take_take_drop.
    destruct (decide (b ≤ Z.of_nat (length l))).
    + rewrite Z.min_l by lia. f_equal. lia.
    + rewrite Z.min_r by lia. rewrite !take_ge by lia. done.
  - rewrite !Z.min_r by lia. rewrite Nat.sub_diag, take_0, app_nil_r.
    rewrite !take_ge by lia. done.
Qed.

Lemma concat_slices data atoms_num (n : nat) :
  Forall (λ k, 0 ≤ k) atoms_num →
  concat (map (λ i, Py.slice data (prefix_sum atoms_num i) (prefix_sum atoms_num (S i)))
            (seq 0 n))
  = take (Z.to_nat (prefix_sum atoms_num n)) data.
Proof.
  intros Hall. induction n as [|n IH].
  { done. }
  rewrite seq_S, map_app, concat_app, IH. simpl. rewrite app_nil_r.
  apply take_slice_next. split; [by apply prefix_sum_nonneg|].
  destruct (atoms_num !! n) as [k|] eqn:Hk.
  - rewrite (prefix_sum_S _ _ k) by done.
    rewrite Forall_forall in Hall.
    assert (0 ≤ k) by (apply Hall; by eapply list_elem_of_lookup_2). lia.
  - unfold prefix_sum. apply lookup_ge_None in Hk.
    rewrite !take_ge by lia. lia.
Qed.

(** Without repeated labels every label owns the block at its position. *)
Lemma dict_block atoms atoms_num data (d : gmap string (list (list A)))
    (i : nat) (atom : string) :
  NoDup atoms → atoms !! i = Some atom →
  AtomCo.get_atomco_dict atoms atoms_num data = Ok d →
  d !! atom
  = Some (Py.slice data (prefix_sum atoms_num i) (prefix_sum atoms_num (S i))).
Proof.
  intros Hnodup Hi [= <-].
  rewrite group_fold_lookup, lookup_empty.
  rewrite (first_block_find _ _ i); [done..|].
  intros Hin. apply list_elem_of_lookup in Hin as [j Hj].
  apply lookup_take_Some in Hj as [Hj Hlt].
  pose proof (NoDup_lookup _ _ _ _ Hnodup Hi Hj). lia.
Qed.

Lemma dict_blocks_map atoms atoms_num data (d : gmap string (list (list A))) :
  NoDup atoms →
  AtomCo.get_atomco_dict atoms atoms_num data = Ok d →
  map (λ atom, default [] (d !! atom)) atoms
  = map (λ i, Py.slice data (prefix_sum atoms_num i) (prefix_sum atoms_num (S i)))
      (seq 0 (length atoms)).
Proof.
  intros Hnodup Hd. apply list_eq. intros i.
  rewrite !list_lookup_fmap.
  destruct (atoms !! i) as [atom|] eqn:Hi; simpl.
  - rewrite lookup_seq_lt by (by eapply lookup_lt_Some). simpl.
    by rewrite (dict_block atoms atoms_num data d i atom).
  - apply lookup_ge_None in Hi. by rewrite lookup_seq_ge.
Qed.

(** X1.  When no label is repeated and no count is negative, the groups of
    [get_atomco_dict], put together in the order of [atoms], are the first
    [sum(atoms_num[:len(atoms)])] rows of [data]: no row is lost, repeated
    or moved. *)
Theorem atomco_dict_concat atoms atoms_num data (d : gmap string (list (list A))) :
  NoDup atoms →
  Forall (λ k, 0 ≤ k) atoms_num →
  AtomCo.get_atomco_dict atoms atoms_num data = Ok d →
  concat (map (λ atom, default [] (d !! atom)) atoms)
  = take (Z.to_nat (prefix_sum atoms_num (length atoms))) data.
Proof.
  intros Hnodup Hall Hd.
  by rewrite (dict_blocks_map atoms atoms_num data d), concat_slices.
Qed.

End regroup.

Lemma atomco_dict_concat_witness :
  ∃ d, AtomCo.get_atomco_dict ["Pt"; "O"]%string [2; 1] [[0]; [1]; [2]; [3]] = Ok d
     ∧ concat (map (λ atom, default [] (d !! atom)) ["Pt"; "O"]%string)
       = [[0]; [1]; [2]].
Proof.
  destruct (AtomCo.get_atomco_dict ["Pt"; "O"]%string [2; 1] [[0]; [1]; [2]; [3]])
    as [d|e] eqn:Hd; [|by vm_compute in Hd].
  exists d. split; [done|].
  rewrite (atomco_dict_concat ["Pt"; "O"]%string [2; 1] [[0]; [1]; [2]; [3]] d).
  - reflexivity.
  - apply NoDup_cons. split; [|apply NoDup_singleton].
    rewrite elem_of_cons, elem_of_nil. intros [H|[]]. discriminate H.
  - repeat constructor; lia.
  - exact Hd.
Defined.

(** ** Counting labels *)

Section counting.
Implicit Types (l atoms : list string) (x a : string).

Lemma count_cons a x l :
  Py.count a (x :: l) = Py.count a l + (if decide (x = a) then 1 else 0).
Proof.
  unfold Py.count. rewrite filter_cons.
  destruct (decide (x = a)); simpl; lia.
Qed.

Lemma count_pos a l : a ∈ l → 1 ≤ Py.count a l.
Proof.
  induction 1 as [a l|a x l _ IH]; rewrite count_cons.
  - rewrite decide_True by done. unfold Py.count. lia.
  - destruct (decide _); lia.
Qed.

Lemma sum_map_add {B} (f g : B → Z) (bs : list B) :
  Py.sum (map (λ b, f b + g b) bs) = Py.sum (map f bs) + Py.sum (map g bs).
Proof. induction bs as [|b bs IH]; simpl; lia. Qed.

Lemma sum_indicator x atoms :
  NoDup atoms →
  Py.sum (map (λ a, if decide (x = a) then 1 else 0) atoms)
  = if decide (x ∈ atoms) then 1 else 0.
Proof.
  induction 1 as [|a atoms Hnot _ IH]; simpl; [done|].
  rewrite IH. destruct (decide (x = a)) as [->|Hne].
  - rewrite decide_False by done. rewrite decide_True by left. done.
  - destruct (decide (x ∈ atoms)).
    + rewrite decide_True by by right. done.
    + rewrite decide_False; [done|]. rewrite elem_of_cons. tauto.
Qed.

(** Counting every label of a list that holds each once gives the length. *)
Lemma sum_counts l atoms :
  NoDup atoms → (∀ x, x ∈ l → x ∈ atoms) →
  Py.sum (map (λ a, Py.count a l) atoms) = Z.of_nat (length l).
Proof.
  intros Hnodup. induction l as [|x l IH]; intros Hsub.
  { clear. induction atoms as [|a atoms IH]; simpl; [done|].
    rewrite IH. done. }
  rewrite (map_ext _ (λ a, Py.count a l + (if decide (x = a) then 1 else 0)))
    by (intros; apply count_cons).
  rewrite sum_map_add, IH, sum_indicator by (try done; intros; apply Hsub; by right).
  rewrite decide_True by (apply Hsub; left). simpl length. lia.
Qed.

Lemma first_seen_acc l (acc : list string) :
  NoDup acc →
  let r := fold_left
             (λ atoms atom, if bool_decide (atom ∈ atoms) then atoms else atoms ++ [atom])
             l acc in
  NoDup r ∧ ∀ x, x ∈ r ↔ x ∈ acc ∨ x ∈ l.
Proof.
  revert acc. induction l as [|a l IH]; intros acc Hacc; simpl.
  { split; [done|]. intros x. rewrite elem_of_nil. tauto. }
  case_bool_decide as Ha.
  - destruct (IH acc Hacc) as [Hnd Hin]. split; [done|].
    intros x. rewrite Hin, elem_of_cons. split; [tauto|].
    intros [?|[->|?]]; auto.
  - destruct (IH (acc ++ [a])) as [Hnd Hin].
    { apply NoDup_app. split_and!; [done| |apply NoDup_singleton].
      intros x Hx ->%list_elem_of_singleton. done. }
    split; [done|]. intros x.
    rewrite Hin, elem_of_app, list_elem_of_singleton, elem_of_cons. tauto.
Qed.

Lemma first_seen_spec l :
  NoDup (XyzFile.first_seen l) ∧ ∀ x, x ∈ XyzFile.first_seen l ↔ x ∈ l.
Proof.
  destruct (first_seen_acc l [] (NoDup_nil_2)) as [Hnd Hin].
  split; [done|]. intros x. unfold XyzFile.first_seen. rewrite Hin, elem_of_nil. tauto.
Qed.

End counting.

(** ** Lengths through the exception monad *)

Lemma emap_length {A B} (f : A → exn B) (l : list A) (l' : list B) :
  emap f l = Ok l' → length l' = length l.
Proof.
  revert l'. induction l as [|x l IH]; intros l' H; simpl in H.
  { by simplify_eq. }
  apply ebind_Ok in H as (y & _ & H).
  apply ebind_Ok in H as (ys & Hys & H). simplify_eq/=.
  by rewrite (IH ys).
Qed.

Lemma float64_length (rows : list (list string)) (data : list (list Py.float)) :
  Np.float64 rows = Ok data → length data = length rows.
Proof.
  unfold Np.float64. destruct rows as [|r rows]; [by intros [= <-]|].
  destruct (Np.ncols _); [|done]. apply emap_length.
Qed.

(** ** What [XyzFile.load] establishes *)

(** The attributes of a loaded file, as [load] computes them. *)
Lemma xyz_load_inv (content : string) (self : XyzFile.t) :
  XyzFile.load content = Ok self →
  let data_list := map str2list (drop 2 (Py.readlines content)) in
  let atoms_list := map (λ r, default EmptyString (head r)) data_list in
  data_list ≠ []
  ∧ XyzFile.atoms self = XyzFile.first_seen atoms_list
  ∧ XyzFile.atoms_num self
    = map (λ atom, Py.count atom atoms_list) (XyzFile.atoms self)
  ∧ XyzFile.natoms self = zip (XyzFile.atoms self) (XyzFile.atoms_num self)
  ∧ length (XyzFile.data self) = length data_list.
Proof.
  unfold XyzFile.load. intros H.
  apply ebind_Ok in H as (l0 & _ & H).
  apply ebind_Ok in H as (ntot & _ & H).
  apply ebind_Ok in H as (l1 & _ & H).
  apply ebind_Ok in H as (label & _ & H).
  apply ebind_Ok in H as (step & _ & H).
  apply ebind_Ok in H as ([] & Hcols & H).
  apply ebind_Ok in H as (data & Hdata & H).
  apply ebind_Ok in H as (d & _ & H). simplify_eq/=.
  apply float64_length in Hdata. rewrite length_map in Hdata.
  split_and!; try done.
  intros Hnil. by rewrite Hnil in Hcols.
Qed.

(** The counts of a loaded file: positive, and as many as there are rows. *)
Lemma xyz_load_sum (content : string) (self : XyzFile.t) :
  XyzFile.load content = Ok self →
  NoDup (XyzFile.atoms self)
  ∧ Forall (λ k, 1 ≤ k) (XyzFile.atoms_num self)
  ∧ length (XyzFile.atoms_num self) = length (XyzFile.atoms self)
  ∧ Py.sum (XyzFile.atoms_num self) = Z.of_nat (length (XyzFile.data self)).
Proof.
  intros Hload.
  destruct (xyz_load_inv content self Hload)
    as (Hne & Hatoms & Hnum & Hnatoms & Hdata).
  set (data_list := map str2list (drop 2 (Py.readlines content))) in *.
  set (atoms_list := map (λ r, default EmptyString (head r)) data_list) in *.
  destruct (first_seen_spec atoms_list) as [Hnd Hin].
  assert (length atoms_list = length data_list) as Hlen
    by (unfold atoms_list; by rewrite length_map).
  rewrite Hnum, Hatoms. split_and!.
  - done.
  - apply Forall_forall. intros k Hk.
    apply list_elem_of_fmap in Hk as (a & -> & Ha).
    apply count_pos. by apply Hin.
  - by rewrite length_map.
  - rewrite sum_counts by (try done; intros; by apply Hin). lia.
Qed.

(** X2.  A loaded xyz file has at least one label, no label twice, a count of
    at least one for each, and the counts add up to the number of
    coordinate rows, which is the number of lines after the second. *)
Theorem xyz_load_counts (content : string) (self : XyzFile.t) :
  XyzFile.load content = Ok self →
  NoDup (XyzFile.atoms self)
  ∧ XyzFile.atoms self ≠ []
  ∧ length (XyzFile.atoms_num self) = length (XyzFile.atoms self)
  ∧ Forall (λ k, 1 ≤ k) (XyzFile.atoms_num self)
  ∧ XyzFile.natoms self = zip (XyzFile.atoms self) (XyzFile.atoms_num self)
  ∧ Py.sum (XyzFile.atoms_num self) = Z.of_nat (length (XyzFile.data self))
  ∧ length (XyzFile.data self) = (length (Py.readlines content) - 2)%nat.
Proof.
  intros Hload.
  destruct (xyz_load_sum content self Hload) as (Hnd & Hpos & Hlen & Hsum).
  destruct (xyz_load_inv content self Hload)
    as (Hne & Hatoms & Hnum & Hnatoms & Hdata).
  split_and!; try done.
  - intros Hnil. rewrite Hnil in Hlen.
    destruct (XyzFile.atoms_num self); [|done]. simpl in Hsum.
    destruct (map str2list _); [done|].
    simpl in Hdata. lia.
  - by rewrite Hdata, length_map, length_drop.
Qed.

(** X3.  [XyzFile(filename)] accepts a file that loads exactly when the count
    on its first line is the number of lines after the second; otherwise
    [verify] raises [CarfileValueError]. *)
Theorem xyz_init_total (content : string) (self : XyzFile.t) :
  XyzFile.load content = Ok self →
  XyzFile.init content
  = if bool_decide
         (XyzFile.ntot self = Z.of_nat (length (Py.readlines content) - 2))
    then Ok self
    else Raise (CarfileValueError "Atom numbers mismatch!").
Proof.
  intros Hload. unfold XyzFile.init. rewrite Hload. simpl.
  destruct (xyz_load_inv content self Hload) as (_ & _ & _ & _ & Hdata).
  rewrite length_map, length_drop in Hdata.
  unfold XyzFile.verify, AtomCo.verify. rewrite Hdata.
  repeat case_bool_decide; simpl; try done; lia.
Qed.

(** X4.  On a loaded xyz file [atomco_dict] has one group for each label, as
    long as the label's count, and the groups, put together in the order
    of [atoms], are the rows of [data]: the grouping is by position in the
    file, one block after the other. *)
Theorem xyz_atomco_dict_partition (content : string) (self : XyzFile.t) :
  XyzFile.load content = Ok self →
  ∃ d,
    AtomCo.get_atomco_dict (XyzFile.atoms self) (XyzFile.atoms_num self)
      (XyzFile.data self) = Ok d
    ∧ Forall2 (λ atom k, length (default [] (d !! atom)) = Z.to_nat k)
        (XyzFile.atoms self) (XyzFile.atoms_num self)
    ∧ concat (map (λ atom, default [] (d !! atom)) (XyzFile.atoms self))
      = XyzFile.data self.
Proof.
  intros Hload.
  destruct (xyz_load_sum content self Hload) as (Hnd & Hpos & Hlen & Hsum).
  assert (Forall (λ k, 0 ≤ k) (XyzFile.atoms_num self)) as Hnonneg
    by (eapply Forall_impl; [exact Hpos|]; simpl; intros; lia).
  destruct (AtomCo.get_atomco_dict (XyzFile.atoms self) (XyzFile.atoms_num self)
              (XyzFile.data self)) as [d|e] eqn:Hd; [|done].
  exists d. split; [done|]. split.
  - apply Forall2_same_length_lookup. split; [done|].
    intros i atom k Hi Hk.
    rewrite (dict_block _ _ _ d i atom Hnd Hi Hd). simpl.
    pose proof (prefix_sum_nonneg (XyzFile.atoms_num self) i Hnonneg) as H0.
    pose proof (prefix_sum_S _ _ _ Hk) as HS.
    pose proof (prefix_sum_le_sum (XyzFile.atoms_num self) (S i) Hnonneg) as Hle.
    rewrite Forall_forall in Hpos.
    assert (1 ≤ k) by (apply Hpos; by eapply list_elem_of_lookup_2).
    rewrite slice_take_drop by lia.
    rewrite length_take, length_drop. lia.
  - rewrite (dict_blocks_map _ _ _ d Hnd Hd), concat_slices by done.
    apply take_ge. unfold prefix_sum. rewrite take_ge by lia. lia.
Qed.

Lemma xyz_load_counts_witness :
  let content := "3
STEP =    7
O   0.0 0.0 0.0
H   1.0 0.0 0.0
H   0.0 1.0 0.0
"%string in
  ∃ self,
    XyzFile.load content = Ok self
    ∧ XyzFile.natoms self = [("O", 1); ("H", 2)]%string
    ∧ Py.sum (XyzFile.atoms_num self) = Z.of_nat (length (XyzFile.data self)).
Proof.
  intros content.
  destruct (XyzFile.load content) as [self|e] eqn:Hload; [|by vm_compute in Hload].
  exists self.
  destruct (xyz_load_counts content self Hload) as (_ & _ & _ & _ & _ & Hsum & _).
  split; [done|]. split; [|exact Hsum].
  vm_compute in Hload. by simplify_eq.
Defined.

Lemma xyz_init_total_witness :
  let content := "2
STEP =    7
O   0.0 0.0 0.0
H   1.0 0.0 0.0
H   0.0 1.0 0.0
"%string in
  ∃ self,
    XyzFile.load content = Ok self
    ∧ XyzFile.init content = Raise (CarfileValueError "Atom numbers mismatch!").
Proof.
  intros content.
  destruct (XyzFile.load content) as [self|e] eqn:Hload; [|by vm_compute in Hload].
  exists self. split; [done|].
  rewrite (xyz_init_total content self Hload).
  vm_compute in Hload. by simplify_eq.
Defined.

Lemma xyz_atomco_dict_partition_witness :
  let content := "3
STEP =    7
H   0.0 0.0 0.0
O   1.0 0.0 0.0
H   0.0 1.0 0.0
"%string in
  ∃ self d,
    XyzFile.load content = Ok self
    ∧ XyzFile.atoms self = ["H"; "O"]%string
    ∧ AtomCo.get_atomco_dict (XyzFile.atoms self) (XyzFile.atoms_num self)
        (XyzFile.data self) = Ok d
    ∧ concat (map (λ atom, default [] (d !! atom)) (XyzFile.atoms self))
      = XyzFile.data self.
Proof.
  intros content.
  destruct (XyzFile.load content) as [self|e] eqn:Hload; [|by vm_compute in Hload].
  destruct (xyz_atomco_dict_partition content self Hload) as (d & Hd & _ & Hcat).
  exists self, d. split; [done|]. split; [|by split].
  vm_compute in Hload. by simplify_eq.
Defined.

(** ** Lengths of slices and of converted arrays *)

Lemma slice_length {A} (l : list A) (start stop : Z) :
  length (Py.slice l start stop)
  = (Py.slice_bound (length l) stop - Py.slice_bound (length l) start)%nat.
Proof.
  unfold Py.slice. rewrite length_take, length_drop.
  assert (∀ i, Py.slice_bound (length l) i ≤ length l)%nat as Hb.
  { intros i. unfold Py.slice_bound. destruct (Z.ltb_spec i 0); lia. }
  pose proof (Hb start). pose proof (Hb stop). lia.
Qed.

Lemma emap_rows_length {A B} (f : A → exn B) (rows : list (list A))
    (rows' : list (list B)) :
  emap (emap f) rows = Ok rows' →
  Forall2 (λ r r', length r' = length r) rows rows'.
Proof.
  revert rows'. induction rows as [|r rows IH]; intros rows' H; simpl in H.
  { simplify_eq. constructor. }
  apply ebind_Ok in H as (y & Hy & H).
  apply ebind_Ok in H as (ys & Hys & H). simplify_eq/=.
  constructor; [by apply emap_length in Hy|by apply IH].
Qed.

Lemma float64_rows (rows : list (list string)) (data : list (list Py.float)) :
  Np.float64 rows = Ok data →
  Forall2 (λ r r', length r' = length r) rows data.
Proof.
  unfold Np.float64. destruct rows as [|r rows]; [intros [= <-]; constructor|].
  destruct (Np.ncols _); [|done]. apply emap_rows_length.
Qed.

Lemma selective_begin (line : string) (sel : bool) :
  PosCar.selective line = Ok sel →
  sel = bool_decide (Py.startswith "S" line = true ∨ Py.startswith "s" line = true).
Proof.
  destruct line as [|c line]; [done|]. intros [= <-].
  apply bool_decide_ext. unfold Py.startswith. cbn [String.prefix].
  replace (String.prefix "" line) with true by (by destruct line).
  destruct (ascii_dec "S" c), (ascii_dec "s" c); intuition congruence.
Qed.

(** ** What [PosCar.load] establishes *)

(** The attributes of a loaded file, as [load] computes them. *)
Lemma poscar_load_inv (content : string) (self : PosCar.t) :
  PosCar.load content = Ok self →
  let lines := Py.readlines content in
  ∃ (l5 l6 l7 : string) (sel : bool),
    lines !! 5%nat = Some l5 ∧ lines !! 6%nat = Some l6
    ∧ lines !! 7%nat = Some l7
    ∧ sel = bool_decide (Py.startswith "S" l7 = true ∨ Py.startswith "s" l7 = true)
    ∧ let data_begin := if sel then 9 else 8 in
      let block := Py.slice lines data_begin (data_begin + PosCar.ntot self) in
      PosCar.atoms self = str2list l5
      ∧ emap Py.int (str2list l6) = Ok (PosCar.atoms_num self)
      ∧ PosCar.ntot self = Py.sum (PosCar.atoms_num self)
      ∧ PosCar.natoms self = zip (PosCar.atoms self) (PosCar.atoms_num self)
      ∧ PosCar.totline self = data_begin + PosCar.ntot self
      ∧ PosCar.tf self = map PosCar.tf_row block
      ∧ Np.float64 (map PosCar.data_row block) = Ok (PosCar.data self)
      ∧ Np.float64 (map str2list (Py.slice lines 2 5)) = Ok (PosCar.bases self).
Proof.
  intros H lines. unfold PosCar.load in H. fold lines in H.
  apply ebind_Ok in H as (l1 & _ & H).
  apply ebind_Ok in H as (bases_const & _ & H).
  apply ebind_Ok in H as (l5 & Hl5 & H).
  apply ebind_Ok in H as (l6 & Hl6 & H).
  apply ebind_Ok in H as (l7 & Hl7 & H).
  apply ebind_Ok in H as (sel & Hsel & H).
  apply ebind_Ok in H as (atoms_num & Hnum & H).
  apply ebind_Ok in H as (bases & Hbases & H).
  apply ebind_Ok in H as (data & Hdata & H).
  apply ebind_Ok in H as (d & _ & H). simplify_eq/=.
  unfold Py.index in Hl5, Hl6, Hl7.
  destruct (lines !! 5%nat) as [l5'|] eqn:Hl5'; simplify_eq/=.
  destruct (lines !! 6%nat) as [l6'|] eqn:Hl6'; simplify_eq/=.
  destruct (lines !! 7%nat) as [l7'|] eqn:Hl7'; simplify_eq/=.
  apply selective_begin in Hsel.
  exists l5, l6, l7, sel. by split_and!.
Qed.

(** X5.  A loaded POSCAR has at least eight lines, three basis rows, one row
    of flags for each coordinate row, at most three coordinates in a row,
    and its coordinate block starts at line 8, or 9 when line 7 begins
    with [S] or [s], and is cut at the end of the file. *)
Theorem poscar_load_shape (content : string) (self : PosCar.t) :
  PosCar.load content = Ok self →
  let lines := Py.readlines content in
  (8 ≤ length lines)%nat
  ∧ PosCar.ntot self = Py.sum (PosCar.atoms_num self)
  ∧ PosCar.natoms self = zip (PosCar.atoms self) (PosCar.atoms_num self)
  ∧ length (PosCar.bases self) = 3%nat
  ∧ length (PosCar.tf self) = length (PosCar.data self)
  ∧ Forall (λ row, length row ≤ 3)%nat (PosCar.data self)
  ∧ Forall (λ row, row ≠ []) (PosCar.tf self)
  ∧ (∃ l7, lines !! 7%nat = Some l7
         ∧ PosCar.totline self
           = (if bool_decide (Py.startswith "S" l7 = true ∨ Py.startswith "s" l7 = true)
              then 9 else 8) + PosCar.ntot self)
  ∧ length (PosCar.data self)
    = length (Py.slice lines (PosCar.totline self - PosCar.ntot self)
                (PosCar.totline self)).
Proof.
  intros H lines.
  destruct (poscar_load_inv content self H)
    as (l5 & l6 & l7 & sel & _ & _ & Hl7 & Hsel & _ & _ & Hntot & Hnatoms & Htot
        & Htf & Hdata & Hbases).
  fold lines in Hl7, Htot, Htf, Hdata, Hbases.
  pose proof (lookup_lt_Some _ _ _ Hl7) as Hlen.
  set (data_begin := if sel then 9 else 8) in *.
  set (block := Py.slice lines data_begin (data_begin + PosCar.ntot self)) in *.
  pose proof (float64_length _ _ Hdata) as Hdlen. rewrite length_map in Hdlen.
  split_and!.
  - lia.
  - done.
  - done.
  - apply float64_length in Hbases. rewrite Hbases, length_map, slice_length.
    unfold Py.slice_bound. simpl. lia.
  - by rewrite Htf, length_map.
  - apply float64_rows in Hdata. apply Forall2_fmap_l in Hdata.
    apply Forall2_Forall_r with (Q := λ row, (length row ≤ 3)%nat) in Hdata; [done|].
    apply Forall_forall. intros line _ row ->. unfold PosCar.data_row.
    rewrite length_take. lia.
  - rewrite Htf.
    apply Forall_fmap, Forall_forall. intros line _. unfold PosCar.tf_row. simpl.
    destruct (3 <? length (str2list line))%nat eqn:Hlt; [|done].
    apply Nat.ltb_lt in Hlt. intros Hnil.
    apply (f_equal length) in Hnil. rewrite length_drop in Hnil. simpl in Hnil. lia.
  - exists l7. split; [done|]. rewrite Htot. unfold data_begin. by rewrite Hsel.
  - rewrite Hdlen, Htot. unfold block. do 2 f_equal. lia.
Qed.

Lemma poscar_load_shape_witness :
  let content := "PtO
1.0
1 0 0
0 1 0
0 0 1
Pt O
2 1
Selective dynamics
Direct
0 0 0 T T F
0.5 0.5 0.5 T T T
0.25 0.25 0.25 F F F
"%string in
  ∃ self,
    PosCar.load content = Ok self
    ∧ PosCar.totline self = 12
    ∧ length (PosCar.tf self) = length (PosCar.data self).
Proof.
  intros content.
  destruct (PosCar.load content) as [self|e] eqn:Hload; [|by vm_compute in Hload].
  exists self.
  destruct (poscar_load_shape content self Hload)
    as (_ & _ & _ & _ & Hlen & _).
  split; [done|]. split; [|exact Hlen].
  vm_compute in Hload. by simplify_eq.
Defined.



(** X6.  [PosCar(filename)] accepts a file that loads exactly when its counts
    add up to no negative number and the coordinate block they announce
    lies inside the file (or is empty); otherwise [verify] raises
    [CarfileValueError]. *)
Theorem poscar_init_rows (content : string) (self : PosCar.t) :
  PosCar.load content = Ok self →
  PosCar.init content
  = if bool_decide (0 ≤ PosCar.ntot self
                    ∧ (PosCar.ntot self = 0
                       ∨ PosCar.totline self ≤ Z.of_nat (length (Py.readlines content))))
    then Ok self
    else Raise (CarfileValueError "Atom numbers mismatch!").
Proof.
  intros Hload. unfold PosCar.init. rewrite Hload. simpl.
  destruct (poscar_load_inv content self Hload)
    as (l5 & l6 & l7 & sel & _ & _ & Hl7 & _ & _ & _ & _ & _ & Htot & _ & Hdata & _).
  pose proof (lookup_lt_Some _ _ _ Hl7) as Hlines.
  apply float64_length in Hdata. rewrite length_map in Hdata.
  unfold PosCar.verify, AtomCo.verify. rewrite Hdata, slice_length.
  set (L := length (Py.readlines content)) in *.
  set (data_begin := if sel then 9 else 8) in *.
  assert (data_begin = 8 ∨ data_begin = 9) as Hbegin
    by (unfold data_begin; destruct sel; lia).
  unfold Py.slice_bound.
  destruct (Z.ltb_spec data_begin 0); [lia|].
  destruct (Z.ltb_spec (data_begin + PosCar.ntot self) 0);
    repeat case_bool_decide; simpl; try done; lia.
Qed.

Lemma poscar_init_rows_witness :
  let content := "PtO
1.0
1 0 0
0 1 0
0 0 1
Pt O
2 2
Direct
0 0 0
0.5 0.5 0.5
0.25 0.25 0.25
"%string in
  ∃ self,
    PosCar.load content = Ok self
    ∧ PosCar.init content = Raise (CarfileValueError "Atom numbers mismatch!").
Proof.
  intros content.
  destruct (PosCar.load content) as [self|e] eqn:Hload; [|by vm_compute in Hload].
  exists self. split; [done|].
  rewrite (poscar_init_rows content self Hload).
  vm_compute in Hload. by simplify_eq.
Defined.

(** ** Editing one column with [constrain_atom] *)

Section columns.
Implicit Types (self : PosCar.t) (tf : list (list string))
  (atom to axis : string).

Lemma ncols_rows {A} (a : list (list A)) (k : nat) :
  Np.ncols a = Some k → Forall (λ r, length r = k) a.
Proof.
  destruct a as [|r rs]; simpl; [done|].
  destruct (forallb _ rs) eqn:Hall; [|done]. intros [= <-].
  constructor; [done|]. apply Forall_forall. intros r' Hr'.
  rewrite forallb_forall in Hall. apply Nat.eqb_eq, Hall.
  by apply list_elem_of_In.
Qed.

Lemma rows_ncols {A} (a : list (list A)) (k : nat) :
  a ≠ [] → Forall (λ r, length r = k) a → Np.ncols a = Some k.
Proof.
  destruct a as [|r rs]; [done|]. intros _ Hall.
  apply Forall_cons in Hall as [<- Hall]. simpl.
  rewrite (proj2 (forallb_forall _ rs)); [done|].
  intros r' Hr'. apply Nat.eqb_eq.
  rewrite Forall_forall in Hall. by apply Hall, list_elem_of_In.
Qed.

Lemma ncols_map_rows {A} (f : list A → list A) (lo hi : nat)
    (a : list (list A)) (k : nat) :
  (∀ r, length (f r) = length r) →
  Np.ncols a = Some k → Np.ncols (Np.map_rows f lo hi a) = Some k.
Proof.
  intros Hf Hk. apply rows_ncols.
  - destruct a; [done|]. done.
  - apply ncols_rows in Hk. unfold Np.map_rows.
    apply Forall_forall. intros r Hr.
    apply list_elem_of_lookup in Hr as [j Hj].
    rewrite list_lookup_imap in Hj.
    destruct (a !! j) as [r0|] eqn:Hr0; simplify_eq/=.
    rewrite Forall_forall in Hk.
    assert (length r0 = k) by (apply Hk; by eapply list_elem_of_lookup_2).
    case_bool_decide; by rewrite ?Hf.
Qed.

Lemma constrain_loop_find (blocks : list (string * Z * Z)) atom to axis tf :
  PosCar.constrain_loop blocks atom to axis tf
  = match list_find (λ b, b.1.1 = atom) blocks with
    | Some (_, (_, lo, hi)) => PosCar.constrain_loop [(atom, lo, hi)] atom to axis tf
    | None => Ok tf
    end.
Proof.
  destruct (list_find _ blocks) as [[i [[a lo] hi]]|] eqn:Hfind.
  - pose proof Hfind as Hfind'.
    apply list_find_Some in Hfind' as (_ & Ha & _). simpl in Ha. subst a.
    by eapply constrain_loop_first.
  - apply constrain_loop_absent. by apply list_find_None in Hfind.
Qed.

(** X7.  For a named axis ([x]/[X], [y]/[Y], [z]/[Z]: column 0, 1, 2), a
    flag ['T'] or ['F'] and a label of [atoms], on an N x 3 array of flags:
    [constrain_atom] writes the flag into that one column of the rows of
    the label's first block, between the prefix sums of [atoms_num] cut at
    the number of rows, and leaves every other entry of [tf] as it was. *)
Theorem constrain_atom_column self atom to axis (c i : nat) :
  (axis, c) ∈ [("x", 0); ("X", 0); ("y", 1); ("Y", 1); ("z", 2); ("Z", 2)]%string%nat →
  to = "T"%string ∨ to = "F"%string →
  PosCar.atoms self !! i = Some atom →
  atom ∉ take i (PosCar.atoms self) →
  Np.ncols (PosCar.tf self) = Some 3%nat →
  ∃ tf', PosCar.constrain_atom self atom to axis = (PosCar.set_tf self tf', Ok tf')
       ∧ Np.ncols tf' = Some 3%nat
       ∧ length tf' = length (PosCar.tf self)
       ∧ ∀ (j : nat) row, PosCar.tf self !! j = Some row →
           tf' !! j
           = Some (if bool_decide
                        (Py.slice_bound (length (PosCar.tf self))
                           (prefix_sum (PosCar.atoms_num self) i) ≤ j
                         < Py.slice_bound (length (PosCar.tf self))
                             (prefix_sum (PosCar.atoms_num self) (S i)))%nat
                   then <[c:=to]> row else row).
Proof.
  intros Hax Hto Hi Hfirst Hcols.
  unfold PosCar.constrain_atom.
  rewrite bool_decide_eq_false_2 by (intros [? ?]; by destruct Hto).
  rewrite (constrain_loop_first _ _ _ _ _ i
             (prefix_sum (PosCar.atoms_num self) i)
             (prefix_sum (PosCar.atoms_num self) (S i)))
    by by apply first_block_find.
  assert (PosCar.constrain_loop
            [(atom, prefix_sum (PosCar.atoms_num self) i,
              prefix_sum (PosCar.atoms_num self) (S i))] atom to axis (PosCar.tf self)
          = Np.set_column (PosCar.tf self) (prefix_sum (PosCar.atoms_num self) i)
              (prefix_sum (PosCar.atoms_num self) (S i)) c to) as ->.
  { simpl. rewrite bool_decide_eq_true_2 by done.
    rewrite !elem_of_cons, elem_of_nil in Hax.
    destruct Hax as [H|[H|[H|[H|[H|[H|[]]]]]]]; simplify_eq; done. }
  assert (c < 3)%nat as Hc.
  { rewrite !elem_of_cons, elem_of_nil in Hax.
    destruct Hax as [H|[H|[H|[H|[H|[H|[]]]]]]]; simplify_eq; lia. }
  unfold Np.set_column. rewrite Hcols.
  rewrite (proj2 (Nat.ltb_lt c 3)) by done.
  eexists. split; [done|]. split_and!.
  - apply ncols_map_rows; [|done]. intros r. by rewrite length_insert.
  - unfold Np.map_rows. by rewrite length_imap.
  - intros j row Hj. unfold Np.map_rows. by rewrite list_lookup_imap, Hj.
Qed.

End columns.

Lemma constrain_atom_column_witness :
  let self :=
    {| PosCar.bases_const := AtomCo.one; PosCar.bases := [];
       PosCar.atoms := ["Pt"; "O"]%string; PosCar.atoms_num := [2; 1];
       PosCar.ntot := 3; PosCar.natoms := [("Pt", 2); ("O", 1)]%string;
       PosCar.data := replicate 3 [AtomCo.zero; AtomCo.zero; AtomCo.zero];
       PosCar.tf := replicate 3 ["T"; "T"; "T"]%string;
       PosCar.totline := 11 |} in
  ∃ tf', PosCar.constrain_atom self "O" "F" "z" = (PosCar.set_tf self tf', Ok tf')
       ∧ tf' !! 1%nat = Some ["T"; "T"; "T"]%string
       ∧ tf' !! 2%nat = Some ["T"; "T"; "F"]%string.
Proof.
  intros self.
  destruct (constrain_atom_column self "O" "F" "z" 2 1)
    as (tf' & Hcall & _ & _ & Hrows).
  - rewrite !elem_of_cons. do 4 right. by left.
  - by right.
  - reflexivity.
  - simpl. rewrite elem_of_cons, elem_of_nil. intros [H|[]]. discriminate H.
  - reflexivity.
  - exists tf'. split; [exact Hcall|]. split.
    + by rewrite (Hrows 1%nat ["T"; "T"; "T"]%string).
    + by rewrite (Hrows 2%nat ["T"; "T"; "T"]%string).
Defined.

(** ** Three column edits make an edit of whole rows *)

Section compose.
Implicit Types (self : PosCar.t) (tf : list (list string))
  (atom to axis : string).

Lemma map_rows_twice {A} (f g : A → A) (lo hi : nat) (a : list A) :
  Np.map_rows f lo hi (Np.map_rows g lo hi a) = Np.map_rows (f ∘ g) lo hi a.
Proof.
  unfold Np.map_rows. apply list_eq. intros j.
  rewrite !list_lookup_imap. destruct (a !! j); simpl; [|done].
  by case_bool_decide.
Qed.

Lemma map_rows_ext {A} (f g : A → A) (lo hi : nat) (a : list A) :
  Forall (λ r, f r = g r) a → Np.map_rows f lo hi a = Np.map_rows g lo hi a.
Proof.
  intros Hfg. unfold Np.map_rows. apply imap_ext. intros j r Hr.
  rewrite Forall_forall in Hfg.
  case_bool_decide; [|done]. apply Hfg. by eapply list_elem_of_lookup_2.
Qed.

Lemma length_map_rows {A} (f : A → A) (lo hi : nat) (a : list A) :
  length (Np.map_rows f lo hi a) = length a.
Proof. unfold Np.map_rows. by rewrite length_imap. Qed.

Lemma set_column_ok {A} (a : list (list A)) (lo hi : Z) (c k : nat) (v : A) :
  Np.ncols a = Some k → (c < k)%nat →
  Np.set_column a lo hi c v
  = Ok (Np.map_rows (λ r, <[c:=v]> r) (Py.slice_bound (length a) lo)
          (Py.slice_bound (length a) hi) a).
Proof.
  intros Hk Hc. unfold Np.set_column. rewrite Hk.
  by rewrite (proj2 (Nat.ltb_lt c k)).
Qed.

Lemma set_tf_atoms self tf :
  PosCar.atoms (PosCar.set_tf self tf) = PosCar.atoms self
  ∧ PosCar.atoms_num (PosCar.set_tf self tf) = PosCar.atoms_num self
  ∧ PosCar.tf (PosCar.set_tf self tf) = tf.
Proof. done. Qed.

Lemma set_tf_twice self tf tf' :
  PosCar.set_tf (PosCar.set_tf self tf) tf' = PosCar.set_tf self tf'.
Proof. done. Qed.

(** X8.  Constraining the axes [x], [y] and [z] one after the other is
    constraining ['all']: the third call leaves the object, and returns the
    array or raises the exception, that the single call with axis ['all']
    does. *)
Theorem constrain_atom_xyz self atom to :
  to = "T"%string ∨ to = "F"%string →
  Np.ncols (PosCar.tf self) = Some 3%nat →
  let self1 := (PosCar.constrain_atom self atom to "x").1 in
  let self2 := (PosCar.constrain_atom self1 atom to "y").1 in
  PosCar.constrain_atom self2 atom to "z" = PosCar.constrain_atom self atom to "all".
Proof.
  intros Hto Hcols self1 self2.
  assert (bool_decide (to ≠ "T"%string ∧ to ≠ "F"%string) = false) as Hflag
    by (apply bool_decide_eq_false_2; intros [? ?]; by destruct Hto).
  set (blocks := AtomCo.blocks (PosCar.atoms self) (PosCar.atoms_num self)).
  destruct (list_find (λ b, b.1.1 = atom) blocks) as [[i [[a lo] hi]]|] eqn:Hfind.
  - set (lo' := Py.slice_bound (length (PosCar.tf self)) lo).
    set (hi' := Py.slice_bound (length (PosCar.tf self)) hi).
    set (tf1 := Np.map_rows (λ r, <[0%nat:=to]> r) lo' hi' (PosCar.tf self)).
    set (tf2 := Np.map_rows (λ r, <[1%nat:=to]> r) lo' hi' tf1).
    assert (self1 = PosCar.set_tf self tf1) as ->.
    { unfold self1, PosCar.constrain_atom. rewrite Hflag.
      fold blocks. rewrite constrain_loop_find, Hfind. simpl.
      rewrite (bool_decide_eq_true_2 (atom = atom)) by done. simpl.
      by rewrite (set_column_ok _ _ _ 0 3) by (done || lia). }
    assert (length tf1 = length (PosCar.tf self)) as Hlen1
      by apply length_map_rows.
    assert (length tf2 = length (PosCar.tf self)) as Hlen2
      by (unfold tf2; by rewrite length_map_rows).
    assert (Np.ncols tf1 = Some 3%nat) as Hcols1.
    { apply ncols_map_rows; [|done]. intros r. by rewrite length_insert. }
    assert (self2 = PosCar.set_tf self tf2) as ->.
    { unfold self2, PosCar.constrain_atom. rewrite Hflag. simpl.
      fold blocks. rewrite constrain_loop_find, Hfind. simpl.
      rewrite (bool_decide_eq_true_2 (atom = atom)) by done. simpl.
      rewrite (set_column_ok _ _ _ 1 3) by (done || lia). simpl.
      by rewrite Hlen1. }
    assert (Np.ncols tf2 = Some 3%nat) as Hcols2.
    { apply ncols_map_rows; [|done]. intros r. by rewrite length_insert. }
    unfold PosCar.constrain_atom. rewrite Hflag. simpl.
    fold blocks. rewrite !constrain_loop_find, Hfind. simpl.
    rewrite !(bool_decide_eq_true_2 (atom = atom)) by done. simpl.
    rewrite (set_column_ok _ _ _ 2 3) by (done || lia). simpl.
    unfold Np.set_rows. rewrite Hcols.
    rewrite Hlen2. fold lo' hi'. unfold tf2, tf1. rewrite !map_rows_twice.
    rewrite set_tf_twice.
    rewrite (map_rows_ext
               ((λ r, <[2%nat:=to]> r) ∘ ((λ r, <[1%nat:=to]> r) ∘ (λ r, <[0%nat:=to]> r)))
               (λ _, replicate 3 to)); [done|].
    apply ncols_rows in Hcols. eapply Forall_impl; [exact Hcols|].
    intros [|x [|y [|z [|]]]]; by intros [=].
  - assert (∀ s axis, PosCar.atoms s = PosCar.atoms self →
              PosCar.atoms_num s = PosCar.atoms_num self →
              PosCar.constrain_atom s atom to axis = (s, Ok (PosCar.tf s))) as Hnoop.
    { intros s axis Ha Hn. unfold PosCar.constrain_atom. rewrite Hflag, Ha, Hn.
      fold blocks. rewrite constrain_loop_find, Hfind. by rewrite set_tf_same. }
    assert (self1 = self) as Hs1 by (unfold self1; by rewrite Hnoop).
    assert (self2 = self) as Hs2 by (unfold self2; rewrite Hs1; by rewrite Hnoop).
    rewrite Hs2. by rewrite !Hnoop.
Qed.

End compose.

Lemma constrain_atom_xyz_witness :
  let self :=
    {| PosCar.bases_const := AtomCo.one; PosCar.bases := [];
       PosCar.atoms := ["Pt"; "O"]%string; PosCar.atoms_num := [2; 1];
       PosCar.ntot := 3; PosCar.natoms := [("Pt", 2); ("O", 1)]%string;
       PosCar.data := replicate 3 [AtomCo.zero; AtomCo.zero; AtomCo.zero];
       PosCar.tf := replicate 3 ["T"; "T"; "T"]%string;
       PosCar.totline := 11 |} in
  let self1 := (PosCar.constrain_atom self "Pt" "F" "x").1 in
  let self2 := (PosCar.constrain_atom self1 "Pt" "F" "y").1 in
  PosCar.constrain_atom self2 "Pt" "F" "z"
  = PosCar.constrain_atom self "Pt" "F" "all".
Proof.
  intros self.
  apply (constrain_atom_xyz self "Pt" "F"); [by right|reflexivity].
Defined.

(** ** The shape of [tf] *)

Section tf_shape.
Implicit Types (self : PosCar.t) (tf : list (list string))
  (atom to axis line : string).

Lemma tf_row_length line :
  length (PosCar.tf_row line) = 3%nat
  ↔ (length (str2list line) ≤ 3)%nat ∨ length (str2list line) = 6%nat.
Proof.
  unfold PosCar.tf_row. simpl.
  destruct (Nat.ltb_spec 3 (length (str2list line))) as [Hlt|Hge].
  - rewrite length_drop. lia.
  - simpl. split; [left; lia|done].
Qed.

Lemma constrain_loop_shape (blocks : list (string * Z * Z)) atom to axis tf :
  Np.ncols tf = Some 3%nat →
  ∃ tf', PosCar.constrain_loop blocks atom to axis tf = Ok tf'
       ∧ Np.ncols tf' = Some 3%nat ∧ length tf' = length tf.
Proof.
  intros Hcols. induction blocks as [|[[a lo] hi] blocks IH]; simpl.
  { by exists tf. }
  case_bool_decide; [|exact IH].
  repeat case_bool_decide.
  - rewrite (set_column_ok tf lo hi 0 3) by (done || lia).
    eexists. split; [done|]. split; [|apply length_map_rows].
    apply ncols_map_rows; [|done]. intros r. apply length_insert.
  - rewrite (set_column_ok tf lo hi 1 3) by (done || lia).
    eexists. split; [done|]. split; [|apply length_map_rows].
    apply ncols_map_rows; [|done]. intros r. apply length_insert.
  - rewrite (set_column_ok tf lo hi 2 3) by (done || lia).
    eexists. split; [done|]. split; [|apply length_map_rows].
    apply ncols_map_rows; [|done]. intros r. apply length_insert.
  - unfold Np.set_rows. rewrite Hcols.
    eexists. split; [done|]. split; [|apply length_map_rows].
    apply rows_ncols.
    + destruct tf; [done|]. done.
    + apply ncols_rows in Hcols. unfold Np.map_rows.
      apply Forall_forall. intros r Hr.
      apply list_elem_of_lookup in Hr as [j Hj].
      rewrite list_lookup_imap in Hj.
      destruct (tf !! j) as [r0|] eqn:Hr0; simplify_eq/=.
      rewrite Forall_forall in Hcols.
      case_bool_decide; [done|].
      apply Hcols. by eapply list_elem_of_lookup_2.
Qed.

(** X9.  The flags of a loaded POSCAR form an N x 3 array exactly when the
    coordinate block is not empty and each of its lines has at most
    three fields (and gets the default flags) or exactly six. *)
Theorem poscar_load_tf_columns (content : string) self :
  PosCar.load content = Ok self →
  let block :=
    Py.slice (Py.readlines content) (PosCar.totline self - PosCar.ntot self)
      (PosCar.totline self) in
  Np.ncols (PosCar.tf self) = Some 3%nat
  ↔ block ≠ []
    ∧ Forall (λ line, (length (str2list line) ≤ 3)%nat
                      ∨ length (str2list line) = 6%nat) block.
Proof.
  intros Hload block.
  destruct (poscar_load_inv content self Hload)
    as (l5 & l6 & l7 & sel & _ & _ & _ & _ & _ & _ & _ & _ & Htot & Htf & _).
  assert (PosCar.tf self = map PosCar.tf_row block) as ->.
  { rewrite Htf. unfold block. rewrite Htot. do 2 f_equal. lia. }
  split.
  - intros Hcols. split.
    + intros Hnil. by rewrite Hnil in Hcols.
    + apply ncols_rows in Hcols. rewrite Forall_fmap in Hcols.
      eapply Forall_impl; [exact Hcols|]. intros line. apply tf_row_length.
  - intros [Hne Hall]. apply rows_ncols.
    + by destruct block.
    + rewrite Forall_fmap.
      eapply Forall_impl; [exact Hall|]. intros line. apply tf_row_length.
Qed.

(** X10.  With a flag ['T'] or ['F'], [constrain_atom] on an N x 3 array of
    flags never raises, whatever the label and the axis, and leaves an
    N x 3 array with as many rows in the object. *)
Theorem constrain_atom_keeps_shape self atom to axis :
  to = "T"%string ∨ to = "F"%string →
  Np.ncols (PosCar.tf self) = Some 3%nat →
  ∃ tf', PosCar.constrain_atom self atom to axis = (PosCar.set_tf self tf', Ok tf')
       ∧ Np.ncols (PosCar.tf (PosCar.constrain_atom self atom to axis).1)
         = Some 3%nat
       ∧ length tf' = length (PosCar.tf self).
Proof.
  intros Hto Hcols. unfold PosCar.constrain_atom.
  rewrite bool_decide_eq_false_2 by (intros [? ?]; by destruct Hto).
  destruct (constrain_loop_shape
              (AtomCo.blocks (PosCar.atoms self) (PosCar.atoms_num self))
              atom to axis (PosCar.tf self) Hcols) as (tf' & -> & Hcols' & Hlen).
  by exists tf'.
Qed.

End tf_shape.

Lemma poscar_load_tf_columns_witness :
  let content := "PtO
1.0
1 0 0
0 1 0
0 0 1
Pt O
2 1
Selective dynamics
Direct
0 0 0 T T F
0.5 0.5 0.5
0.25 0.25 0.25 F F F
"%string in
  ∃ self,
    PosCar.load content = Ok self
    ∧ Np.ncols (PosCar.tf self) = Some 3%nat.
Proof.
  intros content.
  destruct (PosCar.load content) as [self|e] eqn:Hload; [|by vm_compute in Hload].
  exists self. split; [done|].
  apply (poscar_load_tf_columns content self Hload).
  vm_compute in Hload. simplify_eq.
  apply (bool_decide_unpack _). by vm_compute.
Defined.

Lemma constrain_atom_keeps_shape_witness :
  let self :=
    {| PosCar.bases_const := AtomCo.one; PosCar.bases := [];
       PosCar.atoms := ["Pt"; "O"]%string; PosCar.atoms_num := [2; 1];
       PosCar.ntot := 3; PosCar.natoms := [("Pt", 2); ("O", 1)]%string;
       PosCar.data := replicate 3 [AtomCo.zero; AtomCo.zero; AtomCo.zero];
       PosCar.tf := replicate 3 ["T"; "T"; "T"]%string;
       PosCar.totline := 11 |} in
  ∃ tf', (PosCar.constrain_atom self "O" "F" "Y").2 = Ok tf'
       ∧ length tf' = 3%nat.
Proof.
  intros self.
  destruct (constrain_atom_keeps_shape self "O" "F" "Y")
    as (tf' & Hcall & _ & Hlen); [by right|reflexivity|].
  exists tf'. by rewrite Hcall.
Defined.

(** ** [atomco_dict] and [tf_dict] side by side *)

(** The blocks of [atoms] hold a block for every label of [atoms]. *)
Lemma blocks_find (atoms : list string) (atoms_num : list Z) (atom : string) :
  atom ∈ atoms →
  is_Some (list_find (λ b : string * Z * Z, b.1.1 = atom)
             (AtomCo.blocks atoms atoms_num)).
Proof.
  intros Hin. apply list_elem_of_lookup in Hin as [i Hi].
  destruct (list_find _ _) as [r|] eqn:Hfind; [done|].
  apply list_find_None in Hfind. rewrite Forall_forall in Hfind.
  exfalso.
  apply (Hfind (atom, prefix_sum atoms_num i, prefix_sum atoms_num (S i)));
    [|done].
  apply list_elem_of_lookup. exists i. by rewrite blocks_lookup, Hi.
Qed.

(** X11.  On a loaded POSCAR, [atomco_dict] and [tf_dict] have the labels
    of [atoms] as their keys, and under each label the coordinate rows and
    the flag rows are the same slice [lo:hi] of [data] and of [tf], of one
    length: row [k] of one group belongs to row [k] of the other. *)
Theorem poscar_dicts_aligned (content : string) (self : PosCar.t)
    (dc : gmap string (list (list Py.float)))
    (dt : gmap string (list (list string))) (atom : string) :
  PosCar.load content = Ok self →
  AtomCo.get_atomco_dict (PosCar.atoms self) (PosCar.atoms_num self)
    (PosCar.data self) = Ok dc →
  AtomCo.get_tf_dict (PosCar.atoms self) (PosCar.atoms_num self)
    (PosCar.tf self) = Ok dt →
  match dc !! atom, dt !! atom with
  | Some rows, Some flags =>
      atom ∈ PosCar.atoms self
      ∧ length rows = length flags
      ∧ ∃ lo hi : Z,
          rows = Py.slice (PosCar.data self) lo hi
          ∧ flags = Py.slice (PosCar.tf self) lo hi
  | None, None => atom ∉ PosCar.atoms self
  | _, _ => False
  end.
Proof.
  intros Hload [= <-] [= <-].
  destruct (poscar_load_inv content self Hload)
    as (l5 & l6 & l7 & sel & _ & _ & _ & _ & _ & _ & _ & _ & _ & Htf & Hdata & _).
  apply float64_length in Hdata. rewrite length_map in Hdata.
  assert (length (PosCar.tf self) = length (PosCar.data self)) as Hlen
    by (by rewrite Htf, length_map).
  rewrite !group_fold_lookup, !lookup_empty.
  destruct (decide (atom ∈ PosCar.atoms self)) as [Hin|Hnot].
  - destruct (blocks_find _ (PosCar.atoms_num self) _ Hin) as [[i [[a lo] hi]] ->].
    simpl. split; [done|]. split; [|by exists lo, hi].
    by rewrite !slice_length, Hlen.
  - by rewrite no_block_find.
Qed.

Lemma poscar_dicts_aligned_witness :
  let content := "PtO
1.0
1 0 0
0 1 0
0 0 1
Pt O
2 1
Selective dynamics
Direct
0 0 0 T T F
0.5 0.5 0.5 T T T
0.25 0.25 0.25 F F F
"%string in
  ∃ self dc dt,
    PosCar.load content = Ok self
    ∧ AtomCo.get_atomco_dict (PosCar.atoms self) (PosCar.atoms_num self)
        (PosCar.data self) = Ok dc
    ∧ AtomCo.get_tf_dict (PosCar.atoms self) (PosCar.atoms_num self)
        (PosCar.tf self) = Ok dt
    ∧ dt !! "O"%string = Some [["F"; "F"; "F"]]%string
    ∧ match dc !! "O"%string with
      | Some rows => length rows = 1%nat
      | None => False
      end.
Proof.
  intros content.
  destruct (PosCar.load content) as [self|e] eqn:Hload; [|by vm_compute in Hload].
  destruct (AtomCo.get_atomco_dict (PosCar.atoms self) (PosCar.atoms_num self)
              (PosCar.data self)) as [dc|e] eqn:Hdc; [|done].
  destruct (AtomCo.get_tf_dict (PosCar.atoms self) (PosCar.atoms_num self)
              (PosCar.tf self)) as [dt|e] eqn:Hdt; [|done].
  exists self, dc, dt. split; [done|]. split; [done|]. split; [done|].
  pose proof (poscar_dicts_aligned content self dc dt "O" Hload Hdc Hdt) as Hal.
  assert (dt !! "O"%string = Some [["F"; "F"; "F"]]%string) as HO.
  { vm_compute in Hload. simplify_eq.
    unfold AtomCo.get_tf_dict, AtomCo.get_atomco_dict in Hdt.
    injection Hdt as <-. by vm_compute. }
  split; [done|]. rewrite HO in Hal.
  destruct (dc !! "O"%string) as [rows|]; [|done].
  by destruct Hal as (_ & -> & _).
Defined.

(** ** When a POSCAR can be written *)

Lemma emap_Ok_Forall {A B} (f : A → exn B) (l : list A) :
  (∃ l', emap f l = Ok l') ↔ Forall (λ x, ∃ y, f x = Ok y) l.
Proof.
  induction l as [|x l IH]; simpl.
  { split; [constructor|eauto]. }
  rewrite Forall_cons, <- IH. split.
  - intros [l' H]. apply ebind_Ok in H as (y & Hy & H).
    apply ebind_Ok in H as (ys & Hys & _). eauto.
  - intros [[y Hy] [ys Hys]]. rewrite Hy, Hys. simpl. eauto.
Qed.

Lemma basis_line_Ok (basis : list Py.float) :
  (∃ s, AtomCo.basis_line basis = Ok s) ↔ (3 ≤ length basis)%nat.
Proof.
  unfold AtomCo.basis_line.
  destruct basis as [|a [|b [|c basis]]]; simpl; split;
    try (intros [s [=]]); try lia; eauto.
Qed.

Lemma data_tf_line_Ok (data : list Py.float) (tf : list string) :
  (∃ s, AtomCo.data_tf_line data tf = Ok s)
  ↔ length data = 3%nat ∧ (3 ≤ length tf)%nat.
Proof.
  unfold AtomCo.data_tf_line.
  destruct data as [|x [|y [|z [|w data]]]], tf as [|a [|b [|c tf]]]; simpl;
    split; try (intros [s [=]]); try (intros [[=] ?]); try lia; eauto.
Qed.

(** X12.  [get_content()], on an object whose [natoms] has not been
    traversed, returns a text exactly when every basis row has at least
    three entries, [natoms] is not empty, and every coordinate row that has
    a row of flags beside it has exactly three coordinates and at least
    three flags. *)
Theorem poscar_get_content_succeeds (self : PosCar.t) :
  (∃ s, PosCar.get_content self = Ok s)
  ↔ Forall (λ basis, 3 ≤ length basis)%nat (PosCar.bases self)
    ∧ PosCar.natoms self ≠ []
    ∧ Forall (λ row, length row.1 = 3%nat ∧ (3 ≤ length row.2)%nat)
        (zip (PosCar.data self) (PosCar.tf self)).
Proof.
  unfold PosCar.get_content, AtomCo.get_poscar_content, AtomCo.attr_or.
  rewrite <- (Forall_iff _ (PosCar.bases self) _ basis_line_Ok).
  rewrite <- emap_Ok_Forall.
  rewrite <- (Forall_iff (λ row, ∃ s, AtomCo.data_tf_line row.1 row.2 = Ok s)
                (zip (PosCar.data self) (PosCar.tf self)) _
                (λ row, data_tf_line_Ok row.1 row.2)).
  rewrite <- emap_Ok_Forall.
  split.
  - intros [s H].
    apply ebind_Ok in H as (bases & Hbases & H).
    apply ebind_Ok in H as ([atoms nums] & Hnat & H).
    apply ebind_Ok in H as (rows & Hrows & _).
    split_and!; eauto. by destruct (PosCar.natoms self).
  - intros ([bases ->] & Hnat & [rows ->]). simpl.
    destruct (PosCar.natoms self); [done|]. simpl. eauto.
Qed.

(** ** Writing the same object twice *)

(** X13.  A call of [get_content()] that returns a text uses [natoms] up: the
    next call on the object raises [ValueError], from the unpacking
    [atoms, atoms_num = zip( *self.natoms)] of nothing.  The other
    attributes are as they were. *)
Theorem poscar_get_content_once (self : PosCar.t) (s : string) :
  (PosCar.get_content_call self).2 = Ok s →
  let self' := (PosCar.get_content_call self).1 in
  self' = PosCar.set_natoms self []
  ∧ PosCar.get_content_call self' = (self', Raise ValueError).
Proof.
  unfold PosCar.get_content_call.
  destruct (emap AtomCo.basis_line (PosCar.bases self)) as [bs|e] eqn:Hbases;
    [|done].
  intros _. simpl. rewrite Hbases. split; [done|]. f_equal.
  unfold PosCar.get_content, AtomCo.get_poscar_content. simpl.
  by rewrite Hbases.
Qed.

Lemma poscar_get_content_once_witness :
  let content := "PtO
1.0
1 0 0
0 1 0
0 0 1
Pt O
2 1
Direct
0 0 0
0.5 0.5 0.5
0.25 0.25 0.25
"%string in
  ∃ self s,
    PosCar.init content = Ok self
    ∧ (PosCar.get_content_call self).2 = Ok s
    ∧ (PosCar.get_content_call (PosCar.get_content_call self).1).2
      = Raise ValueError.
Proof.
  intros content.
  destruct (PosCar.init content) as [self|e] eqn:Hinit; [|by vm_compute in Hinit].
  destruct ((PosCar.get_content_call self).2) as [s|e] eqn:Hcall.
  - exists self, s. split; [done|]. split; [done|].
    destruct (poscar_get_content_once self s Hcall) as [_ Hnext].
    by rewrite Hnext.
  - vm_compute in Hinit. simplify_eq.
Defined.

(** ** Integers in text: [int] reads what [str] prints *)

Section numbers.
Implicit Types (c : ascii) (cs cur w : list ascii) (s line : string)
  (d : Decimal.uint) (ds : list N).

Local Abbreviation word cs := (Forall (λ c, Py.is_space c = false) cs).
Local Abbreviation shift := (λ acc x : N, acc * 10 + x)%N.

(** The digits of a numeral, read from an accumulator. *)
Lemma scan_uint (after_digit : bool) d :
  ∃ ds,
    Py.scan_digits after_digit (Py.chars (NilEmpty.string_of_uint d)) = (ds, [])
    ∧ (d ≠ Decimal.Nil → ds ≠ [])
    ∧ ∀ acc : N,
        fold_left shift ds acc
        = match acc with
          | N0 => Pos.of_uint d
          | Npos p => Npos (Pos.of_uint_acc d p)
          end.
Proof.
  revert after_digit.
  induction d as [|d IH|d IH|d IH|d IH|d IH|d IH|d IH|d IH|d IH|d IH];
    intros after_digit.
  { exists []. split; [done|]. split; [done|]. by intros []. }
  all: destruct (IH true) as (ds & Hscan & _ & Hfold).
  all: cbn [NilEmpty.string_of_uint Py.chars list_ascii_of_string Py.scan_digits].
  all: cbv [Py.digit N_of_ascii N_of_digits]; cbn [N.leb N.compare andb N.sub].
  all: change (list_ascii_of_string ?x) with (Py.chars x); rewrite Hscan.
  all: eexists; split; [reflexivity|]; split; [done|].
  all: intros acc; cbn [fold_left]; rewrite Hfold.
  all: destruct acc as [|p]; cbn [Pos.of_uint Pos.of_uint_acc N.mul N.add];
    try done.
  all: f_equal; f_equal; lia.
Qed.

Lemma lstrip_word w : word w → Py.lstrip_chars w = w.
Proof. destruct 1 as [|c w Hc _]; simpl; [done|]. by rewrite Hc. Qed.

Lemma cspace_space c : Py.is_space c = false → Py.is_cspace c = false.
Proof.
  unfold Py.is_space, Py.is_cspace.
  destruct c as [[] [] [] [] [] [] [] []]; by vm_compute.
Qed.

Lemma lstrip_cspace_word w : word w → Py.lstrip_cspace w = w.
Proof.
  destruct 1 as [|c w Hc _]; simpl; [done|]. by rewrite cspace_space.
Qed.

Lemma strip_cspace_word w : word w → Py.strip_cspace w = w.
Proof.
  intros Hw. unfold Py.strip_cspace.
  rewrite (lstrip_cspace_word w), (lstrip_cspace_word (rev w)), rev_involutive;
    try done.
  apply Forall_forall. intros c Hc. rewrite Forall_forall in Hw.
  apply Hw. by apply elem_of_rev.
Qed.

Lemma int_str_of_N (n : N) : Py.int (Py.str_of_N n) = Ok (Z.of_N n).
Proof.
  unfold Py.int. rewrite strip_cspace_word by apply str_of_N_word.
  unfold Py.str_of_N, NilZero.string_of_uint.
  destruct (scan_uint false (N.to_uint n)) as (ds & Hscan & Hne & Hfold).
  assert (N.to_uint n ≠ Decimal.Nil) as Hnil.
  { destruct n as [|p]; [done|]. apply DecimalPos.Unsigned.to_uint_nonnil. }
  specialize (Hfold 0%N). specialize (Hne Hnil).
  change (Pos.of_uint (N.to_uint n)) with (N.of_uint (N.to_uint n)) in Hfold.
  rewrite DecimalN.Unsigned.of_to in Hfold.
  assert (Py.scan_sign (Py.chars (NilEmpty.string_of_uint (N.to_uint n)))
          = (false, Py.chars (NilEmpty.string_of_uint (N.to_uint n)))) as Hsign.
  { by destruct (N.to_uint n). }
  destruct (N.to_uint n) eqn:Hd; [done|..].
  all: rewrite Hsign, Hscan.
  all: destruct ds as [|d0 ds]; [done|].
  all: unfold Py.N_of_digits; by rewrite Hfold.
Qed.

(** [int(str(z)) == z], for every integer. *)
Lemma int_str_of_Z (z : Z) : Py.int (Py.str_of_Z z) = Ok z.
Proof.
  destruct z as [|p|p].
  - done.
  - apply (int_str_of_N (Npos p)).
  - pose proof (int_str_of_N (Npos p)) as Hint.
    unfold Py.int in *. unfold Py.str_of_Z.
    rewrite strip_cspace_word in Hint by apply str_of_N_word.
    rewrite strip_cspace_word.
    2:{ rewrite chars_app. apply Forall_app. split; [by repeat constructor|].
        apply str_of_N_word. }
    rewrite chars_app.
    change (Py.scan_sign (Py.chars "-" ++ ?r)) with (true, r).
    cbn match.
    destruct (Py.scan_sign (Py.chars (Py.str_of_N (Npos p)))) as [neg r] eqn:Hsign.
    assert (neg = false ∧ r = Py.chars (Py.str_of_N (Npos p))) as [-> ->].
    { unfold Py.str_of_N, NilZero.string_of_uint in *.
      destruct (N.to_uint (Npos p)); by simplify_eq/=. }
    destruct (Py.scan_digits false _) as [[|d0 ds] [|c r]]; try discriminate Hint.
    injection Hint as Hint. cbv zeta in Hint |- *. by rewrite Hint.
Qed.

Lemma word_str_of_Z (z : Z) :
  word (Py.chars (Py.str_of_Z z)) ∧ Py.chars (Py.str_of_Z z) ≠ [].
Proof.
  destruct z as [|p|p]; unfold Py.str_of_Z; try apply str_of_N_word.
  rewrite chars_app. split; [|done].
  apply Forall_app. split; [by repeat constructor|apply str_of_N_word].
Qed.

End numbers.

(** ** Reading the head of a written POSCAR *)

Section header.
Implicit Types (c : ascii) (cs cur body rest w : list ascii) (s line : string).

Local Abbreviation LF := ("010"%char).
Local Abbreviation CR := ("013"%char).
Local Abbreviation SP := (" "%char).
(** No line end inside. *)
Local Abbreviation plain cs := (Forall (λ c, c ≠ LF ∧ c ≠ CR) cs).
Local Abbreviation word cs := (Forall (λ c, Py.is_space c = false) cs).

Lemma append_cons c s1 s2 : (String c s1 ++ s2 = String c (s1 ++ s2))%string.
Proof. done. Qed.

Lemma append_nil_l s : (EmptyString ++ s)%string = s.
Proof. done. Qed.

Lemma append_assoc s1 s2 s3 : ((s1 ++ s2) ++ s3 = s1 ++ s2 ++ s3)%string.
Proof.
  induction s1 as [|c s1 IH]; [done|]. rewrite !append_cons. by f_equal.
Qed.

Lemma append_nil_r s : (s ++ EmptyString)%string = s.
Proof.
  induction s as [|c s IH]; [done|]. rewrite append_cons. by f_equal.
Qed.

Lemma str_app cs1 cs2 : Py.str (cs1 ++ cs2) = (Py.str cs1 ++ Py.str cs2)%string.
Proof.
  induction cs1 as [|c cs1 IH]; [done|].
  change (Py.str ((c :: cs1) ++ cs2)) with (String c (Py.str (cs1 ++ cs2))).
  change (Py.str (c :: cs1)) with (String c (Py.str cs1)).
  by rewrite append_cons, IH.
Qed.

Lemma word_plain cs : word cs → plain cs.
Proof.
  intros Hw. eapply Forall_impl; [exact Hw|].
  intros c Hc. split; intros ->; discriminate Hc.
Qed.

Lemma universal_newlines_plain body rest :
  plain body →
  Py.universal_newlines (body ++ rest) = body ++ Py.universal_newlines rest.
Proof.
  induction 1 as [|c body [_ Hc] _ IH]; simpl; [done|].
  destruct (Ascii.eqb_spec c CR); [done|]. by rewrite IH.
Qed.

Lemma readlines_go_plain cur body rest :
  plain body →
  Py.readlines_go cur (body ++ LF :: rest)
  = Py.str (rev cur ++ body ++ [LF]) :: Py.readlines_go [] rest.
Proof.
  intros Hbody. revert cur.
  induction Hbody as [|c body [Hc _] _ IH]; intros cur; simpl.
  { done. }
  destruct (Ascii.eqb_spec c LF); [done|].
  rewrite IH. simpl. by rewrite <- app_assoc.
Qed.

(** A line without a line end inside is read as it was written. *)
Lemma readlines_cons s (more : string) :
  plain (Py.chars s) →
  Py.readlines (s ++ "
" ++ more) = (s ++ "
")%string :: Py.readlines more.
Proof.
  intros Hs. unfold Py.readlines.
  rewrite chars_app, universal_newlines_plain by done.
  change (Py.universal_newlines (Py.chars ("
" ++ more)))
    with (LF :: Py.universal_newlines (Py.chars more)).
  rewrite readlines_go_plain by done. simpl.
  by rewrite str_app, str_chars.
Qed.

Lemma readlines_lines (bodies : list string) (more : string) :
  Forall (λ s, plain (Py.chars s)) bodies →
  Py.readlines (AtomCo.concat_str (map (λ s, s ++ "
")%string bodies) ++ more)
  = map (λ s, s ++ "
")%string bodies ++ Py.readlines more.
Proof.
  induction 1 as [|s bodies Hs _ IH]; simpl; [done|].
  rewrite !append_assoc.
  by rewrite readlines_cons, IH.
Qed.

(** *** The text of a field has no line end *)

Lemma plain_app s1 s2 :
  plain (Py.chars s1) → plain (Py.chars s2) → plain (Py.chars (s1 ++ s2)).
Proof. intros H1 H2. rewrite chars_app. by apply Forall_app. Qed.

Lemma plain_spaces (k : nat) : plain (Py.chars (Py.spaces k)).
Proof.
  unfold Py.spaces. rewrite chars_str. apply Forall_replicate. by split.
Qed.

Lemma plain_rjust (k : nat) s : plain (Py.chars s) → plain (Py.chars (Py.rjust k s)).
Proof. intros Hs. apply plain_app; [apply plain_spaces|done]. Qed.

Lemma plain_fixed_digits (n : N) (p : nat) : plain (Py.chars (Py.fixed_digits n p)).
Proof.
  unfold Py.fixed_digits. destruct p as [|p].
  { apply word_plain, str_of_N_word. }
  apply plain_app; [apply word_plain, str_of_N_word|].
  apply plain_app; [by repeat constructor|].
  apply plain_app; [|apply word_plain, str_of_N_word].
  rewrite chars_str. apply Forall_replicate. by split.
Qed.

Lemma plain_format_f (width p : nat) (x : Py.float) :
  plain (Py.chars (Py.format_f width p x)).
Proof.
  apply plain_rjust. unfold Py.fixed, Py.sign_str.
  destruct x as [[]|[]| |[] m e];
    repeat (apply plain_app || apply plain_fixed_digits
            || by repeat constructor).
Qed.

Lemma plain_str_of_Z (n : Z) : plain (Py.chars (Py.str_of_Z n)).
Proof.
  unfold Py.str_of_Z. destruct n; try apply word_plain, str_of_N_word.
  apply (plain_app "-"); [by repeat constructor|].
  apply word_plain, str_of_N_word.
Qed.

Lemma plain_concat (l : list string) :
  Forall (λ s, plain (Py.chars s)) l → plain (Py.chars (AtomCo.concat_str l)).
Proof.
  induction 1 as [|s l Hs _ IH]; [done|].
  change (AtomCo.concat_str (s :: l)) with (s +:+ AtomCo.concat_str l).
  by apply plain_app.
Qed.

Lemma basis_line_plain (basis : list Py.float) line :
  AtomCo.basis_line basis = Ok line →
  ∃ s, line = (s ++ "
")%string ∧ plain (Py.chars s).
Proof.
  unfold AtomCo.basis_line, AtomCo.field_f, Py.index. intros H.
  destruct basis as [|x [|y [|z basis]]]; simplify_eq/=.
  exists (Py.format_f 14 8 x ++ Py.format_f 14 8 y ++ Py.format_f 14 8 z)%string.
  split; [by rewrite !append_assoc|].
  apply plain_app; [apply plain_format_f|].
  apply plain_app; apply plain_format_f.
Qed.

(** *** The label line and the count line *)

Lemma chars_spaces (k : nat) : Py.chars (Py.spaces k) = replicate k SP.
Proof. unfold Py.spaces. apply chars_str. Qed.

Lemma length_chars s : length (Py.chars s) = String.length s.
Proof. induction s as [|c s IH]; simpl; [done|]. by rewrite IH. Qed.

Lemma split_labels (atoms : list string) :
  Forall (λ a, a ≠ EmptyString ∧ (String.length a ≤ 4)%nat
               ∧ word (Py.chars a)) atoms →
  Py.split_go [] (Py.chars (AtomCo.concat_str (map (Py.format_s 5) atoms) ++ "
")) = atoms.
Proof.
  induction 1 as [|a atoms (Hne & Hlen & Hword) _ IH]; simpl; [done|].
  unfold Py.format_s at 1, Py.ljust.
  rewrite !append_assoc, !chars_app, chars_spaces.
  rewrite split_go_word by done.
  destruct (5 - String.length a)%nat as [|k] eqn:Hk; [lia|]. simpl.
  destruct (rev (Py.chars a) ++ []) as [|c cur] eqn:Hcur.
  { destruct a; [done|]. simpl in Hcur. rewrite app_nil_r in Hcur.
    by apply app_eq_nil in Hcur as [_ ?]. }
  rewrite <- Hcur, app_nil_r, rev_involutive, str_chars. f_equal.
  rewrite split_go_blank. by rewrite chars_app in IH.
Qed.

Lemma split_counts (nums : list Z) cur :
  Forall (λ n, (String.length (Py.str_of_Z n) ≤ 4)%nat
               ∧ Py.str_of_Z n ≠ EmptyString
               ∧ word (Py.chars (Py.str_of_Z n))) nums →
  Py.split_go cur (Py.chars (AtomCo.concat_str (map (Py.format_d 5) nums) ++ "
"))
  = match cur with [] => [] | _ => [Py.str (rev cur)] end
    ++ map Py.str_of_Z nums.
Proof.
  intros Hall. revert cur.
  induction Hall as [|n nums (Hlen & Hne & Hword) _ IH]; intros cur.
  { by destruct cur. }
  change (AtomCo.concat_str (map (Py.format_d 5) (n :: nums)))
    with (Py.format_d 5 n +:+ AtomCo.concat_str (map (Py.format_d 5) nums)).
  unfold Py.format_d at 1, Py.rjust.
  rewrite !append_assoc, !chars_app, chars_spaces.
  rewrite <- !chars_app.
  destruct (5 - String.length (Py.str_of_Z n))%nat as [|k] eqn:Hk; [lia|].
  assert (Py.split_go []
            (replicate k SP
               ++ Py.chars (Py.str_of_Z n +:+
                    AtomCo.concat_str (map (Py.format_d 5) nums) +:+ "
"))
          = Py.str_of_Z n :: map Py.str_of_Z nums) as Hrest.
  { rewrite split_go_blank, chars_app, split_go_word, IH by done.
    destruct (rev (Py.chars (Py.str_of_Z n)) ++ []) as [|c cur'] eqn:Hcur.
    { destruct (Py.str_of_Z n); [done|]. simpl in Hcur.
      rewrite app_nil_r in Hcur. by apply app_eq_nil in Hcur as [_ ?]. }
    by rewrite <- Hcur, app_nil_r, rev_involutive, str_chars. }
  change (replicate (S k) SP ++ ?x) with (SP :: replicate k SP ++ x).
  cbn [Py.split_go]. change (Py.is_space SP) with true. cbn match.
  destruct cur; by rewrite Hrest.
Qed.

Lemma int_counts (nums : list Z) :
  emap Py.int (map Py.str_of_Z nums) = Ok nums.
Proof.
  induction nums as [|n nums IH]; simpl; [done|].
  by rewrite int_str_of_Z, IH.
Qed.

(** The text that [get_poscar_content] puts together. *)
Lemma get_content_inv (self : PosCar.t) s :
  PosCar.get_content self = Ok s →
  ∃ bl dl : list string,
    emap AtomCo.basis_line (PosCar.bases self) = Ok bl
    ∧ PosCar.natoms self ≠ []
    ∧ s = ("Created by VASPy
" ++ (" " ++ Py.format_f 0 9 (PosCar.bases_const self) ++ "
") ++ AtomCo.concat_str bl
        ++ (AtomCo.concat_str (map (Py.format_s 5) (map fst (PosCar.natoms self)))
            ++ "
")
        ++ (AtomCo.concat_str (map (Py.format_d 5) (map snd (PosCar.natoms self)))
            ++ "
")
        ++ "Selective Dynamics
Direct
" ++ AtomCo.concat_str dl)%string.
Proof.
  unfold PosCar.get_content, AtomCo.get_poscar_content. intros Hs.
  cbn [AtomCo.attr_or] in Hs.
  apply ebind_Ok in Hs as (bl & Hbl & Hs).
  apply ebind_Ok in Hs as ([atoms nums] & Hzip & Hs).
  apply ebind_Ok in Hs as (dl & _ & Hs).
  exists bl, dl. split; [done|].
  destruct (PosCar.natoms self) as [|p natoms]; [done|].
  split; [done|]. by simplify_eq.
Qed.

(** X14.  The head of the text [get_content()] writes is read back as it was
    meant: for an object with three basis rows, labels of one to four
    characters without white space and counts that print in at most four
    characters (the fields are five wide), line 5 of the text splits into
    the labels, line 6 into the counts, and line 7 announces selective
    dynamics, so that a reader starts the coordinate block at line 9. *)
Theorem poscar_header_round_trip (self : PosCar.t) (s : string) :
  PosCar.get_content self = Ok s →
  length (PosCar.bases self) = 3%nat →
  Forall (λ a, a ≠ EmptyString ∧ (String.length a ≤ 4)%nat
               ∧ Forall (λ c, Py.is_space c = false) (Py.chars a))
    (map fst (PosCar.natoms self)) →
  Forall (λ n, (String.length (Py.str_of_Z n) ≤ 4)%nat)
    (map snd (PosCar.natoms self)) →
  ∃ l5 l6 l7 : string,
    Py.readlines s !! 5%nat = Some l5
    ∧ Py.readlines s !! 6%nat = Some l6
    ∧ Py.readlines s !! 7%nat = Some l7
    ∧ str2list l5 = map fst (PosCar.natoms self)
    ∧ emap Py.int (str2list l6) = Ok (map snd (PosCar.natoms self))
    ∧ PosCar.selective l7 = Ok true.
Proof.
  intros Hs Hbases Hlabels Hcounts.
  apply get_content_inv in Hs as (bl & dl & Hbl & _ & ->).
  set (atoms := map fst (PosCar.natoms self)) in *.
  set (nums := map snd (PosCar.natoms self)) in *.
  destruct (PosCar.bases self) as [|b0 [|b1 [|b2 [|]]]]; try discriminate Hbases.
  clear Hbases. cbn [emap] in Hbl.
  apply ebind_Ok in Hbl as (line0 & H0 & Hbl).
  apply ebind_Ok in Hbl as (bl1 & Hbl1 & Hbl).
  apply ebind_Ok in Hbl1 as (line1 & H1 & Hbl1).
  apply ebind_Ok in Hbl1 as (bl2 & Hbl2 & Hbl1).
  apply ebind_Ok in Hbl2 as (line2 & H2 & Hbl2).
  simpl in Hbl2. simplify_eq.
  apply basis_line_plain in H0 as (s0 & -> & Hs0).
  apply basis_line_plain in H1 as (s1 & -> & Hs1).
  apply basis_line_plain in H2 as (s2 & -> & Hs2).
  set (labels := AtomCo.concat_str (map (Py.format_s 5) atoms)).
  set (counts := AtomCo.concat_str (map (Py.format_d 5) nums)).
  set (first := (" " ++ Py.format_f 0 9 (PosCar.bases_const self))%string).
  assert (Forall (λ n, (String.length (Py.str_of_Z n) ≤ 4)%nat
                       ∧ Py.str_of_Z n ≠ EmptyString
                       ∧ word (Py.chars (Py.str_of_Z n))) nums) as Hfields.
  { eapply Forall_impl; [exact Hcounts|]. intros n Hn.
    destruct (word_str_of_Z n) as [Hword Hne].
    split; [done|]. split; [|done].
    intros Hnil. by rewrite Hnil in Hne. }
  assert (plain (Py.chars labels)) as Hplain_labels.
  { apply plain_concat, Forall_fmap.
    eapply Forall_impl; [exact Hlabels|]. intros a (_ & _ & Hword).
    apply plain_app; [by apply word_plain|apply plain_spaces]. }
  assert (plain (Py.chars counts)) as Hplain_counts.
  { apply plain_concat, Forall_fmap, Forall_forall. intros n _.
    apply plain_rjust, plain_str_of_Z. }
  pose proof (readlines_lines
    ["Created by VASPy"%string; first; s0; s1; s2; labels; counts;
     "Selective Dynamics"%string; "Direct"%string]
    (AtomCo.concat_str dl)) as Hlines.
  match type of Hlines with
  | _ → Py.readlines ?t = _ =>
      match goal with
      | |- context [Py.readlines ?u] => replace u with t
      end
  end.
  2:{ unfold first, AtomCo.concat_str. cbn [map fold_right].
      rewrite !append_assoc. reflexivity. }
  rewrite Hlines; last first.
  { apply Forall_cons_2; [by repeat constructor|].
    apply Forall_cons_2.
    { apply (plain_app " "); [by repeat constructor|apply plain_format_f]. }
    do 5 (apply Forall_cons_2; [done|]).
    do 2 (apply Forall_cons_2; [by repeat constructor|]).
    apply Forall_nil_2. }
  exists (labels ++ "
")%string, (counts ++ "
")%string, "Selective Dynamics
"%string.
  split_and!; try done.
  - by apply split_labels.
  - unfold str2list, Py.split, counts.
    rewrite (split_counts nums []) by done.
    apply int_counts.
Qed.

End header.

Lemma poscar_header_round_trip_witness :
  let content := "PtO
1.0
1 0 0
0 1 0
0 0 1
Pt O
2 1
Direct
0 0 0
0.5 0.5 0.5
0.25 0.25 0.25
"%string in
  ∃ (self : PosCar.t) (s l5 l6 : string),
    PosCar.init content = Ok self
    ∧ PosCar.get_content self = Ok s
    ∧ Py.readlines s !! 5%nat = Some l5
    ∧ Py.readlines s !! 6%nat = Some l6
    ∧ str2list l5 = ["Pt"; "O"]%string
    ∧ emap Py.int (str2list l6) = Ok [2; 1].
Proof.
  intros content.
  destruct (PosCar.init content) as [self|e] eqn:Hinit; [|by vm_compute in Hinit].
  destruct (PosCar.get_content self) as [s|e] eqn:Hs.
  - destruct (poscar_header_round_trip self s Hs)
      as (l5 & l6 & l7 & H5 & H6 & _ & Hlabels & Hcounts & _).
    + vm_compute in Hinit. by simplify_eq.
    + vm_compute in Hinit. simplify_eq.
      apply (bool_decide_unpack _). by vm_compute.
    + vm_compute in Hinit. simplify_eq.
      apply (bool_decide_unpack _). by vm_compute.
    + exists self, s, l5, l6. split; [done|]. split; [done|].
      split; [done|]. split; [done|].
      vm_compute in Hinit. by simplify_eq.
  - vm_compute in Hinit. simplify_eq.
Defined.

(** ** The exceptions of the loaders *)

Lemma ebind_Raise_inv {A B} (m : exn A) (k : A → exn B) (e : exception) :
  ebind m k = Raise e → m = Raise e ∨ ∃ a, m = Ok a ∧ k a = Raise e.
Proof. destruct m as [a|e']; simpl; [eauto|]. intros [= ->]. by left. Qed.

Lemma emap_raise {A B} (f : A → exn B) (l : list A) (e : exception) :
  emap f l = Raise e → ∃ x, x ∈ l ∧ f x = Raise e.
Proof.
  induction l as [|x l IH]; simpl; [done|]. intros H.
  apply ebind_Raise_inv in H as [H|(y & Hy & H)].
  { exists x. split; [left|done]. }
  apply ebind_Raise_inv in H as [H|(ys & Hys & H)]; [|done].
  destruct (IH H) as (x' & Hx' & Hfx'). exists x'. split; [by right|done].
Qed.

Lemma int_raise (s : string) (e : exception) :
  Py.int s = Raise e → e = ValueError.
Proof.
  unfold Py.int. destruct (Py.scan_sign _) as [neg r].
  destruct (Py.scan_digits false r) as [[|d ds] [|c cs]]; by intros [= <-].
Qed.

Lemma index_raise {A} (l : list A) (i : nat) (e : exception) :
  Py.index l i = Raise e → e = IndexError.
Proof. unfold Py.index. destruct (l !! i); by intros [= <-]. Qed.

Lemma last_item_raise {A} (l : list A) (e : exception) :
  Py.last_item l = Raise e → e = IndexError.
Proof. unfold Py.last_item. destruct (last l); by intros [= <-]. Qed.

Lemma float64_raise (rows : list (list string)) (e : exception) :
  Np.float64 rows = Raise e → e = ValueError.
Proof.
  unfold Np.float64. destruct rows as [|r rows]; [done|].
  destruct (Np.ncols _); [|by intros [= <-]].
  intros H. apply emap_raise in H as (row & _ & H).
  apply emap_raise in H as (tok & _ & H).
  by apply float_of_string_raise in H.
Qed.

Lemma line2list_raise (line : string) (e : exception) :
  line2list line = Raise e → e = ValueError.
Proof.
  unfold line2list. intros H. apply emap_raise in H as (tok & _ & H).
  by apply float_of_string_raise in H.
Qed.

Ltac raise_step H :=
  apply ebind_Raise_inv in H as [H|(? & _ & H)].

Lemma poscar_load_raise (content : string) (e : exception) :
  PosCar.load content = Raise e → e = IndexError ∨ e = ValueError.
Proof.
  unfold PosCar.load. intros H.
  raise_step H; [left; by apply index_raise in H|].
  raise_step H; [right; by apply float_of_string_raise in H|].
  raise_step H; [left; by apply index_raise in H|].
  raise_step H; [left; by apply index_raise in H|].
  raise_step H; [left; by apply index_raise in H|].
  raise_step H.
  { left. unfold PosCar.selective in H. by case_match; simplify_eq. }
  raise_step H.
  { right. apply emap_raise in H as (tok & _ & H). by apply int_raise in H. }
  raise_step H; [right; by apply float64_raise in H|].
  raise_step H; [right; by apply float64_raise in H|].
  raise_step H; done.
Qed.

Lemma xyz_load_raise (content : string) (e : exception) :
  XyzFile.load content = Raise e → e = IndexError ∨ e = ValueError.
Proof.
  unfold XyzFile.load. intros H.
  raise_step H; [left; by apply index_raise in H|].
  raise_step H; [right; by apply int_raise in H|].
  raise_step H; [left; by apply index_raise in H|].
  raise_step H; [left; by apply last_item_raise in H|].
  raise_step H; [right; by apply int_raise in H|].
  raise_step H.
  { left. destruct (Np.ncols _) as [[|k]|]; by simplify_eq. }
  raise_step H; [right; by apply float64_raise in H|].
  raise_step H; done.
Qed.

Lemma xdatcar_init_raise (content : string) (e : exception) :
  XdatCar.init content = Raise e → e = ValueError.
Proof.
  unfold XdatCar.init. intros H.
  repeat (destruct (Py.readline _) as [? ?] in H).
  raise_step H; [by apply float_of_string_raise in H|].
  raise_step H; [by apply line2list_raise in H|].
  raise_step H; [by apply line2list_raise in H|].
  raise_step H; [by apply line2list_raise in H|].
  raise_step H; [|done].
  apply emap_raise in H as (tok & _ & H). by apply int_raise in H.
Qed.

Lemma lines_groups_cons (lines : list string) :
  ∃ g gs, CifFile.lines_groups lines = g :: gs.
Proof.
  unfold CifFile.lines_groups.
  destruct (CifFile.loop_indices lines) as [|i idx]; simpl; eauto.
Qed.

Lemma setattr_error_cases (attr : string) (e : exception) :
  CifFile.setattr_error attr = Some e → e = AttributeError ∨ e = TypeError.
Proof.
  unfold CifFile.setattr_error. intros H.
  repeat case_bool_decide; simplify_eq; auto.
Qed.

Lemma load_attrs_raise (lines : list string) (attrs : gmap string CifFile.attr_value)
    (e : exception) :
  CifFile.load_attrs lines attrs = Raise e →
  e = ValueError ∨ e = AttributeError ∨ e = TypeError.
Proof.
  revert attrs. induction lines as [|line lines IH]; intros attrs; simpl; [done|].
  destruct (Py.startswith "_" (Py.strip line)); [|apply IH].
  destruct (CifFile.regex_match _) as [[attr value]|]; [|apply IH].
  intros H. raise_step H.
  - left. case_bool_decide as Hfloat; [|done].
    raise_step H; [|done]. by apply float_of_string_raise in H.
  - destruct (CifFile.setattr_error attr) as [e'|] eqn:Hset; [|by eapply IH].
    right. simplify_eq. by apply setattr_error_cases in Hset.
Qed.

Lemma load_table_raise (lines : list string) (tb : CifFile.table) (e : exception) :
  CifFile.load_table lines tb = Raise e → e = ValueError.
Proof.
  revert tb. induction lines as [|line lines IH]; intros tb; simpl; [done|].
  destruct (Py.startswith "_" (Py.strip line)); [apply IH|].
  case_bool_decide as Hline; [|apply IH].
  destruct (line2list_str (Py.strip line))
    as [|? [|? [|x [|y [|z [|? [|? [|? [|]]]]]]]]]; try by intros [= <-].
  intros H. raise_step H; [|by eapply IH].
  apply (emap_raise Py.float_of_string [x; y; z]) in H as (tok & _ & H).
  by apply float_of_string_raise in H.
Qed.

Lemma cif_load_raise (content : string) (e : exception) :
  CifFile.load content = Raise e →
  e = ValueError ∨ e = AttributeError ∨ e = TypeError.
Proof.
  unfold CifFile.load. intros H.
  destruct (lines_groups_cons (Py.readlines content)) as (g & gs & Hg).
  rewrite Hg in H. simpl in H.
  raise_step H; [by apply load_attrs_raise in H|].
  assert (∃ gl, Py.last_item (g :: gs) = Ok gl) as [gl Hgl].
  { unfold Py.last_item. destruct (last (g :: gs)) as [gl|] eqn:Hl; [by eexists|].
    by apply last_None in Hl. }
  rewrite Hgl in H. simpl in H.
  raise_step H; [left; by apply load_table_raise in H|done].
Qed.

(** X15.  [load] never raises [CarfileValueError]: that is left to [verify].
    [PosCar.load] and [XyzFile.load] index the list of lines and can raise
    [IndexError]; [XdatCar] reads with [readline] and [CifFile.load] slices,
    so a short file gives them no [IndexError].  [XdatCar] raises at most a
    [ValueError].  [CifFile.load] raises a [ValueError] for a number that
    does not parse, and an [AttributeError] or a [TypeError] for an
    attribute line whose name [setattr] refuses or that replaces the
    logger. *)
Theorem loaders_exceptions (content : string) (e : exception) :
  (PosCar.load content = Raise e → e = IndexError ∨ e = ValueError)
  ∧ (XyzFile.load content = Raise e → e = IndexError ∨ e = ValueError)
  ∧ (XdatCar.init content = Raise e → e = ValueError)
  ∧ (CifFile.load content = Raise e →
     e = ValueError ∨ e = AttributeError ∨ e = TypeError).
Proof.
  split_and!.
  - apply poscar_load_raise.
  - apply xyz_load_raise.
  - apply xdatcar_init_raise.
  - apply cif_load_raise.
Qed.

(** X16.  Files that are too short are refused: [PosCar.load] needs eight
    lines and raises [IndexError] when there are fewer than two;
    [XyzFile.load] needs three lines and raises [IndexError] on an empty
    file; [XdatCar] raises [ValueError] when there are fewer than two
    lines, [readline] giving [''] at the end of the file. *)
Theorem loaders_short_file (content : string) :
  let n := length (Py.readlines content) in
  ((n < 8)%nat → ∃ e, PosCar.load content = Raise e)
  ∧ ((n < 2)%nat → PosCar.load content = Raise IndexError)
  ∧ ((n < 3)%nat → ∃ e, XyzFile.load content = Raise e)
  ∧ ((n < 1)%nat → XyzFile.load content = Raise IndexError)
  ∧ ((n < 2)%nat → XdatCar.init content = Raise ValueError).
Proof.
  intros n. split_and!.
  - intros Hn. destruct (PosCar.load content) as [self|e] eqn:Hload; [|eauto].
    destruct (poscar_load_inv content self Hload)
      as (l5 & l6 & l7 & sel & _ & _ & Hl7 & _).
    apply lookup_lt_Some in Hl7. unfold n in Hn. lia.
  - intros Hn. unfold PosCar.load, Py.index.
    rewrite (proj2 (lookup_ge_None (Py.readlines content) 1)); [done|].
    unfold n in Hn. lia.
  - intros Hn. destruct (XyzFile.load content) as [self|e] eqn:Hload; [|eauto].
    destruct (xyz_load_inv content self Hload) as (Hne & _).
    destruct (drop 2 (Py.readlines content)) as [|l ls] eqn:Hdrop; [done|].
    apply (f_equal length) in Hdrop. rewrite length_drop in Hdrop.
    simpl in Hdrop. unfold n in Hn. lia.
  - intros Hn. unfold XyzFile.load, Py.index.
    rewrite (proj2 (lookup_ge_None (Py.readlines content) 0)); [done|].
    unfold n in Hn. lia.
  - intros Hn. unfold XdatCar.init.
    destruct (Py.readlines content) as [|l [|l' ls]]; [done|done|].
    simpl in n. unfold n in Hn. lia.
Qed.

Lemma loaders_exceptions_witness :
  PosCar.load "PtO
" = Raise IndexError
  ∧ (IndexError = IndexError ∨ IndexError = ValueError)
  ∧ CifFile.load "_atomco_dict x
" = Raise AttributeError
  ∧ (AttributeError = ValueError ∨ AttributeError = AttributeError
     ∨ AttributeError = TypeError).
Proof.
  assert (PosCar.load "PtO
" = Raise IndexError) as Hload by reflexivity.
  assert (CifFile.load "_atomco_dict x
" = Raise AttributeError) as Hcif by reflexivity.
  split_and!; [exact Hload| |exact Hcif|].
  - exact (proj1 (loaders_exceptions "PtO
" IndexError) Hload).
  - exact (proj2 (proj2 (proj2 (loaders_exceptions "_atomco_dict x
" AttributeError))) Hcif).
Defined.

Lemma loaders_short_file_witness :
  XdatCar.init "sys
" = Raise ValueError.
Proof.
  apply (proj2 (proj2 (proj2 (proj2 (loaders_short_file "sys
"))))).
  vm_compute. lia.
Defined.

(** ** Reading the head of a written xyz file *)

Section xyz_header.
Implicit Types (c : ascii) (cs cur w : list ascii) (s line : string)
  (d : Decimal.uint) (ds : list N).

Local Abbreviation LF := ("010"%char).
Local Abbreviation SP := (" "%char).
Local Abbreviation word cs := (Forall (λ c, Py.is_space c = false) cs).

(** *** The two lines of the head *)

Lemma strip_field (k : nat) w :
  word w → w ≠ [] → Py.strip_chars (replicate k SP ++ w ++ [LF]) = w.
Proof.
  intros Hw Hne. unfold Py.strip_chars.
  assert (Py.lstrip_chars (replicate k SP ++ w ++ [LF]) = w ++ [LF]) as ->.
  { induction k as [|k IH]; simpl; [|done].
    destruct Hw as [|c w Hc _]; simpl; [done|]. by rewrite Hc. }
  rewrite rev_app_distr. simpl.
  rewrite lstrip_word, rev_involutive; [done|].
  apply Forall_forall. intros c Hc. rewrite Forall_forall in Hw.
  apply Hw. by apply elem_of_rev.
Qed.

Lemma split_step_line (k : nat) w :
  word w → w ≠ [] →
  Py.split_go [] (Py.chars "STEP =" ++ replicate k SP ++ w ++ [LF])
  = match k with
    | O => ["STEP"; Py.str ("="%char :: w)]
    | S _ => ["STEP"; "="; Py.str w]
    end%string.
Proof.
  intros Hw Hne.
  assert (∀ cur, cur ≠ [] →
            Py.split_go cur [LF] = [Py.str (rev cur)]) as Hend.
  { intros [|c cur] Hcur; [done|]. done. }
  change (Py.split_go [] (Py.chars "STEP =" ++ ?r))
    with ("STEP"%string :: Py.split_go ["="%char] r).
  f_equal. destruct k as [|k]; simpl.
  - rewrite split_go_word, Hend by (done || by destruct (rev w)).
    by rewrite rev_app_distr, rev_involutive.
  - f_equal. rewrite split_go_blank, split_go_word, Hend, app_nil_r by
      (done || (rewrite app_nil_r; intros Hr; apply Hne;
                by rewrite <- (rev_involutive w), Hr)).
    by rewrite rev_involutive.
Qed.

(** X17.  The head of the text [get_content()] writes for an xyz object, read
    the way [XyzFile.load] reads it: line 0 always gives [ntot] back;
    line 1 gives [step] back when [step] prints in at most eight
    characters, and otherwise the field fills its nine columns, the
    last token is ["=<step>"] and [int] raises [ValueError].  This holds
    whatever [atomdict2str] writes after the head. *)
Theorem xyz_header_round_trip
    (atomdict2str :
       gmap string (list (list Py.float)) → list string → exn string)
    (self : XyzFile.t) (content : string) :
  XyzFile.get_content atomdict2str self = Ok content →
  ∃ l0 l1 : string,
    Py.readlines content !! 0%nat = Some l0
    ∧ Py.readlines content !! 1%nat = Some l1
    ∧ Py.int (Py.strip l0) = Ok (XyzFile.ntot self)
    ∧ (let* label := Py.last_item (str2list l1) in Py.int label)
      = if bool_decide (String.length (Py.str_of_Z (XyzFile.step self)) ≤ 8)%nat
        then Ok (XyzFile.step self) else Raise ValueError.
Proof.
  unfold XyzFile.get_content, AtomCo.get_xyz_content. intros H.
  apply ebind_Ok in H as (dict & _ & H).
  apply ebind_Ok in H as (data & _ & H).
  cbn [from_option id] in H. injection H as <-.
  set (wn := Py.str_of_Z (XyzFile.ntot self)).
  set (ws := Py.str_of_Z (XyzFile.step self)).
  destruct (word_str_of_Z (XyzFile.ntot self)) as [Hwn Hnen].
  destruct (word_str_of_Z (XyzFile.step self)) as [Hws Hnes].
  fold wn in Hwn, Hnen. fold ws in Hws, Hnes.
  pose proof (readlines_lines
    [Py.format_d 12 (XyzFile.ntot self);
     ("STEP =" ++ Py.format_d 9 (XyzFile.step self))%string] data) as Hlines.
  match type of Hlines with
  | _ → Py.readlines ?t = _ =>
      match goal with
      | |- context [Py.readlines ?u] => replace u with t
      end
  end.
  2:{ unfold AtomCo.concat_str. cbn [map fold_right].
      rewrite !append_assoc. reflexivity. }
  rewrite Hlines; last first.
  { apply Forall_cons_2; [apply plain_rjust, plain_str_of_Z|].
    apply Forall_cons_2; [|apply Forall_nil_2].
    apply (plain_app "STEP ="); [by repeat constructor|].
    apply plain_rjust, plain_str_of_Z. }
  eexists _, _. split; [reflexivity|]. split; [reflexivity|]. split.
  - unfold Py.strip, Py.format_d, Py.rjust. fold wn.
    rewrite !chars_app, chars_spaces.
    change (Py.chars "
") with [LF].
    rewrite <- app_assoc, strip_field, str_chars by done. apply int_str_of_Z.
  - unfold str2list, Py.split, Py.format_d, Py.rjust. fold ws.
    rewrite !chars_app, chars_spaces.
    change (Py.chars "
") with [LF].
    rewrite <- !app_assoc, split_step_line by done.
    rewrite <- (length_chars ws).
    destruct (9 - length (Py.chars ws))%nat as [|k] eqn:Hk.
    + rewrite bool_decide_eq_false_2 by lia.
      assert (Py.int (Py.str ("="%char :: Py.chars ws)) = Raise ValueError)
        as Hbad.
      { destruct (Py.int (Py.str ("="%char :: Py.chars ws))) as [n|e] eqn:Hint.
        - apply int_no_equals in Hint. exfalso. apply Hint.
          rewrite chars_str. by left.
        - by apply int_raise in Hint as ->. }
      simpl. exact Hbad.
    + rewrite bool_decide_eq_true_2 by lia. simpl.
      rewrite str_chars. apply int_str_of_Z.
Qed.

End xyz_header.

Lemma xyz_header_round_trip_witness :
  let content := "1
STEP = 123456789
H   0.0 0.0 0.0
"%string in
  let atomdict2str :=
    λ (_ : gmap string (list (list Py.float))) (_ : list string),
      Ok EmptyString : exn string in
  ∃ (self : XyzFile.t) (written l0 l1 : string),
    XyzFile.init content = Ok self
    ∧ XyzFile.get_content atomdict2str self = Ok written
    ∧ Py.readlines written !! 0%nat = Some l0
    ∧ Py.readlines written !! 1%nat = Some l1
    ∧ Py.int (Py.strip l0) = Ok 1
    ∧ (let* label := Py.last_item (str2list l1) in Py.int label)
      = Raise ValueError.
Proof.
  intros content atomdict2str.
  destruct (XyzFile.init content) as [self|e] eqn:Hinit; [|by vm_compute in Hinit].
  destruct (XyzFile.get_content atomdict2str self) as [written|e] eqn:Hw.
  - destruct (xyz_header_round_trip atomdict2str self written Hw)
      as (l0 & l1 & H0 & H1 & Hntot & Hstep).
    exists self, written, l0, l1.
    split; [done|]. split; [done|]. split; [done|]. split; [done|].
    vm_compute in Hinit. simplify_eq. by split.
  - vm_compute in Hinit. simplify_eq.
Defined.

(** ** Trajectories that end badly *)

Section xdatcar_endings.
Context (ragged_ok : bool) (self : XdatCar.t).
Implicit Types (g : XdatCar.gen) (lines rows rest : list string)
  (srcs : list (string * list string)) (frs : list XdatCar.frame).

Local Abbreviation n := (Z.to_nat (XdatCar.ntot self)).

(** The lines of complete frames, and the frames read from them. *)
Local Abbreviation body srcs := (concat (map (λ src, src.1 :: src.2) srcs)).
Local Abbreviation complete srcs frs :=
  (Forall2 (λ (src : string * list string) (fr : XdatCar.frame),
      is_prompt src.1 fr.1 ∧ length src.2 = n
      ∧ emap line2list src.2 = Ok fr.2 ∧ one_length fr.2) srcs frs).

Lemma run_more_fuel (fuel fuel' : nat) g :
  (XdatCar.run ragged_ok fuel self g).2 ≠ XdatCar.Unfinished →
  (fuel ≤ fuel')%nat →
  XdatCar.run ragged_ok fuel' self g = XdatCar.run ragged_ok fuel self g.
Proof.
  revert fuel' g. induction fuel as [|fuel IH]; intros fuel' g Hend Hle; [done|].
  destruct fuel' as [|fuel']; [lia|]. simpl in *.
  destruct (XdatCar.next ragged_ok self g) as [fr g'| |e]; [|done..].
  specialize (IH fuel' g').
  destruct (XdatCar.run ragged_ok fuel self g') as [frs e] eqn:Hrun. simpl in *.
  rewrite IH by (done || lia). done.
Qed.

Lemma run_complete srcs frs :
  complete srcs frs →
  ∀ (fuel : nat) rest,
    XdatCar.run ragged_ok (length srcs + fuel) self
      (XdatCar.read_prompt (body srcs ++ rest))
    = (frs ++ (XdatCar.run ragged_ok fuel self (XdatCar.read_prompt rest)).1,
       (XdatCar.run ragged_ok fuel self (XdatCar.read_prompt rest)).2).
Proof.
  induction 1 as [|[line rows] [step block] srcs frs
                    (Hprompt & Hrows & Hblock & Hone) _ IH];
    intros fuel rest; simpl in *.
  { by destruct (XdatCar.run ragged_ok fuel self _). }
  apply is_prompt_step in Hprompt as [Hhas Hstep].
  unfold XdatCar.next. simpl. rewrite Hhas, Hstep. simpl.
  rewrite <- app_assoc, <- Hrows, (read_rows_app _ _ block) by done. simpl.
  rewrite array_one_length by done. simpl.
  by rewrite IH.
Qed.

Lemma step_of_raise (prompt : string) (e : exception) :
  XdatCar.step_of prompt = Raise e → e = ValueError.
Proof.
  unfold XdatCar.step_of, Py.split_on, Py.last_item. intros H.
  destruct (last _) as [label|] eqn:Hlast; simpl in H.
  - by apply int_raise in H.
  - apply last_None in Hlast. by apply split_on_nonempty in Hlast.
Qed.

Lemma read_rows_eof (k : nat) :
  XdatCar.read_rows k [] = Ok (replicate k [], []).
Proof. induction k as [|k IH]; simpl; [done|]. by rewrite IH. Qed.

Lemma read_rows_short rows (block : list (list Py.float)) (k : nat) :
  emap line2list rows = Ok block → (length rows ≤ k)%nat →
  XdatCar.read_rows k rows = Ok (block ++ replicate (k - length rows) [], []).
Proof.
  revert block k. induction rows as [|row rows IH]; intros block k Hblock Hk;
    simpl in *.
  { simplify_eq. rewrite Nat.sub_0_r. apply read_rows_eof. }
  destruct k as [|k]; [lia|].
  apply ebind_Ok in Hblock as (r & Hr & Hblock).
  apply ebind_Ok in Hblock as (rs & Hrs & Hblock). simplify_eq/=.
  rewrite Hr. simpl. rewrite (IH rs k) by (done || lia). done.
Qed.

(** Rows of different lengths: an array on the older numpy, a
    [ValueError] on the newer. *)
Lemma array_ragged {A} (rows : list (list A)) :
  Np.array true rows = Ok rows
  ∧ (¬ one_length rows → Np.array false rows = Raise ValueError).
Proof.
  unfold Np.array. destruct rows as [|r rows]; [split; [done|]|].
  { intros Hno. destruct Hno. by exists 0%nat. }
  destruct (Np.ncols (r :: rows)) as [k|] eqn:Hk; [|done].
  split; [done|]. intros Hno. destruct Hno.
  exists k. by apply ncols_rows.
Qed.

Lemma frames_fuel srcs frs (content : string) rest (fuel : nat)
    (out : list XdatCar.frame * XdatCar.ending) :
  drop (XdatCar.info_nline self) (Py.readlines content) = body srcs ++ rest →
  complete srcs frs →
  (fuel ≤ 2)%nat → (1 ≤ length rest)%nat →
  XdatCar.run ragged_ok fuel self (XdatCar.read_prompt rest) = out →
  out.2 ≠ XdatCar.Unfinished →
  XdatCar.frames ragged_ok self content = (frs ++ out.1, out.2).
Proof.
  intros Hbody Hsrcs Hfuel Hrest <- Hend.
  unfold XdatCar.frames, XdatCar.iter. rewrite Hbody.
  rewrite <- (run_complete srcs frs Hsrcs fuel rest).
  apply run_more_fuel.
  - by rewrite (run_complete srcs frs Hsrcs fuel rest).
  - assert (length srcs ≤ length (body srcs))%nat as Hlen.
    { clear. induction srcs as [|src srcs IH]; simpl; [lia|].
      rewrite length_app. lia. }
    destruct (body srcs ++ rest) as [|l ls] eqn:Hb.
    + apply (f_equal length) in Hb. rewrite length_app in Hb. simpl in Hb. lia.
    + apply (f_equal length) in Hb. rewrite length_app in Hb. simpl in *. lia.
Qed.



End xdatcar_endings.



(** ** What [CifFile.load] establishes *)

Section cif_counts.
Implicit Types (tb : CifFile.table) (lines : list string).

Lemma load_table_rows lines tb tb' :
  CifFile.load_table lines tb = Ok tb' →
  length (CifFile.t_atom_types tb) = length (CifFile.t_atom_names tb) →
  Forall (λ row, length row = 3%nat) (CifFile.t_data tb) →
  length (CifFile.t_atom_types tb') = length (CifFile.t_atom_names tb')
  ∧ Forall (λ row, length row = 3%nat) (CifFile.t_data tb').
Proof.
  revert tb. induction lines as [|line lines IH]; intros tb Hload Hlen Hrows;
    simpl in Hload.
  { by simplify_eq. }
  destruct (Py.startswith "_" (Py.strip line)).
  { by apply IH in Hload. }
  case_bool_decide as Hline; [|by apply IH in Hload].
  destruct (line2list_str (Py.strip line))
    as [|? [|? [|x [|y [|z [|? [|? [|? [|]]]]]]]]]; try done.
  apply ebind_Ok in Hload as (row & Hrow & Hload).
  apply (emap_length Py.float_of_string [x; y; z]) in Hrow.
  apply IH in Hload; [done|..]; simpl.
  - rewrite !length_app. simpl. lia.
  - apply Forall_app. split; [done|]. by constructor.
Qed.

(** X20.  A loaded CIF file has no label twice in [atoms], a count of at
    least one for each label, counts that add up to [ntot], and three
    coordinates in every row of [data]. *)
Theorem cif_load_counts (content : string) (self : CifFile.t) :
  CifFile.load content = Ok self →
  NoDup (CifFile.atoms self)
  ∧ length (CifFile.natoms self) = length (CifFile.atoms self)
  ∧ Forall (λ k, 1 ≤ k) (CifFile.natoms self)
  ∧ Py.sum (CifFile.natoms self) = CifFile.ntot self
  ∧ CifFile.atoms_num self = zip (CifFile.atoms self) (CifFile.natoms self)
  ∧ Forall (λ row, length row = 3%nat) (CifFile.data self).
Proof.
  unfold CifFile.load. intros H.
  apply ebind_Ok in H as (g0 & _ & H).
  apply ebind_Ok in H as (attrs & _ & H).
  apply ebind_Ok in H as (glast & _ & H).
  apply ebind_Ok in H as (tb & Htb & H). simplify_eq/=.
  apply load_table_rows in Htb as [Hlen Hrows]; [|done|constructor].
  set (types := CifFile.t_atom_types tb) in *.
  assert (∀ x, x ∈ elements (list_to_set types : gset string) ↔ x ∈ types) as Hin.
  { intros x. by rewrite elem_of_elements, elem_of_list_to_set. }
  split_and!.
  - apply NoDup_elements.
  - by rewrite length_map.
  - apply Forall_forall. intros k Hk.
    apply list_elem_of_fmap in Hk as (a & -> & Ha).
    apply count_pos. by apply Hin.
  - rewrite sum_counts; [lia|apply NoDup_elements|]. intros x Hx. by apply Hin.
  - done.
  - done.
Qed.

End cif_counts.

Lemma cif_load_counts_witness :
  let content := "data_x
_cell_length_a   5.43
loop_
_atom_site_label
Si1 1.0 0.0 0.0 0.0 0.0 Uiso Si
O1 1.0 0.5 0.5 0.5 0.0 Uiso O
O2 1.0 0.5 0.0 0.5 0.0 Uiso O
"%string in
  ∃ self,
    CifFile.load content = Ok self
    ∧ CifFile.ntot self = 3
    ∧ Py.sum (CifFile.natoms self) = CifFile.ntot self.
Proof.
  intros content.
  destruct (CifFile.load content) as [self|e] eqn:Hload; [|by vm_compute in Hload].
  exists self. split; [done|].
  destruct (cif_load_counts content self Hload) as (_ & _ & _ & Hsum & _).
  split; [|exact Hsum].
  vm_compute in Hload. by simplify_eq.
Defined.

(** ** The segments of a CIF file *)

Section cif_segments.
Implicit Types (lines pre post : list string) (line : string).

Local Abbreviation is_loop line := (Py.startswith "loop_" line = true).
Local Abbreviation pick :=
  (λ '(i, line), if Py.startswith "loop_" line then Some i else None
   : option nat).

Lemma omap_imap_shift (k : nat) lines :
  omap pick (imap (λ i, pair (k + i)%nat) lines)
  = map (λ i, k + i)%nat (omap pick (imap pair lines)).
Proof.
  revert k. induction lines as [|line lines IH]; intros k; [done|].
  rewrite !imap_cons. simpl. rewrite Nat.add_0_r.
  rewrite (imap_ext _ (λ i, pair (S k + i)%nat)); last first.
  { intros i x _. simpl. f_equal. lia. }
  rewrite IH.
  rewrite (imap_ext (pair ∘ S) (λ i, pair (1 + i)%nat) lines) by done.
  repeat match goal with
         | |- context [list_omap ?A ?B ?f ?l] =>
             change (list_omap A B f l) with (omap f l)
         end.
  rewrite (IH 1%nat).
  destruct (Py.startswith "loop_" line); simpl; rewrite map_map;
    [f_equal; [lia|]|]; apply map_ext; intros; lia.
Qed.

Lemma loop_indices_app pre post :
  CifFile.loop_indices (pre ++ post)
  = CifFile.loop_indices pre
    ++ map (λ i, length pre + i)%nat (CifFile.loop_indices post).
Proof.
  unfold CifFile.loop_indices.
  by rewrite imap_app, omap_app, omap_imap_shift.
Qed.

Lemma loop_indices_cons line post :
  CifFile.loop_indices (line :: post)
  = (if Py.startswith "loop_" line then [0%nat] else [])
    ++ map S (CifFile.loop_indices post).
Proof.
  change (line :: post) with ([line] ++ post).
  rewrite loop_indices_app. unfold CifFile.loop_indices at 1. simpl.
  by destruct (Py.startswith "loop_" line).
Qed.

Lemma loop_indices_none lines :
  Forall (λ line, ¬ is_loop line) lines → CifFile.loop_indices lines = [].
Proof.
  induction 1 as [|line lines Hline _ IH]; [done|].
  change (line :: lines) with ([line] ++ lines).
  rewrite loop_indices_app, IH. unfold CifFile.loop_indices. simpl.
  by destruct (Py.startswith "loop_" line).
Qed.

Lemma loop_indices_loop line post :
  is_loop line → Forall (λ line, ¬ is_loop line) post →
  CifFile.loop_indices (line :: post) = [0%nat].
Proof.
  intros Hline Hpost. change (line :: post) with ([line] ++ post).
  rewrite loop_indices_app, (loop_indices_none post) by done.
  unfold CifFile.loop_indices. simpl. by rewrite Hline.
Qed.

Lemma slice_prefix {A} (l1 l2 : list A) :
  Py.slice (l1 ++ l2) 0 (Z.of_nat (length l1)) = l1.
Proof.
  rewrite slice_take_drop by (rewrite ?length_app; lia).
  simpl. rewrite Z.sub_0_r, Nat2Z.id. apply take_app_length.
Qed.

Lemma slice_suffix {A} (l1 l2 : list A) :
  Py.slice (l1 ++ l2) (Z.of_nat (length l1)) (Z.of_nat (length (l1 ++ l2))) = l2.
Proof.
  rewrite slice_take_drop by (rewrite ?length_app; lia).
  rewrite Nat2Z.id, drop_app_length, length_app.
  apply take_ge. lia.
Qed.

Lemma slice_shift {A} (l1 l2 : list A) (a b : nat) :
  Py.slice (l1 ++ l2) (Z.of_nat (length l1 + a)) (Z.of_nat (length l1 + b))
  = Py.slice l2 (Z.of_nat a) (Z.of_nat b).
Proof.
  unfold Py.slice, Py.slice_bound. rewrite length_app.
  destruct (Z.ltb_spec (Z.of_nat (length l1 + a)) 0),
    (Z.ltb_spec (Z.of_nat (length l1 + b)) 0),
    (Z.ltb_spec (Z.of_nat a) 0), (Z.ltb_spec (Z.of_nat b) 0); try lia.
  replace (Z.to_nat (Z.of_nat (length l1 + a)
                       `min` Z.of_nat (length l1 + length l2)))
    with (length l1 + Z.to_nat (Z.of_nat a `min` Z.of_nat (length l2)))%nat
    by lia.
  rewrite drop_app_add. f_equal. lia.
Qed.

Lemma zip_map_shift (k : nat) (xs ys : list nat) :
  zip (map (λ i, k + i)%nat xs) (map (λ i, k + i)%nat ys)
  = map (λ p, (k + p.1, k + p.2)%nat) (zip xs ys).
Proof.
  revert ys. induction xs as [|x xs IH]; intros [|y ys]; simpl; [done..|].
  by rewrite IH.
Qed.

Lemma lines_groups_none lines :
  Forall (λ line, ¬ is_loop line) lines → CifFile.lines_groups lines = [lines].
Proof.
  intros Hnone. unfold CifFile.lines_groups.
  rewrite loop_indices_none by done. simpl.
  f_equal. pose proof (slice_prefix lines []) as Hall.
  rewrite app_nil_r in Hall. exact Hall.
Qed.

Lemma lines_groups_first pre line post :
  Forall (λ line, ¬ is_loop line) pre → is_loop line →
  CifFile.lines_groups (pre ++ line :: post) = pre :: CifFile.lines_groups post.
Proof.
  intros Hpre Hline. unfold CifFile.lines_groups.
  rewrite loop_indices_app, (loop_indices_none pre), loop_indices_cons, Hline
    by done.
  set (idx := CifFile.loop_indices post). set (k := S (length pre)).
  assert (0%nat :: map S ([] ++ map (λ i, (length pre + i)%nat)
                                 ([0%nat] ++ map S idx))
          = 0%nat :: map (λ i, k + i)%nat (0%nat :: map S idx)) as ->.
  { simpl. do 2 f_equal. by rewrite !map_map. }
  assert (([] ++ map (λ i, (length pre + i)%nat) ([0%nat] ++ map S idx))
            ++ [length (pre ++ line :: post)]
          = length pre :: map (λ i, k + i)%nat (idx ++ [length post])) as ->.
  { rewrite length_app. simpl. f_equal; [lia|].
    rewrite map_app, !map_map. simpl. f_equal.
    - apply map_ext. intros; lia.
    - f_equal. lia. }
  cbn [zip_with]. rewrite zip_map_shift, map_cons, map_map.
  f_equal; [apply slice_prefix|].
  apply map_ext. intros [a b]. cbn [fst snd].
  replace (pre ++ line :: post) with ((pre ++ [line]) ++ post)
    by (by rewrite <- app_assoc).
  replace (k + a)%nat with (length (pre ++ [line]) + a)%nat
    by (rewrite length_app; simpl; lia).
  replace (k + b)%nat with (length (pre ++ [line]) + b)%nat
    by (rewrite length_app; simpl; lia).
  apply slice_shift.
Qed.

(** The last segment is what stands after the last [loop_] line. *)
Lemma lines_groups_last pre line post :
  is_loop line → Forall (λ line, ¬ is_loop line) post →
  last (CifFile.lines_groups (pre ++ line :: post)) = Some post.
Proof.
  intros Hline Hpost. unfold CifFile.lines_groups.
  rewrite loop_indices_app, (loop_indices_loop line post) by done.
  set (idx := CifFile.loop_indices pre).
  assert (0%nat :: map S (idx ++ map (λ i, (length pre + i)%nat) [0%nat])
          = (0%nat :: map S idx) ++ [S (length pre)]) as ->.
  { rewrite map_app. simpl. by rewrite Nat.add_0_r. }
  assert ((idx ++ map (λ i, (length pre + i)%nat) [0%nat])
            ++ [length (pre ++ line :: post)]
          = (idx ++ [length pre]) ++ [length (pre ++ line :: post)]) as ->.
  { simpl. by rewrite Nat.add_0_r. }
  rewrite zip_with_app by (simpl; rewrite length_map, length_app; simpl; lia).
  rewrite map_app. cbn [zip_with map]. rewrite last_snoc. f_equal.
  replace (pre ++ line :: post) with ((pre ++ [line]) ++ post)
    by (by rewrite <- app_assoc).
  replace (S (length pre)) with (length (pre ++ [line]))
    by (rewrite length_app; simpl; lia).
  apply slice_suffix.
Qed.

(** X21.  The segments of a CIF file are what stands between its [loop_] lines:
    without such a line the file is one segment, and a first [loop_] line
    closes a segment and starts the segments of the rest of the file. *)
Theorem cif_lines_groups pre line post :
  Forall (λ line, ¬ is_loop line) pre →
  CifFile.lines_groups pre = [pre]
  ∧ (is_loop line →
     CifFile.lines_groups (pre ++ line :: post)
     = pre :: CifFile.lines_groups post).
Proof.
  intros Hpre. split.
  - by apply lines_groups_none.
  - by apply lines_groups_first.
Qed.

(** What [load] does with its first and its last segment. *)
Local Abbreviation read_segments first_ last_ :=
  (let* attrs := CifFile.load_attrs first_ ∅ in
   let* tb := CifFile.load_table last_ CifFile.empty_table in
   let atoms :=
     elements (list_to_set (CifFile.t_atom_types tb) : gset string) in
   let natoms := map (λ atom, Py.count atom (CifFile.t_atom_types tb)) atoms in
   Ok {| CifFile.attrs := attrs; CifFile.data := CifFile.t_data tb;
         CifFile.atom_names := CifFile.t_atom_names tb;
         CifFile.atoms := atoms; CifFile.natoms := natoms;
         CifFile.atoms_num := zip atoms natoms;
         CifFile.titles := CifFile.t_titles tb;
         CifFile.ntot := Z.of_nat (length (CifFile.t_atom_names tb)) |}).

(** X22.  [load] reads the attributes from the lines before the first [loop_]
    line and the atom table from the lines after the last one, and
    nothing from what stands between; in a file without a [loop_] line
    it reads both from all the lines. *)
Theorem cif_load_segments (content : string) :
  let lines := Py.readlines content in
  (Forall (λ line, ¬ is_loop line) lines →
   CifFile.load content = read_segments lines lines)
  ∧ (∀ pre line post pre' line' post',
       lines = pre ++ line :: post → is_loop line →
       Forall (λ line, ¬ is_loop line) pre →
       lines = pre' ++ line' :: post' → is_loop line' →
       Forall (λ line, ¬ is_loop line) post' →
       CifFile.load content = read_segments pre post').
Proof.
  intros lines. split.
  - intros Hnone. unfold CifFile.load. fold lines.
    by rewrite lines_groups_none.
  - intros pre line post pre' line' post' Hfirst Hline Hpre Hlast Hline' Hpost'.
    unfold CifFile.load. fold lines.
    assert (Py.index (CifFile.lines_groups lines) 0 = Ok pre) as ->.
    { rewrite Hfirst, lines_groups_first by done. done. }
    assert (Py.last_item (CifFile.lines_groups lines) = Ok post') as ->.
    { unfold Py.last_item. rewrite Hlast, lines_groups_last by done. done. }
    done.
Qed.

(** The attributes [load] sets are floats for the six cell parameters
    and strings for every other key. *)
Lemma load_attrs_typed lines (attrs attrs' : gmap string CifFile.attr_value) :
  (∀ k v, attrs !! k = Some v →
     k ∈ CifFile.float_candidates ↔ ∃ x, v = CifFile.AFloat x) →
  CifFile.load_attrs lines attrs = Ok attrs' →
  ∀ k v, attrs' !! k = Some v →
    k ∈ CifFile.float_candidates ↔ ∃ x, v = CifFile.AFloat x.
Proof.
  revert attrs. induction lines as [|line lines IH]; intros attrs Hinv; simpl.
  { by intros [= <-]. }
  destruct (Py.startswith "_" (Py.strip line)); [|by apply IH].
  destruct (CifFile.regex_match (Py.strip line)) as [[attr value]|];
    [|by apply IH].
  intros H. apply ebind_Ok in H as (v0 & Hv0 & H).
  destruct (CifFile.setattr_error attr); [done|].
  apply (IH (<[attr:=v0]> attrs)); [|done].
  intros k v. destruct (decide (k = attr)) as [->|Hne].
  - rewrite lookup_insert_eq. intros [= <-].
    case_bool_decide as Hcand.
    + apply ebind_Ok in Hv0 as (x & _ & [= <-]). split; [eauto|done].
    + injection Hv0 as <-. split; [done|]. by intros [x [=]].
  - rewrite lookup_insert_ne by done. apply Hinv.
Qed.

(** X23.  Every attribute that [load] sets from a [_key value] line is a
    float when the key is one of the six cell parameters
    ([cell_length_a], ..., [cell_angle_gamma]) and the text of the value
    for every other key. *)
Theorem cif_attrs_typed (content : string) (self : CifFile.t) (k : string)
    (v : CifFile.attr_value) :
  CifFile.load content = Ok self →
  CifFile.attrs self !! k = Some v →
  k ∈ CifFile.float_candidates ↔ ∃ x, v = CifFile.AFloat x.
Proof.
  unfold CifFile.load. intros H.
  apply ebind_Ok in H as (g0 & _ & H).
  apply ebind_Ok in H as (attrs & Hattrs & H).
  apply ebind_Ok in H as (glast & _ & H).
  apply ebind_Ok in H as (tb & _ & H). simplify_eq/=.
  apply (load_attrs_typed g0 ∅ attrs); [|done].
  intros k' v'. by rewrite lookup_empty.
Qed.

End cif_segments.

Lemma cif_lines_groups_witness :
  CifFile.lines_groups ["data_x"; "loop_"; "_a"; "loop_"; "_b"; "x"]%string
  = [["data_x"]; ["_a"]; ["_b"; "x"]]%string.
Proof.
  destruct (cif_lines_groups ["data_x"]%string "loop_"
              ["_a"; "loop_"; "_b"; "x"]%string) as [_ Hsplit].
  - repeat constructor; simpl; discriminate.
  - etrans; [exact (Hsplit eq_refl)|reflexivity].
Defined.

Lemma cif_load_segments_witness :
  let content := "data_x
_cell_length_a   5.43
loop_
_symmetry_equiv_pos_as_xyz
x, y, z
loop_
_atom_site_label
Si1 1.0 0.0 0.0 0.0 0.0 Uiso Si
"%string in
  match CifFile.load content with
  | Ok self =>
      CifFile.titles self = ["atom_site_label"]%string ∧ CifFile.ntot self = 1
  | Raise _ => False
  end.
Proof.
  intros content.
  rewrite (proj2 (cif_load_segments content)
             ["data_x
"; "_cell_length_a   5.43
"]%string
             "loop_
"%string
             ["_symmetry_equiv_pos_as_xyz
"; "x, y, z
"; "loop_
"; "_atom_site_label
"; "Si1 1.0 0.0 0.0 0.0 0.0 Uiso Si
"]%string
             ["data_x
"; "_cell_length_a   5.43
"; "loop_
"; "_symmetry_equiv_pos_as_xyz
"; "x, y, z
"]%string
             "loop_
"%string
             ["_atom_site_label
"; "Si1 1.0 0.0 0.0 0.0 0.0 Uiso Si
"]%string).
  - by vm_compute.
  - by vm_compute.
  - reflexivity.
  - repeat constructor; discriminate.
  - by vm_compute.
  - reflexivity.
  - repeat constructor; discriminate.
Defined.

Lemma cif_attrs_typed_witness :
  let content := "data_x
_cell_length_a   5.43
_chemical_name   quartz
loop_
_atom_site_label
Si1 1.0 0.0 0.0 0.0 0.0 Uiso Si
"%string in
  ∃ self,
    CifFile.load content = Ok self
    ∧ CifFile.attrs self !! "chemical_name"%string
      = Some (CifFile.AStr "quartz")
    ∧ ∃ x, CifFile.attrs self !! "cell_length_a"%string
           = Some (CifFile.AFloat x).
Proof.
  intros content.
  destruct (CifFile.load content) as [self|e] eqn:Hload; [|by vm_compute in Hload].
  exists self. split; [done|].
  destruct (CifFile.attrs self !! "cell_length_a"%string) as [v|] eqn:Hv.
  - destruct (proj1 (cif_attrs_typed content self "cell_length_a" v Hload Hv))
      as [x ->].
    { unfold CifFile.float_candidates. rewrite elem_of_cons. by left. }
    split; [|by exists x].
    clear Hv. vm_compute in Hload. by simplify_eq.
  - vm_compute in Hload. by simplify_eq.
Defined.
